(** * evalml: the engine base (evalml/automl/engine/engine_base.py)

    A shallow embedding of [JobLogger] and of the cross-validation procedure
    [train_and_score_pipeline] with its helpers [train_pipeline],
    [_encode_classification_target] and [_train_and_score].

    Conventions of the embedding.
    - Python floats are the kernel's binary64 floats ([PrimFloat.float]), so
      [np.nan] is [PrimFloat.nan].
    - Python exceptions are values of [exn]; a computation returns [Ok v] or
      [Raise e] together with the state it reached.
    - The collaborators the module only calls (the pipeline, the data splitter,
      the error callback, woodwork, evalml.automl.utils, the clock) are the
      fields of one record [Collab]; each of them may read and change an
      abstract [World] and may raise.
    - A ghost [trace] records, in order, every call of [train_pipeline], of
      [pipeline.score] and of the error callback, with the arguments passed. *)

From Stdlib Require Import String Ascii List ZArith Bool Arith Lia.
From Stdlib Require Import PrimFloat Uint63 DecimalString.
Import ListNotations.
Open Scope string_scope.
Open Scope list_scope.

(** String concatenation, as [+] on Python strings and as f-strings join
    their pieces. *)
Infix "+++" := String.append (right associativity, at level 60).

Set Implicit Arguments.

(* ------------------------------------------------------------------ *)
(** ** Python values used by the module *)

(** [np.nan]. *)
Definition NaN : float := PrimFloat.nan.

(** [float(n)] for a count [n]. *)
Definition float_of_nat (n : nat) : float :=
  PrimFloat.of_uint63 (Uint63.of_Z (Z.of_nat n)).

(** [str(n)] for a non-negative integer, as an f-string prints [{i}]. *)
Definition str_of_nat (n : nat) : string :=
  NilZero.string_of_uint (Nat.to_uint n).

(** The tab character of the log messages. *)
Definition tab : string := String (ascii_of_nat 9) EmptyString.

(** The exceptions that reach this module.  [PipelineScoreError] carries the
    two dictionaries the handler reads: [exceptions], keyed by the names of the
    objectives that failed, and [scored_successfully], from the name of each
    objective that was scored to its score.  [Raised] stands for any other
    exception a collaborator raises; [is_exception] tells whether its class
    derives from [Exception] (KeyboardInterrupt and SystemExit do not). *)
Inductive exn : Type :=
| KeyError (key : string)
| NameError (variable : string)
| IndexError
| Exception (message : string)
| PipelineScoreError (exceptions : list (string * string))
                     (scored_successfully : list (string * float))
| Raised (cls : string) (is_exception : bool).

(** [isinstance(e, Exception)]: what [except Exception] catches. *)
Definition isinstance_Exception (e : exn) : bool :=
  match e with
  | Raised _ b => b
  | _ => true
  end.

(** [isinstance(e, PipelineScoreError)]. *)
Definition isinstance_PipelineScoreError (e : exn) : bool :=
  match e with
  | PipelineScoreError _ _ => true
  | _ => false
  end.

(** The outcome of a call: a value or a raised exception. *)
Inductive Res (A : Type) : Type :=
| Ok (a : A)
| Raise (e : exn).
Arguments Ok {A} a.
Arguments Raise {A} e.

(* ------------------------------------------------------------------ *)
(** ** Insertion-ordered dictionaries ([dict], [OrderedDict]) *)

Section Dict.
Variables K V : Type.
Variable eqb : K -> K -> bool.

(** A dictionary is the list of its items in insertion order; the functions
    below never produce a repeated key. *)
Definition dict := list (K * V).

(** [d.get(k)] / [k in d]. *)
Fixpoint dict_get (k : K) (d : dict) : option V :=
  match d with
  | [] => None
  | (k', v) :: rest => if eqb k k' then Some v else dict_get k rest
  end.

(** [d[k] = v]: a present key keeps its position and takes the new value, a
    new key goes last. *)
Fixpoint dict_set (k : K) (v : V) (d : dict) : dict :=
  match d with
  | [] => [(k, v)]
  | (k', v') :: rest =>
      if eqb k k' then (k', v) :: rest else (k', v') :: dict_set k v rest
  end.

(** [d.update(items)], and [{**d, **items}] on a copy of [d]. *)
Definition dict_update (d : dict) (items : list (K * V)) : dict :=
  fold_left (fun acc kv => dict_set (fst kv) (snd kv) acc) items d.

(** [dict(items)] / [OrderedDict(items)] from a sequence of pairs. *)
Definition dict_of_items (items : list (K * V)) : dict :=
  dict_update [] items.

(** [list(d.keys())]. *)
Definition dict_keys (d : dict) : list K := map fst d.
End Dict.

(* ------------------------------------------------------------------ *)
(** ** JobLogger *)

(** The interface [write_to_logger] needs of its target (a [logging.Logger] or
    anything shaped like one): four methods, each taking a message and acting
    on the target's state [T]. *)
Class LoggerLike (T : Type) : Type := {
  logger_info : string -> T -> T;
  logger_debug : string -> T -> T;
  logger_warning : string -> T -> T;
  logger_error : string -> T -> T
}.

Module JobLogger.

(** [self.logs]: the (level, message) pairs, oldest first. *)
Record t : Type := mk { logs : list (string * string) }.

(** [__init__]. *)
Definition init : t := mk [].

Definition info (msg : string) (self : t) : t :=
  mk (logs self ++ [("info", msg)]).

Definition debug (msg : string) (self : t) : t :=
  mk (logs self ++ [("debug", msg)]).

Definition warning (msg : string) (self : t) : t :=
  mk (logs self ++ [("warning", msg)]).

Definition error (msg : string) (self : t) : t :=
  mk (logs self ++ [("error", msg)]).

(** The dictionary [logger_method] of [write_to_logger]. *)
Definition logger_method {T} `{LoggerLike T}
  : dict string (string -> T -> T) :=
  [ ("info", logger_info);
    ("debug", logger_debug);
    ("warning", logger_warning);
    ("error", logger_warning) ].

(** The loop [for level, message in self.logs]: [logger_method[level]] raises
    KeyError on a level outside the dictionary, after the earlier entries
    were delivered. *)
Fixpoint replay {T} (table : dict string (string -> T -> T))
  (entries : list (string * string)) (logger : T) : Res unit * T :=
  match entries with
  | [] => (Ok tt, logger)
  | (level, message) :: rest =>
      match dict_get String.eqb level table with
      | Some method => replay table rest (method message logger)
      | None => (Raise (KeyError level), logger)
      end
  end.

(** [write_to_logger(self, logger)].  The target is an object of its own (a
    JobLogger is never its own target); the result gives the outcome, the
    JobLogger after the call and the target after the call. *)
Definition write_to_logger {T} `{LoggerLike T} (self : t) (logger : T)
  : Res unit * (t * T) :=
  let r := replay logger_method (logs self) logger in
  (fst r, (self, snd r)).

End JobLogger.

(** A JobLogger is itself shaped like a logger. *)
#[export] Instance JobLogger_LoggerLike : LoggerLike JobLogger.t := {
  logger_info := JobLogger.info;
  logger_debug := JobLogger.debug;
  logger_warning := JobLogger.warning;
  logger_error := JobLogger.error
}.

(** The four logging methods, to speak of a sequence of calls. *)
Inductive log_call : Type := CallInfo | CallDebug | CallWarning | CallError.

(** The level a method of JobLogger stores. *)
Definition level_of (c : log_call) : string :=
  match c with
  | CallInfo => "info"
  | CallDebug => "debug"
  | CallWarning => "warning"
  | CallError => "error"
  end.

(** Calling method [c] with [msg] on any logger-like object. *)
Definition invoke {T} `{LoggerLike T} (c : log_call) (msg : string) (x : T) : T :=
  match c with
  | CallInfo => logger_info msg x
  | CallDebug => logger_debug msg x
  | CallWarning => logger_warning msg x
  | CallError => logger_error msg x
  end.

(** A sequence of method calls, first call first. *)
Definition invoke_all {T} `{LoggerLike T} (calls : list (log_call * string)) (x : T) : T :=
  fold_left (fun acc c => invoke (fst c) (snd c) acc) calls x.

(** The method of the target that receives a buffered call on flush. *)
Definition flushed_as (c : log_call) : log_call :=
  match c with
  | CallError => CallWarning
  | other => other
  end.

(** A target that only records the calls it receives, oldest first. *)
Definition Recorder : Type := list (log_call * string).

#[export] Instance Recorder_LoggerLike : LoggerLike Recorder := {
  logger_info := fun msg r => r ++ [(CallInfo, msg)];
  logger_debug := fun msg r => r ++ [(CallDebug, msg)];
  logger_warning := fun msg r => r ++ [(CallWarning, msg)];
  logger_error := fun msg r => r ++ [(CallError, msg)]
}.

(* ------------------------------------------------------------------ *)
(** ** Data: targets, feature tables, pandas and numpy operations *)

(** A target ([pd.Series]): its values in row order.  Labels are integers. *)
Definition Series : Type := list Z.

(** A feature table ([pd.DataFrame]): per row, its index label and its
    content. *)
Definition DataFrame (Row : Type) : Type := list (Z * Row).

(** [obj.ww.iloc[positions]]: the rows at the given positions, in the order
    asked; a position past the end raises IndexError. *)
Fixpoint iloc {A : Type} (l : list A) (positions : list nat) : Res (list A) :=
  match positions with
  | [] => Ok []
  | p :: rest =>
      match nth_error l p with
      | None => Raise IndexError
      | Some a =>
          match iloc l rest with
          | Ok r => Ok (a :: r)
          | Raise e => Raise e
          end
      end
  end.

(** The distinct values of a target, in order of first appearance. *)
Definition distinct (y : Series) : list Z :=
  fold_left (fun seen v => if existsb (Z.eqb v) seen then seen else seen ++ [v])
            y [].

(** The number of rows of [y] holding [v]. *)
Definition occurrences (v : Z) (y : Series) : nat :=
  length (filter (Z.eqb v) y).

(** Insertion in a list ordered by decreasing count.  For two values of
    equal count, [listed_before a b] tells whether [a] stays before [b]. *)
Fixpoint insert_by_count (listed_before : Z -> Z -> bool) (x : Z * nat)
  (l : list (Z * nat)) : list (Z * nat) :=
  match l with
  | [] => [x]
  | h :: t =>
      if (snd x <? snd h)%nat then h :: insert_by_count listed_before x t
      else if (snd x =? snd h)%nat && listed_before (fst h) (fst x)
           then h :: insert_by_count listed_before x t
           else x :: l
  end.

(** [y.value_counts()]: each distinct value with its count, most frequent
    first.  pandas leaves the order of equally frequent values unspecified
    (it depends on the version and on the sort it runs): [listed_before] is
    that order. *)
Definition value_counts (listed_before : Z -> Z -> bool) (y : Series)
  : list (Z * nat) :=
  fold_right (insert_by_count listed_before) []
             (map (fun v => (v, occurrences v y)) (distinct y)).

(** [enumerate(l)]. *)
Definition enumerate {A : Type} (l : list A) : list (nat * A) :=
  combine (seq 0 (length l)) l.

(** [_encode_classification_target(y)]: [y_mapping] sends the j-th entry of
    [y.value_counts().index] to [j]; [y.map(y_mapping)] replaces each value by
    its code.  (Every value of [y] is a key of [y_mapping], so the branch for
    an unmapped value is never taken.) *)
Definition _encode_classification_target (listed_before : Z -> Z -> bool)
  (y : Series) : Series :=
  let y_mapping : dict Z Z :=
    dict_of_items Z.eqb
      (map (fun p => (snd p, Z.of_nat (fst p)))
           (enumerate (map fst (value_counts listed_before y)))) in
  map (fun v => match dict_get Z.eqb v y_mapping with
                | Some encoded_target => encoded_target
                | None => v
                end) y.

(** Insertion in a strictly increasing list. *)
Fixpoint insert_unique (v : Z) (l : list Z) : list Z :=
  match l with
  | [] => [v]
  | h :: t =>
      if (v <? h)%Z then v :: l
      else if (v =? h)%Z then l
      else h :: insert_unique v t
  end.

(** [np.unique(a)]: the distinct values of [a], increasing. *)
Definition np_unique (a : list Z) : list Z := fold_right insert_unique [] a.

(** [np.setdiff1d(a, b)]: the distinct values of [a] that are not in [b],
    increasing. *)
Definition setdiff1d (a b : list Z) : list Z :=
  filter (fun v => negb (existsb (Z.eqb v) b)) (np_unique a).

(** [pd.Series(values).mean()].  pandas averages with [skipna=True] unless told
    otherwise: it counts the entries that are not NaN, puts 0 in the place of
    the NaN ones, has numpy sum the values, and divides the sum by the count;
    the mean of nothing is NaN.  [sum] is numpy's sum of an array of floats:
    the order in which it adds (pairwise from eight values on) is numpy's
    own. *)
Definition Series_mean (sum : list float -> float) (values : list float)
  : float :=
  let count :=
    length (filter (fun v => negb (PrimFloat.is_nan v)) values) in
  let filled :=
    map (fun v => if PrimFloat.is_nan v then 0%float else v) values in
  if (0 <? count)%nat then (sum filled / float_of_nat count)%float else NaN.

(* ------------------------------------------------------------------ *)
(** ** Configuration, results *)

(** An objective, as far as this module reads it: its [name]. *)
Record Objective : Type := { name : string }.

(** evalml.problem_types.ProblemTypes (imported by the module). *)
Inductive ProblemTypes : Type :=
| BINARY
| MULTICLASS
| REGRESSION
| TIME_SERIES_REGRESSION
| TIME_SERIES_BINARY
| TIME_SERIES_MULTICLASS.

Definition ProblemTypes_eqb (a b : ProblemTypes) : bool :=
  match a, b with
  | BINARY, BINARY
  | MULTICLASS, MULTICLASS
  | REGRESSION, REGRESSION
  | TIME_SERIES_REGRESSION, TIME_SERIES_REGRESSION
  | TIME_SERIES_BINARY, TIME_SERIES_BINARY
  | TIME_SERIES_MULTICLASS, TIME_SERIES_MULTICLASS => true
  | _, _ => false
  end.

(** The attributes of [automl_config] the module reads.  The data splitter and
    the error callback are objects of the caller; what calling them does is
    given by [Collab]. *)
Record AutoMLConfig (Splitter Callback Schema : Type) : Type := {
  objective : Objective;
  additional_objectives : list Objective;
  data_splitter : Splitter;
  problem_type : ProblemTypes;
  optimize_thresholds : bool;
  error_callback : option Callback;
  X_schema : option Schema;
  y_schema : option Schema
}.

(** A value of a fold's [all_objective_scores]: a score or a row count. *)
Inductive cell : Type :=
| Score (v : float)
| Count (n : nat).

(** One item of [cv_data]. *)
Record Entry : Type := {
  all_objective_scores : dict string cell;
  mean_cv_score : float;
  binary_classification_threshold : option float
}.

(** The value under ["scores"] of the returned dictionary. *)
Record Scores : Type := {
  cv_data : list Entry;
  training_time : float;
  cv_scores : list float;
  cv_score_mean : float;
  holdout_score : option float;
  holdout_scores : option (dict string float)
}.

(* ------------------------------------------------------------------ *)
(** ** The collaborators *)

(** Everything the module calls and does not define.  A call takes the
    [World] it runs in and returns its outcome with the world it leaves.
    Methods that change their receiver ([fit], [tune_binary_threshold]) return
    the receiver as changed.  String formatting of floats ([:.3f]) and of sets
    is left to [format_3f] and [repr_set]. *)
Record Collab : Type := {
  Row : Type;
  Pipeline : Type;
  Components : Type;
  World : Type;
  Splitter : Type;
  Callback : Type;
  Schema : Type;

  (* The pipeline. *)
  clone : Pipeline -> World -> Res Pipeline * World;
  fit : Pipeline -> DataFrame Row -> Series -> World -> Res Pipeline * World;
  score : Pipeline -> DataFrame Row -> Series -> list Objective ->
          DataFrame Row -> Series -> World -> Res (dict string float) * World;
  threshold : Pipeline -> option float;
  pipeline_problem_type : Pipeline -> ProblemTypes;
  component_instances : Pipeline -> Components;

  (* evalml.automl.utils *)
  get_threshold_tuning_info :
    AutoMLConfig Splitter Callback Schema -> Pipeline ->
    World -> Res (option Objective * bool) * World;
  resplit_training_data :
    Pipeline -> DataFrame Row -> Series ->
    World -> Res (DataFrame Row * DataFrame Row * Series * Series) * World;
  tune_binary_threshold :
    Pipeline -> option Objective -> ProblemTypes ->
    option (DataFrame Row) -> option Series -> DataFrame Row -> Series ->
    World -> Res Pipeline * World;

  (* evalml.problem_types *)
  handle_problem_types : ProblemTypes -> ProblemTypes;
  is_binary : ProblemTypes -> bool;
  is_classification : ProblemTypes -> bool;

  (* The objects held by the configuration. *)
  split : Splitter -> DataFrame Row -> Series ->
          World -> Res (list (list nat * list nat)) * World;
  call_error_callback :
    Callback -> exn -> list string -> AutoMLConfig Splitter Callback Schema ->
    nat -> Pipeline -> World -> Res unit * World;

  (* woodwork *)
  ww_init_X : DataFrame Row -> Schema -> World -> Res unit * World;
  ww_init_y : Series -> Schema -> World -> Res unit * World;

  (* pandas and numpy: the order in which [value_counts] lists two equally
     frequent values of a series, and the sum of an array of floats. *)
  value_counts_order : Series -> Z -> Z -> bool;
  ndarray_sum : list float -> float;

  (* Builtins. *)
  time_time : World -> float * World;
  format_tb : exn -> list string;
  hash_index : list Z -> Z;
  format_3f : float -> string;
  repr_set : list Z -> string
}.

(* ------------------------------------------------------------------ *)
(** ** Computations: state and exceptions *)

(** A computation over a state [S]: it returns a value or raises, and in both
    cases leaves the state it reached. *)
Definition M (S A : Type) : Type := S -> Res A * S.

Definition ret {S A : Type} (a : A) : M S A := fun s => (Ok a, s).

Definition raise {S A : Type} (e : exn) : M S A := fun s => (Raise e, s).

Definition bind {S A B : Type} (m : M S A) (k : A -> M S B) : M S B :=
  fun s =>
    match m s with
    | (Ok a, s') => k a s'
    | (Raise e, s') => (Raise e, s')
    end.

(** [try: body / except Exception as e: handler e]. *)
Definition try_except {S A : Type} (body : M S A) (handler : exn -> M S A)
  : M S A :=
  fun s =>
    match body s with
    | (Ok a, s') => (Ok a, s')
    | (Raise e, s') =>
        if isinstance_Exception e then handler e s' else (Raise e, s')
    end.

(** A pure step that may raise. *)
Definition of_res {S A : Type} (r : Res A) : M S A := fun s => (r, s).

Declare Scope monad_scope.
Delimit Scope monad_scope with monad.
Notation "x <- c1 ;; c2" := (bind c1 (fun x => c2))
  (at level 61, c1 at next level, right associativity) : monad_scope.
Notation "' pat <- c1 ;; c2" :=
  (bind c1 (fun x => match x with pat => c2 end))
  (at level 61, pat pattern, c1 at next level, right associativity) : monad_scope.
Notation "c1 ;; c2" := (bind c1 (fun _ => c2))
  (at level 61, right associativity) : monad_scope.
Open Scope monad_scope.

(** [d[k]] on a dictionary keyed by strings. *)
Definition getitem {V : Type} (d : dict string V) (k : string) : Res V :=
  match dict_get String.eqb k d with
  | Some v => Ok v
  | None => Raise (KeyError k)
  end.

(** Equality of cache keys (the hash returned by [train_pipeline], or None). *)
Definition key_eqb (a b : option Z) : bool :=
  match a, b with
  | Some x, Some y => Z.eqb x y
  | None, None => true
  | _, _ => false
  end.

(* ------------------------------------------------------------------ *)
(** ** The engine's procedures *)

Section Engine.
Variable C : Collab.

Abbreviation Config := (AutoMLConfig (Splitter C) (Callback C) (Schema C)).
Abbreviation Table := (DataFrame (Row C)).

(** What the ghost trace records. *)
Inductive event : Type :=
| TrainPipelineCall (p : Pipeline C) (X : Table) (y : Series)
| ScoreCall (p : Pipeline C) (X : Table) (y : Series)
            (objectives : list Objective) (X_train : Table) (y_train : Series)
| ErrorCallbackCall (exception : exn) (traceback : list string)
                    (automl : Config) (fold_num : nat) (p : Pipeline C).

(** The state a run of [train_and_score_pipeline] works on: the world of the
    collaborators, the [logger] argument (a JobLogger), the ghost trace, and
    the variables the nested function shares with its caller:
    [pipeline_cache], the loop variable [i] (None while it is unbound) and
    [_train_and_score]'s local [fitted_pipeline]. *)
Record St : Type := {
  world : World C;
  job_logger : JobLogger.t;
  trace : list event;
  pipeline_cache : dict (option Z) (Components C);
  loop_i : option nat;
  fitted_pipeline : Pipeline C
}.

Definition with_world (w : World C) (s : St) : St :=
  {| world := w; job_logger := job_logger s; trace := trace s;
     pipeline_cache := pipeline_cache s; loop_i := loop_i s;
     fitted_pipeline := fitted_pipeline s |}.

Definition with_logger (l : JobLogger.t) (s : St) : St :=
  {| world := world s; job_logger := l; trace := trace s;
     pipeline_cache := pipeline_cache s; loop_i := loop_i s;
     fitted_pipeline := fitted_pipeline s |}.

Definition with_trace (t : list event) (s : St) : St :=
  {| world := world s; job_logger := job_logger s; trace := t;
     pipeline_cache := pipeline_cache s; loop_i := loop_i s;
     fitted_pipeline := fitted_pipeline s |}.

Definition with_cache (c : dict (option Z) (Components C)) (s : St) : St :=
  {| world := world s; job_logger := job_logger s; trace := trace s;
     pipeline_cache := c; loop_i := loop_i s;
     fitted_pipeline := fitted_pipeline s |}.

Definition with_i (i : option nat) (s : St) : St :=
  {| world := world s; job_logger := job_logger s; trace := trace s;
     pipeline_cache := pipeline_cache s; loop_i := i;
     fitted_pipeline := fitted_pipeline s |}.

Definition with_fitted (p : Pipeline C) (s : St) : St :=
  {| world := world s; job_logger := job_logger s; trace := trace s;
     pipeline_cache := pipeline_cache s; loop_i := loop_i s;
     fitted_pipeline := p |}.

(** A call of a collaborator. *)
Definition call {A : Type} (f : World C -> Res A * World C) : M St A :=
  fun s => let r := f (world s) in (fst r, with_world (snd r) s).

(** [time.time()]. *)
Definition now : M St float :=
  fun s => let r := time_time C (world s) in (Ok (fst r), with_world (snd r) s).

(** A ghost step. *)
Definition emit (e : event) : M St unit :=
  fun s => (Ok tt, with_trace (trace s ++ [e]) s).

(** [logger.info(msg)] and [logger.debug(msg)]. *)
Definition info (msg : string) : M St unit :=
  fun s => (Ok tt, with_logger (JobLogger.info msg (job_logger s)) s).

Definition debug (msg : string) : M St unit :=
  fun s => (Ok tt, with_logger (JobLogger.debug msg (job_logger s)) s).

(** Reading the loop variable [i] from the nested function: NameError while
    the loop has not bound it. *)
Definition read_i : M St nat :=
  fun s => match loop_i s with
           | Some i => (Ok i, s)
           | None => (Raise (NameError "i"), s)
           end.

Definition bind_i (i : nat) : M St unit :=
  fun s => (Ok tt, with_i (Some i) s).

Definition set_fitted_pipeline (p : Pipeline C) : M St unit :=
  fun s => (Ok tt, with_fitted p s).

Definition get_fitted_pipeline : M St (Pipeline C) :=
  fun s => (Ok (fitted_pipeline s), s).

(** [pipeline_cache[key] = value]. *)
Definition cache_set (key : option Z) (value : Components C) : M St unit :=
  fun s => (Ok tt, with_cache (dict_set key_eqb key value (pipeline_cache s)) s).

Definition get_cache : M St (dict (option Z) (Components C)) :=
  fun s => (Ok (pipeline_cache s), s).

Definition get_logger : M St JobLogger.t :=
  fun s => (Ok (job_logger s), s).

(** [train_pipeline(pipeline, X, y, automl_config, schema, get_hashes)].  The
    first step records the call in the ghost trace. *)
Definition train_pipeline (pipeline : Pipeline C) (X : Table) (y : Series)
  (automl_config : Config) (schema get_hashes : bool)
  : M St (Pipeline C * option Z) :=
  emit (TrainPipelineCall pipeline X y) ;;
  match X_schema automl_config with
  | Some sch => if schema then call (ww_init_X C X sch) else ret tt
  | None => ret tt
  end ;;
  match y_schema automl_config with
  | Some sch => if schema then call (ww_init_y C y sch) else ret tt
  | None => ret tt
  end ;;
  ' (threshold_tuning_objective, data_needs_resplitting) <-
    call (get_threshold_tuning_info C automl_config pipeline) ;;
  ' (X, X_threshold_tuning, y, y_threshold_tuning) <-
    (if data_needs_resplitting : bool
     then ' (X1, X_tt, y1, y_tt) <- call (resplit_training_data C pipeline X y) ;;
          ret (X1, Some X_tt, y1, Some y_tt)
     else ret (X, None, y, None)) ;;
  cv_pipeline <- call (clone C pipeline) ;;
  cv_pipeline <- call (fit C cv_pipeline X y) ;;
  cv_pipeline <-
    call (tune_binary_threshold C cv_pipeline threshold_tuning_objective
            (pipeline_problem_type C cv_pipeline)
            X_threshold_tuning y_threshold_tuning X y) ;;
  if negb get_hashes then ret (cv_pipeline, None)
  else ret (cv_pipeline, Some (hash_index C (map fst X))).

(** [{o.name: scores[o.name] for o in objectives}], before the items are
    made a dictionary: the first name that [scores] lacks raises KeyError. *)
Fixpoint scores_by_name (scores : dict string float) (objectives : list Objective)
  : Res (list (string * float)) :=
  match objectives with
  | [] => Ok []
  | o :: rest =>
      match getitem scores (name o) with
      | Raise e => Raise e
      | Ok v =>
          match scores_by_name scores rest with
          | Ok items => Ok ((name o, v) :: items)
          | Raise e => Raise e
          end
      end
  end.

(** The message of the exception raised on missing target values. *)
Definition diff_string (diff_train diff_valid : list Z) : string :=
  (match diff_train with
   | [] => ""
   | _ => "Missing target values in the training set after data split: "
          +++ repr_set C diff_train +++ ". "
   end)
  +++
  (match diff_valid with
   | [] => ""
   | _ => "Missing target values in the validation set after data split: "
          +++ repr_set C diff_valid +++ "."
   end).

(** The result of [train_and_score_pipeline]. *)
Record Result : Type := {
  scores : Scores;
  cached_data : dict (option Z) (Components C);
  pipeline : Pipeline C;
  logger : JobLogger.t
}.

Section train_and_score_pipeline.
Variable pipeline : Pipeline C.
Variable automl_config : Config.

(** The [try] block of [_train_and_score]; it returns [(score, scores)]
    and leaves the trained pipeline in [fitted_pipeline].  The call of
    [pipeline.score] is recorded in the ghost trace just before it is made. *)
Definition _train_and_score_try (prefix : string)
  (objectives_to_score : list Objective)
  (X_train X_score : Table) (y_train y_score : Series)
  : M St (float * dict string float) :=
  debug (tab +++ tab +++ tab +++ prefix +++ ": starting training") ;;
  ' (fitted, hashes) <-
    train_pipeline pipeline X_train y_train automl_config false true ;;
  set_fitted_pipeline fitted ;;
  debug (tab +++ tab +++ tab +++ prefix +++ ": finished training") ;;
  (if optimize_thresholds automl_config
      && is_binary C (problem_type automl_config)
   then match threshold C fitted with
        | Some t =>
            debug (tab +++ tab +++ tab +++ prefix
                   +++ ": Optimal threshold found (" +++ format_3f C t +++ ")")
        | None => ret tt
        end
   else ret tt) ;;
  debug (tab +++ tab +++ tab +++ prefix +++ ": Scoring trained pipeline") ;;
  emit (ScoreCall fitted X_score y_score objectives_to_score X_train y_train) ;;
  scores <-
    call (score C fitted X_score y_score objectives_to_score X_train y_train) ;;
  shown <- of_res (getitem scores (name (objective automl_config))) ;;
  debug (tab +++ tab +++ tab +++ prefix +++ ": "
         +++ name (objective automl_config) +++ " score: "
         +++ format_3f C shown) ;;
  score <- of_res (getitem scores (name (objective automl_config))) ;;
  cache_set hashes (component_instances C fitted) ;;
  ret (score, scores).

(** The [if isinstance(e, PipelineScoreError): ... else: ...] statement of
    the [except] block: the [(score, scores)] it assigns.  It touches no
    state; a [scores[o.name]] on a missing name raises KeyError. *)
Definition scores_after_failure (e : exn)
  : Res (float * dict string float) :=
  match e with
  | PipelineScoreError exceptions scored_successfully =>
      let nan_scores :=
        dict_of_items String.eqb (map (fun kv => (fst kv, NaN)) exceptions) in
      let scores := dict_update String.eqb nan_scores scored_successfully in
      match scores_by_name scores
              (objective automl_config
               :: additional_objectives automl_config) with
      | Raise raised => Raise raised
      | Ok items =>
          let scores := dict_of_items String.eqb items in
          match getitem scores (name (objective automl_config)) with
          | Raise raised => Raise raised
          | Ok score => Ok (score, scores)
          end
      end
  | _ =>
      Ok (NaN,
          dict_of_items String.eqb
            (map (fun n => (name n, NaN))
                 (additional_objectives automl_config)))
  end.

(** The call of the error callback, when one is configured; [i] is the
    value of the loop variable, passed as [fold_num]. *)
Definition report_failure (i : nat) (e : exn) : M St unit :=
  match error_callback automl_config with
  | Some callback =>
      emit (ErrorCallbackCall e (format_tb C e) automl_config i pipeline) ;;
      call (call_error_callback C callback e (format_tb C e)
              automl_config i pipeline)
  | None => ret tt
  end.

(** The [except Exception as e] block of [_train_and_score]. *)
Definition _train_and_score_except (i : nat) (e : exn)
  : M St (float * dict string float) :=
  report_failure i e ;;
  of_res (scores_after_failure e).

(** [_train_and_score(X_train, X_score, y_train, y_score, fold_num)].  The
    body never reads [fold_num]: the prefix of its log messages and the
    fold number given to the error callback are the loop variable [i] of
    the enclosing function.  (A bound [i] is an integer, so the prefix is
    always the "Fold" one.) *)
Definition _train_and_score (X_train X_score : Table)
  (y_train y_score : Series) (fold_num : option nat)
  : M St (float * dict string float * Pipeline C) :=
  set_fitted_pipeline pipeline ;;
  i <- read_i ;;
  let prefix := "Fold " +++ str_of_nat i in
  let objectives_to_score :=
    objective automl_config :: additional_objectives automl_config in
  ' (score, scores) <-
    try_except
      (_train_and_score_try prefix objectives_to_score
         X_train X_score y_train y_score)
      (_train_and_score_except i) ;;
  fitted <- get_fitted_pipeline ;;
  ret (score, scores, fitted).

Variable full_X_train : Table.

(** The target the loop works on: [full_y_train] after the statement
    [full_y_train = _encode_classification_target(full_y_train)], which
    runs when the problem is a classification. *)
Variable full_y_train : Series.

(** [handle_problem_types(automl_config.problem_type) in
    [ProblemTypes.BINARY, ProblemTypes.MULTICLASS]]. *)
Definition checks_target_values : bool :=
  existsb
    (ProblemTypes_eqb (handle_problem_types C (problem_type automl_config)))
    [BINARY; MULTICLASS].

(** The fold's entry of [cv_data], from what [_train_and_score] returned. *)
Definition evaluation_entry (score : float) (scores : dict string float)
  (stored_pipeline : Pipeline C) (y_train y_valid : Series) : Entry :=
  let ordered_scores : dict string cell := [] in
  let ordered_scores :=
    dict_update String.eqb ordered_scores
      [(name (objective automl_config), Score score)] in
  let ordered_scores :=
    dict_update String.eqb ordered_scores
      (map (fun kv => (fst kv, Score (snd kv))) scores) in
  let ordered_scores :=
    dict_update String.eqb ordered_scores
      [("# Training", Count (length y_train))] in
  let ordered_scores :=
    dict_update String.eqb ordered_scores
      [("# Validation", Count (length y_valid))] in
  {| all_objective_scores := ordered_scores;
     mean_cv_score := score;
     binary_classification_threshold :=
       if is_binary C (problem_type automl_config)
       then threshold C stored_pipeline
       else None |}.

(** One turn of the loop [for i, (train, valid) in enumerate(...)]: it
    returns the entry appended to [cv_data] and the new
    [stored_pipeline]. *)
Definition cv_fold (i : nat) (train valid : list nat)
  : M St (Entry * Pipeline C) :=
  bind_i i ;;
  debug (tab +++ tab +++ "Training and scoring on fold " +++ str_of_nat i) ;;
  X_train <- of_res (iloc full_X_train train) ;;
  X_valid <- of_res (iloc full_X_train valid) ;;
  y_train <- of_res (iloc full_y_train train) ;;
  y_valid <- of_res (iloc full_y_train valid) ;;
  (if checks_target_values
   then
     let diff_train := setdiff1d full_y_train y_train in
     let diff_valid := setdiff1d full_y_train y_valid in
     match diff_string diff_train diff_valid with
     | EmptyString => ret tt
     | message => raise (Exception message)
     end
   else ret tt) ;;
  ' (score, scores, stored_pipeline) <-
    _train_and_score X_train X_valid y_train y_valid (Some i) ;;
  ret (evaluation_entry score scores stored_pipeline y_train y_valid,
       stored_pipeline).

(** The loop over the folds the splitter gave, from fold number [i] on. *)
Fixpoint cv_loop (folds : list (list nat * list nat)) (i : nat)
  (cv_data : list Entry) (stored_pipeline : Pipeline C)
  : M St (list Entry * Pipeline C) :=
  match folds with
  | [] => ret (cv_data, stored_pipeline)
  | (train, valid) :: rest =>
      ' (entry, stored_pipeline) <- cv_fold i train valid ;;
      cv_loop rest (S i) (cv_data ++ [entry]) stored_pipeline
  end.

(** The statements of [train_and_score_pipeline] from the loop to the
    [return].  [y_holdout] is the holdout target after its own
    re-encoding, when that ran. *)
Definition train_and_score_pipeline_rest (start : float)
  (X_holdout : option Table) (y_holdout : option Series) : M St Result :=
  let use_holdout :=
    match X_holdout, y_holdout with
    | Some _, Some _ => true
    | _, _ => false
    end in
  let stored_pipeline := pipeline in
  folds <- call (split C (data_splitter automl_config)
                   full_X_train full_y_train) ;;
  ' (cv_data, stored_pipeline) <- cv_loop folds 0 [] stored_pipeline ;;
  let cv_scores := map mean_cv_score cv_data in
  let cv_score_mean := Series_mean (ndarray_sum C) cv_scores in
  info (tab +++ "Finished cross validation - mean "
        +++ name (objective automl_config) +++ ": "
        +++ format_3f C cv_score_mean) ;;
  ' (holdout_score, holdout_scores, stored_pipeline) <-
    match X_holdout, y_holdout with
    | Some X_holdout, Some y_holdout =>
        info (tab +++ "Starting holdout set scoring") ;;
        debug (tab +++ tab +++ "Training and scoring entire dataset") ;;
        ' (holdout_score, holdout_scores, stored_pipeline) <-
          _train_and_score full_X_train X_holdout full_y_train y_holdout None ;;
        info (tab +++ "Finished holdout set scoring - "
              +++ name (objective automl_config) +++ ": "
              +++ format_3f C holdout_score) ;;
        ret (Some holdout_score, Some holdout_scores, stored_pipeline)
    | _, _ => ret (None, None, stored_pipeline)
    end ;;
  finish <- now ;;
  let training_time := (finish - start)%float in
  pipeline_cache <- get_cache ;;
  logger <- get_logger ;;
  ret (Build_Result
         {| cv_data := cv_data;
            training_time := training_time;
            cv_scores := cv_scores;
            cv_score_mean := cv_score_mean;
            holdout_score := holdout_score;
            holdout_scores := holdout_scores |}
         pipeline_cache
         stored_pipeline
         logger).

End train_and_score_pipeline.

(** The frame of a call of [train_and_score_pipeline]: the world it starts
    in, the [logger] it was given, nothing traced, [i] unbound. *)
Definition enter (w : World C) (logger : JobLogger.t) (pipeline : Pipeline C)
  : St :=
  {| world := w; job_logger := logger; trace := [];
     pipeline_cache := []; loop_i := None; fitted_pipeline := pipeline |}.

(** [train_and_score_pipeline(pipeline, automl_config, full_X_train,
    full_y_train, logger, X_holdout, y_holdout)], run in world [w]. *)
Definition train_and_score_pipeline (pipeline : Pipeline C)
  (automl_config : Config) (full_X_train : Table) (full_y_train : Series)
  (logger : JobLogger.t) (X_holdout : option Table) (y_holdout : option Series)
  (w : World C) : Res Result * St :=
  (start <- now ;;
   let use_holdout :=
     match X_holdout, y_holdout with
     | Some _, Some _ => true
     | _, _ => false
     end in
   info (tab +++ "Starting cross validation") ;;
   let classification := is_classification C (problem_type automl_config) in
   let full_y_train :=
     if classification
     then _encode_classification_target
            (value_counts_order C full_y_train) full_y_train
     else full_y_train in
   let y_holdout :=
     if classification && use_holdout
     then option_map
            (fun y => _encode_classification_target (value_counts_order C y) y)
            y_holdout
     else y_holdout in
   train_and_score_pipeline_rest pipeline automl_config
     full_X_train full_y_train start X_holdout y_holdout)
    (enter w logger pipeline).

End Engine.

Arguments TrainPipelineCall {C} p X y.
Arguments ScoreCall {C} p X y objectives X_train y_train.
Arguments ErrorCallbackCall {C} exception traceback automl fold_num p.

(* ------------------------------------------------------------------ *)
(** ** Projections of the trace *)

Definition is_train_call {C : Collab} (e : event C) : bool :=
  match e with TrainPipelineCall _ _ _ => true | _ => false end.

Definition is_score_call {C : Collab} (e : event C) : bool :=
  match e with ScoreCall _ _ _ _ _ _ => true | _ => false end.

Definition is_callback_call {C : Collab} (e : event C) : bool :=
  match e with ErrorCallbackCall _ _ _ _ _ => true | _ => false end.

(** The calls of [train_pipeline] made so far, oldest first. *)
Definition train_calls {C : Collab} (s : St C) : list (event C) :=
  filter is_train_call (trace s).

(** The calls of [pipeline.score] made so far. *)
Definition score_calls {C : Collab} (s : St C) : list (event C) :=
  filter is_score_call (trace s).

(** The calls of the error callback made so far. *)
Definition callback_calls {C : Collab} (s : St C) : list (event C) :=
  filter is_callback_call (trace s).

(* ------------------------------------------------------------------ *)
(** ** A small concrete world, to run the procedures on

    Rows hold one integer.  A pipeline remembers whether it was fitted and its
    threshold.  Training fails on a training table that holds the row [-3];
    scoring fails outright on a validation table that holds [-1], fails for
    the first objective only on one that holds [-2] (the others score 0.75),
    and gives every objective the score 0.5 otherwise.  The splitter is the list of folds it yields; the
    world counts the readings of the clock.  Equally frequent values are
    counted in order of first appearance, and floats are summed from left
    to right (as numpy sums fewer than eight of them). *)

Module Example.

Record ToyPipeline : Type := {
  kind : ProblemTypes;
  fitted : bool;
  toy_threshold : option float
}.

Definition holds (v : Z) (X : DataFrame Z) : bool :=
  existsb (fun r => Z.eqb (snd r) v) X.

Definition binary (p : ProblemTypes) : bool :=
  match p with
  | BINARY | TIME_SERIES_BINARY => true
  | _ => false
  end.

Definition classification (p : ProblemTypes) : bool :=
  match p with
  | BINARY | TIME_SERIES_BINARY | MULTICLASS | TIME_SERIES_MULTICLASS => true
  | _ => false
  end.

Definition toy_fit (p : ToyPipeline) (X : DataFrame Z) (y : Series) (w : nat)
  : Res ToyPipeline * nat :=
  if holds (-3) X then (Raise (Raised "ValueError" true), w)
  else (Ok {| kind := kind p; fitted := true; toy_threshold := toy_threshold p |}, w).

Definition toy_score (p : ToyPipeline) (X : DataFrame Z) (y : Series)
  (objectives : list Objective) (X_train : DataFrame Z) (y_train : Series)
  (w : nat) : Res (dict string float) * nat :=
  if holds (-1) X then (Raise (Raised "ValueError" true), w)
  else if holds (-2) X then
    match objectives with
    | [] => (Ok [], w)
    | o :: rest =>
        (Raise (PipelineScoreError
                  [(name o, "could not be scored")]
                  (map (fun r => (name r, 0.75%float)) rest)), w)
    end
  else (Ok (map (fun o => (name o, 0.5%float)) objectives), w).

Definition toy_tune (p : ToyPipeline) (o : option Objective) (t : ProblemTypes)
  (X_tt : option (DataFrame Z)) (y_tt : option Series)
  (X : DataFrame Z) (y : Series) (w : nat) : Res ToyPipeline * nat :=
  match o with
  | Some _ =>
      (Ok {| kind := kind p; fitted := fitted p;
             toy_threshold := Some 0.25%float |}, w)
  | None => (Ok p, w)
  end.

Definition toy_tuning_info
  (cfg : AutoMLConfig (list (list nat * list nat)) unit unit)
  (p : ToyPipeline) (w : nat) : Res (option Objective * bool) * nat :=
  (Ok (if optimize_thresholds cfg && binary (problem_type cfg)
       then Some (objective cfg) else None, false), w).

Definition toy_repr_set (l : list Z) : string :=
  "{" +++ String.concat ", " (map (fun z => NilZero.string_of_int (Z.to_int z)) l)
      +++ "}".

Definition toy : Collab := {|
  Row := Z;
  Pipeline := ToyPipeline;
  Components := bool;
  World := nat;
  Splitter := list (list nat * list nat);
  Callback := unit;
  Schema := unit;
  clone := fun p w => (Ok p, w);
  fit := toy_fit;
  score := toy_score;
  threshold := toy_threshold;
  pipeline_problem_type := kind;
  component_instances := fitted;
  get_threshold_tuning_info := toy_tuning_info;
  resplit_training_data := fun p X y w => (Ok (X, [], y, []), w);
  tune_binary_threshold := toy_tune;
  handle_problem_types := fun p => p;
  is_binary := binary;
  is_classification := classification;
  split := fun folds X y w => (Ok folds, w);
  call_error_callback := fun cb e tb cfg i p w => (Ok tt, w);
  ww_init_X := fun X sch w => (Ok tt, w);
  ww_init_y := fun y sch w => (Ok tt, w);
  value_counts_order := fun y a b => false;
  ndarray_sum := fun values => fold_left PrimFloat.add values 0%float;
  time_time := fun w => (float_of_nat w, S w);
  format_tb := fun e => [];
  hash_index := fun idx => fold_left Z.add idx 0%Z;
  format_3f := fun x => "<float>";
  repr_set := toy_repr_set
|}.

(** A configuration with the objectives "AUC" (primary) and "F1". *)
Definition config (pt : ProblemTypes) (folds : list (list nat * list nat))
  (cb : option unit) : AutoMLConfig (list (list nat * list nat)) unit unit :=
  {| objective := {| name := "AUC" |};
     additional_objectives := [ {| name := "F1" |} ];
     data_splitter := folds;
     problem_type := pt;
     optimize_thresholds := true;
     error_callback := cb;
     X_schema := None;
     y_schema := None |}.

Definition unfitted (pt : ProblemTypes) : ToyPipeline :=
  {| kind := pt; fitted := false; toy_threshold := None |}.

(** Six rows, the rows at positions 4 and 5 make scoring fail (outright, and
    for the first objective). *)
Definition X6 : DataFrame Z :=
  [(10, 1); (11, 2); (12, 3); (13, 4); (14, -1); (15, -2)]%Z.

Definition y6 : Series := [5; 5; 7; 7; 5; 5]%Z.

(** Three folds over [X6]: a clean one, one whose scoring fails outright,
    one whose scoring fails for "AUC" only. *)
Definition folds3 : list (list nat * list nat) :=
  [ ([0; 2], [1; 3]); ([0; 1; 2; 3], [4]); ([0; 1; 2; 3], [5]) ]%nat.

(** Six rows on which training and scoring succeed. *)
Definition X6_clean : DataFrame Z :=
  [(10, 1); (11, 2); (12, 3); (13, 4); (14, 5); (15, 6)]%Z.

(** A holdout set of three rows, in which the label 7 is the more frequent
    one (in [y6] it is the label 5). *)
Definition X3_holdout : DataFrame Z := [(20, 7); (21, 8); (22, 9)]%Z.

Definition y3_holdout : Series := [7; 7; 5]%Z.

End Example.

(* ------------------------------------------------------------------ *)
(** ** Vocabulary of the statements *)

(** Every run of [m] leaves the observation [f] of the state as it was. *)
Definition keeps {S A X : Type} (f : S -> X) (m : M S A) : Prop :=
  forall s r s', m s = (r, s') -> f s' = f s.

(** Every run of [m] appends exactly [l] to the observation [f]. *)
Definition grows {S A X : Type} (f : S -> list X) (l : list X) (m : M S A)
  : Prop :=
  forall s r s', m s = (r, s') -> f s' = f s ++ l.

(** Every exception [m] raises satisfies [P]. *)
Definition raises_only {S A : Type} (P : exn -> Prop) (m : M S A) : Prop :=
  forall s e s', m s = (Raise e, s') -> P e.

(** The order of the keys of a dictionary built by successive assignments:
    a key takes its place the first time it is assigned. *)
Definition add_key {K : Type} (eqb : K -> K -> bool) (ks : list K) (k : K)
  : list K :=
  if existsb (eqb k) ks then ks else ks ++ [k].

Section Assumptions.
Variable C : Collab.
Variable automl_config : AutoMLConfig (Splitter C) (Callback C) (Schema C).

(** The objectives a fold is scored on. *)
Definition objectives_to_score : list Objective :=
  objective automl_config :: additional_objectives automl_config.

(** A failure the fold boundary contains: an exception deriving from
    [Exception] which, when it is a PipelineScoreError, accounts for every
    configured objective, as failed or as scored. *)
Definition contained (e : exn) : Prop :=
  isinstance_Exception e = true
  /\ match e with
     | PipelineScoreError exceptions scored_successfully =>
         forall o, In o objectives_to_score ->
                   In (name o) (map fst exceptions ++ map fst scored_successfully)
     | _ => True
     end.

(** A collaborator call that raises nothing but contained failures. *)
Definition fails_softly {A : Type} (f : World C -> Res A * World C) : Prop :=
  forall w e w', f w = (Raise e, w') -> contained e.

(** The collaborators of a fold behave: training and scoring raise only
    contained failures, and the error callback does not raise. *)
Record well_behaved : Prop := {
  wb_tuning_info :
    forall p, fails_softly (get_threshold_tuning_info C automl_config p);
  wb_resplit :
    forall p X y, fails_softly (resplit_training_data C p X y);
  wb_clone : forall p, fails_softly (clone C p);
  wb_fit : forall p X y, fails_softly (fit C p X y);
  wb_tune :
    forall p o t X_tt y_tt X y,
      fails_softly (tune_binary_threshold C p o t X_tt y_tt X y);
  wb_score :
    forall p X y X_train y_train,
      fails_softly (score C p X y objectives_to_score X_train y_train);
  wb_callback :
    forall callback e tb i p w,
      fst (call_error_callback C callback e tb automl_config i p w) = Ok tt
}.

(** The positions of a fold address rows of a table of [n] rows. *)
Definition in_range (n : nat) (fold : list nat * list nat) : Prop :=
  Forall (fun p => p < n)%nat (fst fold)
  /\ Forall (fun p => p < n)%nat (snd fold).

(** The rows of [l] at [positions] (positions past the end are skipped;
    within range this is what [iloc] returns). *)
Definition rows_at {A : Type} (l : list A) (positions : list nat) : list A :=
  flat_map (fun p => match nth_error l p with
                     | Some a => [a]
                     | None => []
                     end) positions.

(** Both slices of the fold hold every value of the target [y]. *)
Definition no_missing_target (y : Series) (fold : list nat * list nat)
  : Prop :=
  setdiff1d y (rows_at y (fst fold)) = []
  /\ setdiff1d y (rows_at y (snd fold)) = [].

End Assumptions.

(** The state in which the [try] block of fold [i] starts, when the loop
    reaches the fold in state [s]: [i] is bound, the fold is announced in the
    log, and [fitted_pipeline] is the pipeline to evaluate. *)
Definition fold_begins {C : Collab} (pipeline : Pipeline C) (i : nat) (s : St C)
  : St C :=
  with_fitted pipeline
    (with_logger
       (JobLogger.debug
          (tab +++ tab +++ "Training and scoring on fold " +++ str_of_nat i)
          (job_logger s))
       (with_i (Some i) s)).

(** The target the loop of [train_and_score_pipeline] works on: the one it
    was given, re-encoded when the problem is a classification. *)
Definition prepared_target (C : Collab)
  (automl_config : AutoMLConfig (Splitter C) (Callback C) (Schema C))
  (y : Series) : Series :=
  if is_classification C (problem_type automl_config)
  then _encode_classification_target (value_counts_order C y) y
  else y.

(** The call of [train_pipeline] a fold makes. *)
Definition fold_training (C : Collab) (pipeline : Pipeline C)
  (X : DataFrame (Row C)) (y : Series) (fold : list nat * list nat) : event C :=
  TrainPipelineCall pipeline (rows_at X (fst fold)) (rows_at y (fst fold)).

(** The holdout target the holdout pass scores on: the one given, re-encoded
    (by its own value counts) when the problem is a classification and both
    holdout arguments are there. *)
Definition prepared_holdout (C : Collab)
  (automl_config : AutoMLConfig (Splitter C) (Callback C) (Schema C))
  (X_holdout : option (DataFrame (Row C))) (y_holdout : option Series)
  : option Series :=
  if is_classification C (problem_type automl_config)
     && match X_holdout, y_holdout with
        | Some _, Some _ => true
        | _, _ => false
        end
  then option_map
         (fun y => _encode_classification_target (value_counts_order C y) y)
         y_holdout
  else y_holdout.

(** The state in which [train_and_score_pipeline] asks the splitter for the
    folds: the clock was read once and the start of the cross validation is
    in the log. *)
Definition loop_start (C : Collab) (pipeline : Pipeline C)
  (logger : JobLogger.t) (w : World C) : St C :=
  with_logger (JobLogger.info (tab +++ "Starting cross validation") logger)
    (with_world (snd (time_time C w)) (enter C w logger pipeline)).

(** The call of [train_pipeline] of the holdout pass, when both holdout
    arguments are given. *)
Definition holdout_training (C : Collab) (pipeline : Pipeline C)
  (X : DataFrame (Row C)) (y : Series)
  (X_holdout : option (DataFrame (Row C))) (y_holdout : option Series)
  : list (event C) :=
  match X_holdout, y_holdout with
  | Some _, Some _ => [TrainPipelineCall pipeline X y]
  | _, _ => []
  end.

(** The arithmetic mean of a sequence of floats: their sum, as [sum] takes
    it, over their number. *)
Definition arithmetic_mean (sum : list float -> float) (values : list float)
  : float :=
  (sum values / float_of_nat (length values))%float.

(** The value under ["pipeline"] of a result. *)
Definition stored_pipeline_of {C : Collab} (r : Result C) : Pipeline C :=
  pipeline r.

(** [{**nan_scores, **e.scored_successfully}]. *)
Definition merged_scores (exceptions : list (string * string))
  (scored_successfully : list (string * float)) : dict string float :=
  dict_update String.eqb
    (dict_of_items String.eqb (map (fun kv => (fst kv, NaN)) exceptions))
    scored_successfully.

(* ------------------------------------------------------------------ *)
(** ** The rest of the module *)

(** [EngineBase.setup_job_log()]: a new JobLogger. *)
Definition setup_job_log : JobLogger.t := JobLogger.init.

(** Every run of [m] relates the state it finds to the state it leaves by
    [R]. *)
Definition effect {S A : Type} (R : S -> S -> Prop) (m : M S A) : Prop :=
  forall s r s', m s = (r, s') -> R s s'.

(** A run of [m] that returns has made the assignment
    [pipeline_cache[key] = value], and no other; a run that raises has left
    the cache as it found it. *)
Definition assigns_on_success {C : Collab} {A : Type} (key : option Z)
  (value : Components C) (m : M (St C) A) : Prop :=
  forall s r s',
    m s = (r, s') ->
    match r with
    | Ok _ =>
        pipeline_cache s' = dict_set key_eqb key value (pipeline_cache s)
    | Raise _ => pipeline_cache s' = pipeline_cache s
    end.

(** The table [train_pipeline] fits the pipeline on, given the table [X] it
    was called with: [X] itself, or the first part of a resplit of it. *)
Definition fitted_on (C : Collab) (pipeline : Pipeline C)
  (X : DataFrame (Row C)) (y : Series) (X_fit : DataFrame (Row C)) : Prop :=
  X_fit = X
  \/ exists X_tt y_fit y_tt w w',
      resplit_training_data C pipeline X y w
      = (Ok (X_fit, X_tt, y_fit, y_tt), w').

(** The event is a call of [train_pipeline] on [pipeline]. *)
Definition trains {C : Collab} (pipeline : Pipeline C) (e : event C) : Prop :=
  match e with
  | TrainPipelineCall p _ _ => p = pipeline
  | _ => False
  end.

(** From [s] to [s'] the trace has only grown, every training was one of
    [pipeline], and there were no more scorings, and no more calls of the
    error callback, than trainings. *)
Definition orderly {C : Collab} (pipeline : Pipeline C) (s s' : St C) : Prop :=
  exists trained scored reported,
    train_calls s' = train_calls s ++ trained
    /\ score_calls s' = score_calls s ++ scored
    /\ callback_calls s' = callback_calls s ++ reported
    /\ Forall (trains pipeline) trained
    /\ (length scored <= length trained)%nat
    /\ (length reported <= length trained)%nat.

(** From [s] to [s'] the job's logger has received calls of its [info] and
    [debug] methods, and nothing else has happened to it. *)
Definition logged {C : Collab} (s s' : St C) : Prop :=
  exists calls,
    job_logger s' = invoke_all calls (job_logger s)
    /\ Forall (fun c => fst c = CallInfo \/ fst c = CallDebug) calls.

(** [evaluate_pipeline(pipeline, automl_config, X, y, logger, X_holdout,
    y_holdout)], run in world [w].  Beside the collaborators of the engine
    it reads [pipeline.name] and calls [ww.init] whether or not the
    configuration holds a schema: [name_of] is the pipeline's name, and
    [infer_X], [infer_y] are [X.ww.init(schema=None)] and
    [y.ww.init(schema=None)].  When a [ww.init] raises, the state returned is
    that of a run that has not begun. *)
Definition evaluate_pipeline (C : Collab)
  (name_of : Pipeline C -> string)
  (infer_X : DataFrame (Row C) -> World C -> Res unit * World C)
  (infer_y : Series -> World C -> Res unit * World C)
  (pipeline : Pipeline C)
  (automl_config : AutoMLConfig (Splitter C) (Callback C) (Schema C))
  (X : DataFrame (Row C)) (y : Series) (logger : JobLogger.t)
  (X_holdout : option (DataFrame (Row C))) (y_holdout : option Series)
  (w : World C) : Res (Result C) * St C :=
  let logger := JobLogger.info (name_of pipeline +++ ":") logger in
  match match X_schema automl_config with
        | Some sch => ww_init_X C X sch w
        | None => infer_X X w
        end with
  | (Raise e, w1) => (Raise e, enter C w1 logger pipeline)
  | (Ok _, w1) =>
      match match y_schema automl_config with
            | Some sch => ww_init_y C y sch w1
            | None => infer_y y w1
            end with
      | (Raise e, w2) => (Raise e, enter C w2 logger pipeline)
      | (Ok _, w2) =>
          train_and_score_pipeline C pipeline automl_config X y logger
            X_holdout y_holdout w2
      end
  end.

(** The counts of the list never increase from left to right. *)
Fixpoint by_decreasing_count (l : list (Z * nat)) : Prop :=
  match l with
  | [] => True
  | h :: t =>
      Forall (fun p => (snd p <= snd h)%nat) t /\ by_decreasing_count t
  end.

(* ------------------------------------------------------------------ *)
(** ** A second concrete world, with harsher collaborators

    As the first one, except that: training on a table that holds the row
    [-4] raises KeyboardInterrupt (which does not derive from Exception);
    scoring a table that holds [-2] raises a PipelineScoreError that names
    the first objective only; the error callback is a boolean, the callback
    [true] raises and the callback [false] takes 100 ticks of the clock (so
    that a call of it shows in the world); and threshold tuning asks for a resplit exactly
    when [optimize_thresholds] is set, the resplit keeping the first half of
    the rows for training. *)

Module Harsh.

Definition Config : Type :=
  AutoMLConfig (list (list nat * list nat)) bool unit.

Definition harsh_fit (p : Example.ToyPipeline) (X : DataFrame Z) (y : Series)
  (w : nat) : Res Example.ToyPipeline * nat :=
  if Example.holds (-4) X
  then (Raise (Raised "KeyboardInterrupt" false), w)
  else Example.toy_fit p X y w.

Definition harsh_score (p : Example.ToyPipeline) (X : DataFrame Z) (y : Series)
  (objectives : list Objective) (X_train : DataFrame Z) (y_train : Series)
  (w : nat) : Res (dict string float) * nat :=
  if Example.holds (-2) X then
    match objectives with
    | [] => (Ok [], w)
    | o :: _ =>
        (Raise (PipelineScoreError [(name o, "could not be scored")] []), w)
    end
  else Example.toy_score p X y objectives X_train y_train w.

Definition harsh_tuning_info (cfg : Config) (p : Example.ToyPipeline) (w : nat)
  : Res (option Objective * bool) * nat :=
  (Ok (if optimize_thresholds cfg then Some (objective cfg) else None,
       optimize_thresholds cfg), w).

Definition harsh_resplit (p : Example.ToyPipeline) (X : DataFrame Z)
  (y : Series) (w : nat)
  : Res (DataFrame Z * DataFrame Z * Series * Series) * nat :=
  let half := Nat.div2 (length X) in
  (Ok (firstn half X, skipn half X, firstn half y, skipn half y), w).

Definition harsh_callback (cb : bool) (e : exn) (tb : list string)
  (cfg : Config) (i : nat) (p : Example.ToyPipeline) (w : nat)
  : Res unit * nat :=
  if cb then (Raise (Raised "RuntimeError" true), w)
  else (Ok tt, (w + 100)%nat).

Definition world : Collab := {|
  Row := Z;
  Pipeline := Example.ToyPipeline;
  Components := bool;
  World := nat;
  Splitter := list (list nat * list nat);
  Callback := bool;
  Schema := unit;
  clone := fun p w => (Ok p, w);
  fit := harsh_fit;
  score := harsh_score;
  threshold := Example.toy_threshold;
  pipeline_problem_type := Example.kind;
  component_instances := Example.fitted;
  get_threshold_tuning_info := harsh_tuning_info;
  resplit_training_data := harsh_resplit;
  tune_binary_threshold := Example.toy_tune;
  handle_problem_types := fun p => p;
  is_binary := Example.binary;
  is_classification := Example.classification;
  split := fun folds X y w => (Ok folds, w);
  call_error_callback := harsh_callback;
  ww_init_X := fun X sch w => (Ok tt, w);
  ww_init_y := fun y sch w => (Ok tt, w);
  value_counts_order := fun y a b => false;
  ndarray_sum := fun values => fold_left PrimFloat.add values 0%float;
  time_time := fun w => (float_of_nat w, S w);
  format_tb := fun e => [];
  hash_index := fun idx => fold_left Z.add idx 0%Z;
  format_3f := fun x => "<float>";
  repr_set := Example.toy_repr_set
|}.

(** A configuration with the objectives "AUC" (primary) and "F1". *)
Definition config (pt : ProblemTypes) (folds : list (list nat * list nat))
  (cb : option bool) (optimize : bool) : Config :=
  {| objective := {| name := "AUC" |};
     additional_objectives := [ {| name := "F1" |} ];
     data_splitter := folds;
     problem_type := pt;
     optimize_thresholds := optimize;
     error_callback := cb;
     X_schema := None;
     y_schema := None |}.

(** Six rows; training on the row at position 4 is interrupted, scoring the
    row at position 5 fails for the first objective only. *)
Definition X6 : DataFrame Z :=
  [(10, 1); (11, 2); (12, 3); (13, 4); (14, -4); (15, -2)]%Z.

End Harsh.

(* ------------------------------------------------------------------ *)
(** ** ARIMARegressor

    The estimator of [arima_regressor.py]: how [__init__] builds the
    parameters, how [fit] and [predict] find the dates of the data, and what
    [fit] hands to statsmodels.  pandas, woodwork and statsmodels are outside
    the repository; what the code asks of them is kept as follows.  An index
    or a column is the list of its values together with the logical type
    woodwork infers for it ([type_string]).  The columns of a table carry
    distinct labels, which are strings.  The value of a parameter is a tuple
    [(p, d, q)], a string, an index with a name (what [parameters["dates"]]
    is unless a keyword argument replaced it), an order, or some other
    object, which has no attribute [name]. *)

Module ARIMARegressor.

Inductive error : Type :=
| ValueError (msg : string)
| TypeError (msg : string)
| AttributeError (attribute : string)
| DictKeyError (key : string)
| LengthMismatch (expected given : nat)
| ImportError (msg : string)
| OtherError (description : string).

Inductive Outcome (A : Type) : Type :=
| Return (a : A)
| Throw (e : error).
Arguments Return {A} a.
Arguments Throw {A} e.

Definition and_then {A B : Type} (m : Outcome A) (k : A -> Outcome B)
  : Outcome B :=
  match m with
  | Return a => k a
  | Throw e => Throw e
  end.

(** An index or a column. *)
Record Values : Type := { items : list Z; type_string : string }.

(** [X], a [pd.DataFrame], and [y], a [pd.Series]. *)
Record Frame : Type := {
  X_index : Values;
  X_columns : list (string * Values)
}.

Record Target : Type := { y_index : Values; y_values : list Z }.

(** [p] and [q]: an int or a list of ints. *)
Inductive order_arg : Type :=
| Int (n : Z)
| IntList (l : list Z).

Inductive param : Type :=
| Order (p : order_arg) (d : Z) (q : order_arg)
| Str (s : string)
| DatetimeIndex (name : option string)
| Num (n : order_arg)
| Object (description : string).

(** [sum(p) if isinstance(p, list) else p]. *)
Definition sum_arg (a : order_arg) : Z :=
  match a with
  | Int n => n
  | IntList l => fold_left Z.add l 0%Z
  end.

Definition no_dates_msg : string :=
  "ARIMA regressor requires input data X to have a datetime column specified by the 'date_column' parameter. "
  +++ "If not it will look for the datetime column in the index of X or y.".

(** [self.parameters["dates"].name]. *)
Definition dates_name (parameters : dict string param)
  : Outcome (option string) :=
  match dict_get String.eqb "dates" parameters with
  | None => Throw (DictKeyError "dates")
  | Some (DatetimeIndex name) => Return name
  | Some _ => Throw (AttributeError "name")
  end.

(** [X.pop(name)] when [name in X.columns]: the column, and [X] without
    it.  (None, which [date_column] is by default, labels no column.) *)
Definition pop (name : option string) (X : Frame) : option (Values * Frame) :=
  match name with
  | None => None
  | Some n =>
      match dict_get String.eqb n (X_columns X) with
      | None => None
      | Some column =>
          Some (column,
                {| X_index := X_index X;
                   X_columns :=
                     filter (fun c => negb (String.eqb n (fst c)))
                            (X_columns X) |})
      end
  end.

(** The statements of [_get_dates_fit] and [_get_dates_predict] from
    [if X is not None:] to the [return]; [date_col] is what the index of
    [y] gave. *)
Definition dates_from_X (parameters : dict string param) (X : option Frame)
  (date_col : option Values) : Outcome (Values * option Frame) :=
  and_then
    (match X with
     | Some X' =>
         let X_index_type := type_string (X_index X') in
         and_then (dates_name parameters) (fun name =>
           match pop name X' with
           | Some (column, X'') => Return (Some column, Some X'')
           | None =>
               if String.eqb X_index_type "datetime"
               then Return (Some (X_index X'), Some X')
               else Return (date_col, Some X')
           end)
     | None => Return (date_col, None)
     end)
    (fun found =>
       match fst found with
       | None => Throw (ValueError no_dates_msg)
       | Some dates => Return (dates, snd found)
       end).

(** [_get_dates_fit(X, y)]; [y.index] of None raises AttributeError. *)
Definition _get_dates_fit (parameters : dict string param) (X : option Frame)
  (y : option Target) : Outcome (Values * option Frame) :=
  let date_col : option Values := None in
  match y with
  | None => Throw (AttributeError "index")
  | Some y' =>
      let y_index_type := type_string (y_index y') in
      let date_col :=
        if String.eqb y_index_type "datetime" then Some (y_index y')
        else date_col in
      dates_from_X parameters X date_col
  end.

(** [_get_dates_predict(X, y)]. *)
Definition _get_dates_predict (parameters : dict string param)
  (X : option Frame) (y : option Target) : Outcome (Values * option Frame) :=
  let date_col : option Values := None in
  let date_col :=
    match y with
    | Some y' =>
        let y_index_type := type_string (y_index y') in
        if String.eqb y_index_type "datetime" then Some (y_index y')
        else date_col
    | None => date_col
    end in
  dates_from_X parameters X date_col.

(** [obj.index = date_col]: pandas refuses an index of another length. *)
Definition check_length (rows : nat) (date_col : Values) : Outcome unit :=
  if Nat.eqb (length (items date_col)) rows then Return tt
  else Throw (LengthMismatch rows (length (items date_col))).

(** [_match_indices(X, y, date_col)]. *)
Definition _match_indices (X : option Frame) (y : option Target)
  (date_col : Values) : Outcome (option Frame * option Target) :=
  and_then
    (match X with
     | Some X' =>
         and_then (check_length (length (items (X_index X'))) date_col)
           (fun _ => Return (Some {| X_index := date_col;
                                     X_columns := X_columns X' |}))
     | None => Return None
     end)
    (fun X =>
       and_then
         (match y with
          | Some y' =>
              and_then (check_length (length (items (y_index y'))) date_col)
                (fun _ => Return (Some {| y_index := date_col;
                                          y_values := y_values y' |}))
          | None => Return None
          end)
         (fun y => Return (X, y))).

(** The loop of [fit] that fills [new_params]. *)
Definition new_params (parameters : dict string param) : dict string param :=
  fold_left
    (fun new_params kv =>
       if existsb (String.eqb (fst kv)) ["p"; "d"; "q"; "dates"]
       then new_params
       else dict_set String.eqb (fst kv) (snd kv) new_params)
    parameters [].

Section Collaborators.

(** [import_or_raise("statsmodels.tsa.arima.model", ...)]. *)
Variable import_or_raise : Outcome unit.

(** [arima.ARIMA(endog=np.zeros(n), **parameters)] in [__init__], with the
    [np.zeros(n)] of its argument. *)
Variable ARIMA : Z -> dict string param -> Outcome unit.

(** [self._manage_woodwork(X, y)]. *)
Variable _manage_woodwork :
  option Frame -> option Target -> Outcome (option Frame * option Target).

(** The three statements of [fit] that turn the dates found into a
    [pd.DatetimeIndex] with its frequency. *)
Variable to_datetime_index : Values -> Outcome Values.

(** The fitted model, and [arima.ARIMA(endog=y, exog=X, dates=dates,
    **new_params).fit()], where a missing [X] is the call without [exog]. *)
Variable Model : Type.
Variable ARIMA_fit :
  option Target -> option Frame -> Values -> dict string param -> Outcome Model.

(** [ARIMARegressor(date_column, trend, p, d, q, random_seed, **kwargs)]: the
    parameters handed to [super().__init__].  ([random_seed] does not enter
    them.) *)
Definition __init__ (date_column : option string) (trend : string)
  (p : order_arg) (d : Z) (q : order_arg) (kwargs : list (string * param))
  : Outcome (dict string param) :=
  let order := Order p d q in
  let dummy_dates := DatetimeIndex date_column in
  let parameters :=
    dict_of_items String.eqb
      [("order", order); ("trend", Str trend); ("dates", dummy_dates)] in
  let parameters := dict_update String.eqb parameters kwargs in
  and_then import_or_raise (fun _ =>
    let sum_p := sum_arg p in
    let sum_q := sum_arg q in
    match ARIMA (sum_p + d + sum_q + 1)%Z parameters with
    | Throw (TypeError _) =>
        Throw (TypeError
                 "Unable to instantiate ARIMA due to an unexpected argument")
    | Throw e => Throw e
    | Return _ =>
        Return (dict_update String.eqb parameters
                  [("p", Num p); ("d", Num (Int d)); ("q", Num q)])
    end).

(** [fit(X, y)] on an estimator with the given parameters: the model it
    stores in [_component_obj]. *)
Definition fit (parameters : dict string param) (X : option Frame)
  (y : option Target) : Outcome Model :=
  match y with
  | None => Throw (ValueError "ARIMA Regressor requires y as input.")
  | Some _ =>
      and_then import_or_raise (fun _ =>
      and_then (_manage_woodwork X y) (fun managed =>
      and_then (_get_dates_fit parameters (fst managed) (snd managed))
        (fun found =>
      and_then (to_datetime_index (fst found)) (fun dates =>
      and_then (_match_indices (snd found) (snd managed) dates)
        (fun matched =>
      ARIMA_fit (snd matched) (fst matched) dates
        (new_params parameters))))))
  end.

End Collaborators.

(** Collaborators to run the estimator with: statsmodels is installed and
    refuses a series of negative length with a ValueError and the keyword
    [bogus] with a TypeError; woodwork leaves the data as they are; the
    fitted model records what it was given. *)
Definition toy_ARIMA (n : Z) (parameters : dict string param) : Outcome unit :=
  if (n <? 0)%Z then Throw (ValueError "negative dimensions are not allowed")
  else match dict_get String.eqb "bogus" parameters with
       | Some _ => Throw (TypeError "unexpected keyword argument")
       | None => Return tt
       end.

Definition toy_fit (y : option Target) (X : option Frame) (dates : Values)
  (params : dict string param)
  : Outcome (option Target * option Frame * Values * dict string param) :=
  Return (y, X, dates, params).



End ARIMARegressor.

(* ================================================================== *)
(** * Properties *)

(* ------------------------------------------------------------------ *)
(** ** JobLogger *)

Lemma logs_invoke_all (calls : list (log_call * string)) (jl : JobLogger.t) :
  JobLogger.logs (invoke_all calls jl)
  = JobLogger.logs jl ++ map (fun c => (level_of (fst c), snd c)) calls.
Proof.
  revert jl.
  induction calls as [|[c m] calls IH]; intros jl; cbn [invoke_all fold_left map].
  - now rewrite app_nil_r.
  - change (fold_left _ calls ?x) with (invoke_all calls x).
    rewrite IH.
    destruct c; cbn; now rewrite <- app_assoc.
Qed.

Lemma replay_buffered {T} `{LoggerLike T} (calls : list (log_call * string))
  (target : T) :
  JobLogger.replay JobLogger.logger_method
    (map (fun c => (level_of (fst c), snd c)) calls) target
  = (Ok tt, invoke_all (map (fun c => (flushed_as (fst c), snd c)) calls) target).
Proof.
  revert target.
  induction calls as [|[c m] calls IH]; intros target; [reflexivity|].
  destruct c; cbn; apply IH.
Qed.

Lemma invoke_all_app {T} `{LoggerLike T} (l1 l2 : list (log_call * string))
  (x : T) :
  invoke_all (l1 ++ l2) x = invoke_all l2 (invoke_all l1 x).
Proof. unfold invoke_all. apply fold_left_app. Qed.

Lemma invoke_all_recorder (calls : list (log_call * string)) (r : Recorder) :
  invoke_all calls r = r ++ calls.
Proof.
  revert r.
  induction calls as [|[c m] calls IH]; intros r; cbn [invoke_all fold_left].
  - now rewrite app_nil_r.
  - change (fold_left _ calls ?x) with (invoke_all calls x).
    rewrite IH. destruct c; cbn; now rewrite <- app_assoc.
Qed.

Lemma flushed_never_error (calls : list (log_call * string)) c m :
  In (c, m) (map (fun c => (flushed_as (fst c), snd c)) calls) -> c <> CallError.
Proof.
  rewrite in_map_iff. intros [[c0 m0] [E _]].
  inversion E; subst. destruct c0; discriminate.
Qed.

Lemma write_after_calls (calls : list (log_call * string))
  (T : Type) (L : LoggerLike T) (target : T) :
  JobLogger.write_to_logger (invoke_all calls JobLogger.init) target
  = (Ok tt, (invoke_all calls JobLogger.init,
             invoke_all (map (fun c => (flushed_as (fst c), snd c)) calls)
                        target)).
Proof.
  unfold JobLogger.write_to_logger.
  rewrite logs_invoke_all. cbn [JobLogger.logs JobLogger.init app].
  now rewrite replay_buffered.
Qed.

(** C7.  Whatever sequence of info/debug/warning/error calls a JobLogger
    receives, its buffer holds the (level, message) pairs of the calls in call
    order; [write_to_logger] succeeds and hands every buffered entry to the
    target in that order through the target's method of the same name, an
    error entry through [warning]; a recording target receives exactly those
    calls, and none of them is an [error] call. *)
Theorem C7_joblogger_replays_in_order :
  forall (calls : list (log_call * string)),
    let jl := invoke_all calls JobLogger.init in
    let delivered := map (fun c => (flushed_as (fst c), snd c)) calls in
    JobLogger.logs jl = map (fun c => (level_of (fst c), snd c)) calls
    /\ (forall (T : Type) (L : LoggerLike T) (target : T),
          JobLogger.write_to_logger jl target
          = (Ok tt, (jl, invoke_all delivered target)))
    /\ (forall received : Recorder,
          JobLogger.write_to_logger jl received
          = (Ok tt, (jl, received ++ delivered)))
    /\ (forall c m, In (c, m) delivered -> c <> CallError).
Proof.
  intros calls jl delivered.
  assert (Hlogs : JobLogger.logs jl
                  = map (fun c => (level_of (fst c), snd c)) calls).
  { unfold jl. now rewrite logs_invoke_all. }
  assert (Hwrite : forall (T : Type) (L : LoggerLike T) (target : T),
             JobLogger.write_to_logger jl target
             = (Ok tt, (jl, invoke_all delivered target))).
  { intros T L target. apply write_after_calls. }
  repeat split; auto.
  - intros received. rewrite Hwrite. now rewrite invoke_all_recorder.
  - apply flushed_never_error.
Qed.

(** C10.  [write_to_logger] returns the JobLogger with the buffer it had,
    whatever the buffer holds; so after a sequence of logging calls, flushing
    twice in a row hands the target every buffered message twice. *)
Theorem C10_write_to_logger_keeps_buffer :
  (forall (T : Type) (L : LoggerLike T) (self : JobLogger.t) (target : T),
      fst (snd (JobLogger.write_to_logger self target)) = self)
  /\ (forall (calls : list (log_call * string))
             (T : Type) (L : LoggerLike T) (target : T),
        let jl := invoke_all calls JobLogger.init in
        let delivered := map (fun c => (flushed_as (fst c), snd c)) calls in
        let once := JobLogger.write_to_logger jl target in
        let twice :=
          JobLogger.write_to_logger (fst (snd once)) (snd (snd once)) in
        JobLogger.logs (fst (snd twice)) = JobLogger.logs jl
        /\ fst twice = Ok tt
        /\ snd (snd twice) = invoke_all (delivered ++ delivered) target)
  /\ (forall (calls : list (log_call * string)) (received : Recorder),
        let jl := invoke_all calls JobLogger.init in
        let delivered := map (fun c => (flushed_as (fst c), snd c)) calls in
        let once := JobLogger.write_to_logger jl received in
        snd (snd (JobLogger.write_to_logger (fst (snd once)) (snd (snd once))))
        = received ++ delivered ++ delivered).
Proof.
  split; [reflexivity|].
  split.
  - intros calls T L target jl delivered once twice.
    unfold twice, once, jl. rewrite write_after_calls. cbn [fst snd].
    rewrite write_after_calls. cbn [fst snd]. rewrite invoke_all_app. auto.
  - intros calls received jl delivered once.
    unfold once, jl. rewrite write_after_calls. cbn [fst snd].
    rewrite write_after_calls. cbn [fst snd].
    rewrite !invoke_all_recorder. now rewrite app_assoc.
Qed.

(* ------------------------------------------------------------------ *)
(** ** Computations *)

Section MonadFacts.
Context {S : Type}.

Lemma bind_Ok {A B} (m : M S A) (k : A -> M S B) s a s1 :
  m s = (Ok a, s1) -> bind m k s = k a s1.
Proof. unfold bind. now intros ->. Qed.

Lemma bind_cases {A B} (m : M S A) (k : A -> M S B) s r s' :
  bind m k s = (r, s') ->
  (exists a s1, m s = (Ok a, s1) /\ k a s1 = (r, s'))
  \/ (exists e, m s = (Raise e, s') /\ r = Raise e).
Proof.
  unfold bind. destruct (m s) as [[a|e] s1]; intros H.
  - left. eauto.
  - right. inversion H; subst. eauto.
Qed.

Lemma keeps_elim {A X} (f : S -> X) (m : M S A) s r s' :
  keeps f m -> m s = (r, s') -> f s' = f s.
Proof. intros H E. eapply H; eauto. Qed.

Lemma grows_elim {A X} (f : S -> list X) l (m : M S A) s r s' :
  grows f l m -> m s = (r, s') -> f s' = f s ++ l.
Proof. intros H E. eapply H; eauto. Qed.

Lemma keeps_ret {A X} (f : S -> X) (a : A) : keeps f (ret a).
Proof. intros s r s' H. inversion H; now subst. Qed.

Lemma keeps_raise {A X} (f : S -> X) (e : exn) : keeps f (@raise S A e).
Proof. intros s r s' H. inversion H; now subst. Qed.

Lemma keeps_of_res {A X} (f : S -> X) (r : Res A) : keeps f (of_res r).
Proof. intros s r' s' H. inversion H; now subst. Qed.

Lemma keeps_bind {A B X} (f : S -> X) (m : M S A) (k : A -> M S B) :
  keeps f m -> (forall a, keeps f (k a)) -> keeps f (bind m k).
Proof.
  intros Hm Hk s r s' H.
  destruct (bind_cases _ _ _ H) as [(a & s1 & H1 & H2)|(e & H1 & _)].
  - rewrite (Hk _ _ _ _ H2). eapply Hm; eauto.
  - eapply Hm; eauto.
Qed.

Lemma grows_after {A B X} (f : S -> list X) l (m : M S A) (k : A -> M S B) :
  (forall s, exists a s', m s = (Ok a, s')) ->
  keeps f m -> (forall a, grows f l (k a)) -> grows f l (bind m k).
Proof.
  intros Ht Hm Hk s r s' H.
  destruct (bind_cases _ _ _ H) as [(a & s1 & H1 & H2)|(e & H1 & _)].
  - rewrite (Hk _ _ _ _ H2). f_equal. eapply Hm; eauto.
  - destruct (Ht s) as (a & s1 & E). congruence.
Qed.

Lemma grows_bind_keeps {A B X} (f : S -> list X) l (m : M S A) (k : A -> M S B) :
  grows f l m -> (forall a, keeps f (k a)) -> grows f l (bind m k).
Proof.
  intros Hm Hk s r s' H.
  destruct (bind_cases _ _ _ H) as [(a & s1 & H1 & H2)|(e & H1 & _)].
  - rewrite (Hk _ _ _ _ H2). eapply Hm; eauto.
  - eapply Hm; eauto.
Qed.

Lemma raises_only_ret {A} P (a : A) : raises_only P (@ret S A a).
Proof. intros s e s' H. inversion H. Qed.

Lemma raises_only_bind {A B} P (m : M S A) (k : A -> M S B) :
  raises_only P m -> (forall a, raises_only P (k a)) ->
  raises_only P (bind m k).
Proof.
  intros Hm Hk s e s' H.
  destruct (bind_cases _ _ _ H) as [(a & s1 & H1 & H2)|(e' & H1 & E)].
  - eapply Hk; eauto.
  - inversion E; subst. eapply Hm; eauto.
Qed.

Lemma raises_only_of_res {A} (P : exn -> Prop) (r : Res A) :
  (forall e, r = Raise e -> P e) -> raises_only P (@of_res S A r).
Proof. intros Hr s e s' H. inversion H; subst. now apply Hr. Qed.

End MonadFacts.

Ltac split_bind H a s1 H1 H2 :=
  let e := fresh "e" in
  let Hr := fresh "Hr" in
  destruct (bind_cases _ _ _ H) as [(a & s1 & H1 & H2)|(e & H1 & Hr)].

Arguments keeps_elim {S A X f m s r s'} _ _.
Arguments grows_elim {S A X f l m s r s'} _ _.

(* ------------------------------------------------------------------ *)
(** ** What the steps of the engine leave unchanged *)

Section StepFacts.
Variable C : Collab.

Lemma keeps_call {A X} (f : St C -> X) (g : World C -> Res A * World C) :
  (forall w s, f (with_world w s) = f s) -> keeps f (call g).
Proof. intros Hf s r s' H. inversion H; subst. apply Hf. Qed.

Lemma keeps_now {X} (f : St C -> X) :
  (forall w s, f (with_world w s) = f s) -> keeps f (@now C).
Proof. intros Hf s r s' H. inversion H; subst. apply Hf. Qed.

Lemma keeps_emit {X} (f : St C -> X) (e : event C) :
  (forall s, f (with_trace (trace s ++ [e]) s) = f s) -> keeps f (emit e).
Proof. intros Hf s r s' H. inversion H; subst. apply Hf. Qed.

Lemma keeps_info {X} (f : St C -> X) msg :
  (forall l s, f (with_logger l s) = f s) -> keeps f (@info C msg).
Proof. intros Hf s r s' H. inversion H; subst. apply Hf. Qed.

Lemma keeps_debug {X} (f : St C -> X) msg :
  (forall l s, f (with_logger l s) = f s) -> keeps f (@debug C msg).
Proof. intros Hf s r s' H. inversion H; subst. apply Hf. Qed.

Lemma keeps_read_i {X} (f : St C -> X) : keeps f (@read_i C).
Proof.
  intros s r s' H. unfold read_i in H.
  destruct (loop_i s); inversion H; now subst.
Qed.

Lemma keeps_bind_i {X} (f : St C -> X) i :
  (forall j s, f (with_i j s) = f s) -> keeps f (@bind_i C i).
Proof. intros Hf s r s' H. inversion H; subst. apply Hf. Qed.

Lemma keeps_set_fitted {X} (f : St C -> X) p :
  (forall q s, f (with_fitted q s) = f s) -> keeps f (set_fitted_pipeline p).
Proof. intros Hf s r s' H. inversion H; subst. apply Hf. Qed.

Lemma keeps_get_fitted {X} (f : St C -> X) : keeps f (@get_fitted_pipeline C).
Proof. intros s r s' H. inversion H; now subst. Qed.

Lemma keeps_cache_set {X} (f : St C -> X) k v :
  (forall c s, f (with_cache c s) = f s) -> keeps f (@cache_set C k v).
Proof. intros Hf s r s' H. inversion H; subst. apply Hf. Qed.

Lemma keeps_get_cache {X} (f : St C -> X) : keeps f (@get_cache C).
Proof. intros s r s' H. inversion H; now subst. Qed.

Lemma keeps_get_logger {X} (f : St C -> X) : keeps f (@get_logger C).
Proof. intros s r s' H. inversion H; now subst. Qed.

Lemma grows_emit {X} (f : St C -> list X) (l : list X) (e : event C) :
  (forall s, f (with_trace (trace s ++ [e]) s) = f s ++ l) ->
  grows f l (emit e).
Proof. intros Hf s r s' H. inversion H; subst. apply Hf. Qed.

Lemma raises_only_call {A} (P : exn -> Prop) (g : World C -> Res A * World C) :
  (forall w e w', g w = (Raise e, w') -> P e) -> raises_only P (call g).
Proof.
  intros Hg s e s' H. unfold call in H.
  destruct (g (world s)) as [r w'] eqn:E. cbn in H.
  inversion H; subst. eapply Hg; eauto.
Qed.

Lemma raises_only_total {A} (P : exn -> Prop) (m : M (St C) A) :
  (forall s, exists a s', m s = (Ok a, s')) -> raises_only P m.
Proof. intros Hm s e s' H. destruct (Hm s) as (a & s1 & E). congruence. Qed.

End StepFacts.

(** The side conditions of the lemmas above: the observation does not read
    the field the step writes. *)
Ltac frame_side :=
  intros; try reflexivity;
  unfold train_calls, callback_calls, score_calls; cbn;
  rewrite ?filter_app; cbn; rewrite ?app_nil_r; reflexivity.

Ltac keeps_step :=
  first
    [ apply keeps_ret
    | apply keeps_raise
    | apply keeps_of_res
    | apply keeps_read_i
    | apply keeps_get_fitted
    | apply keeps_get_cache
    | apply keeps_get_logger
    | apply keeps_call; solve [frame_side]
    | apply keeps_now; solve [frame_side]
    | apply keeps_emit; solve [frame_side]
    | apply keeps_info; solve [frame_side]
    | apply keeps_debug; solve [frame_side]
    | apply keeps_bind_i; solve [frame_side]
    | apply keeps_set_fitted; solve [frame_side]
    | apply keeps_cache_set; solve [frame_side]
    | apply keeps_bind; [|intros ?]
    | match goal with
      | |- keeps _ (match ?x with _ => _ end) => destruct x
      end ].

Ltac keeps_tac := repeat (cbv beta; keeps_step).

Section ProcedureFacts.
Variable C : Collab.
Variable pipeline : Pipeline C.
Variable automl_config : AutoMLConfig (Splitter C) (Callback C) (Schema C).

Lemma train_pipeline_keeps_i p X y cfg schema get_hashes :
  keeps (@loop_i C) (train_pipeline p X y cfg schema get_hashes).
Proof. unfold train_pipeline. keeps_tac. Qed.

Lemma train_pipeline_keeps_callbacks p X y cfg schema get_hashes :
  keeps (@callback_calls C) (train_pipeline p X y cfg schema get_hashes).
Proof. unfold train_pipeline. keeps_tac. Qed.

Lemma train_pipeline_grows_train p X y cfg schema get_hashes :
  grows (@train_calls C) [TrainPipelineCall p X y]
        (train_pipeline p X y cfg schema get_hashes).
Proof.
  unfold train_pipeline.
  apply grows_bind_keeps; [apply grows_emit; frame_side|].
  intros _. keeps_tac.
Qed.

Lemma try_keeps_i prefix objs X_train X_score y_train y_score :
  keeps (@loop_i C)
    (_train_and_score_try pipeline automl_config prefix objs
       X_train X_score y_train y_score).
Proof.
  unfold _train_and_score_try.
  apply keeps_bind; [keeps_tac|intros _].
  apply keeps_bind; [apply train_pipeline_keeps_i|intros [fp h]].
  keeps_tac.
Qed.

Lemma try_keeps_callbacks prefix objs X_train X_score y_train y_score :
  keeps (@callback_calls C)
    (_train_and_score_try pipeline automl_config prefix objs
       X_train X_score y_train y_score).
Proof.
  unfold _train_and_score_try.
  apply keeps_bind; [keeps_tac|intros _].
  apply keeps_bind; [apply train_pipeline_keeps_callbacks|intros [fp h]].
  keeps_tac.
Qed.

Lemma try_grows_train prefix objs X_train X_score y_train y_score :
  grows (@train_calls C) [TrainPipelineCall pipeline X_train y_train]
    (_train_and_score_try pipeline automl_config prefix objs
       X_train X_score y_train y_score).
Proof.
  unfold _train_and_score_try.
  apply grows_after;
    [intros ?; do 2 eexists; reflexivity | keeps_tac | intros _].
  apply grows_bind_keeps; [apply train_pipeline_grows_train|].
  intros [fp h]. keeps_tac.
Qed.

End ProcedureFacts.

(* ------------------------------------------------------------------ *)
(** ** Dictionaries *)

Section DictFacts.
Variables K V : Type.
Variable eqb : K -> K -> bool.
Hypothesis eqb_eq : forall a b, eqb a b = true <-> a = b.

Lemma eqb_refl' k : eqb k k = true.
Proof. now apply eqb_eq. Qed.

Lemma dict_get_set k k' (v : V) d :
  dict_get eqb k (dict_set eqb k' v d)
  = if eqb k k' then Some v else dict_get eqb k d.
Proof.
  induction d as [|[k0 v0] d IH]; cbn.
  - reflexivity.
  - destruct (eqb k' k0) eqn:E0; cbn.
    + apply eqb_eq in E0; subst k0.
      destruct (eqb k k'); reflexivity.
    + rewrite IH. destruct (eqb k k0) eqn:E1; [|reflexivity].
      apply eqb_eq in E1; subst k0.
      destruct (eqb k k') eqn:E2; [|reflexivity].
      apply eqb_eq in E2; subst k'. rewrite eqb_refl' in E0. discriminate.
Qed.

Lemma dict_get_app k (d1 d2 : dict K V) :
  dict_get eqb k (d1 ++ d2)
  = match dict_get eqb k d1 with
    | Some v => Some v
    | None => dict_get eqb k d2
    end.
Proof.
  induction d1 as [|[k0 v0] d1 IH]; cbn; [reflexivity|].
  destruct (eqb k k0); auto.
Qed.

(** After [d.update(items)] a key holds the value of its last item, or what
    it held in [d]. *)
Lemma dict_get_update k (items : list (K * V)) d :
  dict_get eqb k (dict_update eqb d items)
  = match dict_get eqb k (rev items) with
    | Some v => Some v
    | None => dict_get eqb k d
    end.
Proof.
  revert d. induction items as [|[k0 v0] items IH]; intros d.
  - reflexivity.
  - unfold dict_update in *. cbn [fold_left fst snd rev].
    rewrite IH, dict_get_app, dict_get_set. cbn.
    destruct (dict_get eqb k (rev items)); [reflexivity|].
    destruct (eqb k k0); reflexivity.
Qed.

Lemma dict_get_In k (d : dict K V) v :
  dict_get eqb k d = Some v -> In (k, v) d.
Proof.
  induction d as [|[k0 v0] d IH]; cbn; [discriminate|].
  destruct (eqb k k0) eqn:E.
  - apply eqb_eq in E; subst. intros H; inversion H; auto.
  - auto.
Qed.

Lemma dict_get_present k (d : dict K V) :
  In k (map fst d) -> exists v, dict_get eqb k d = Some v.
Proof.
  induction d as [|[k0 v0] d IH]; cbn; [tauto|].
  intros [->|H].
  - rewrite eqb_refl'. eauto.
  - destruct (eqb k k0); eauto.
Qed.

Lemma dict_get_absent k (d : dict K V) :
  ~ In k (map fst d) -> dict_get eqb k d = None.
Proof.
  induction d as [|[k0 v0] d IH]; cbn; [reflexivity|].
  intros H. destruct (eqb k k0) eqn:E.
  - apply eqb_eq in E; subst. tauto.
  - apply IH. tauto.
Qed.

(** In a list of items without repeated keys the first and the last item
    of a key are the same. *)
Lemma dict_get_rev (d : dict K V) k :
  NoDup (map fst d) -> dict_get eqb k (rev d) = dict_get eqb k d.
Proof.
  induction d as [|[k0 v0] d IH]; cbn; [reflexivity|].
  intros H. inversion H as [|? ? Hn Hd]; subst.
  rewrite dict_get_app, IH by assumption. cbn.
  destruct (eqb k k0) eqn:E.
  - apply eqb_eq in E; subst. now rewrite dict_get_absent.
  - destruct (dict_get eqb k d); reflexivity.
Qed.

Lemma dict_keys_set k (v : V) d :
  dict_keys (dict_set eqb k v d) = add_key eqb (dict_keys d) k.
Proof.
  unfold add_key, dict_keys.
  induction d as [|[k0 v0] d IH]; cbn; [reflexivity|].
  destruct (eqb k k0); cbn; [reflexivity|].
  rewrite IH. destruct (existsb (eqb k) (map fst d)); reflexivity.
Qed.

(** The keys after [d.update(items)]: those of [d], then the new keys in
    the order of their first item. *)
Lemma dict_keys_update (items : list (K * V)) d :
  dict_keys (dict_update eqb d items)
  = fold_left (add_key eqb) (map fst items) (dict_keys d).
Proof.
  revert d. induction items as [|[k0 v0] items IH]; intros d; [reflexivity|].
  unfold dict_update in *. cbn [fold_left map fst snd].
  now rewrite IH, dict_keys_set.
Qed.

Lemma existsb_eqb_In k (ks : list K) :
  existsb (eqb k) ks = true <-> In k ks.
Proof.
  rewrite existsb_exists. split.
  - intros (x & Hx & E). apply eqb_eq in E. now subst.
  - intros H. exists k. split; [assumption|apply eqb_refl'].
Qed.

Lemma add_keys_fresh (new ks : list K) :
  NoDup (ks ++ new) -> fold_left (add_key eqb) new ks = ks ++ new.
Proof.
  revert ks. induction new as [|k new IH]; intros ks H; cbn.
  - now rewrite app_nil_r.
  - assert (Hk : existsb (eqb k) ks = false).
    { destruct (existsb (eqb k) ks) eqn:E; [|reflexivity].
      apply existsb_eqb_In in E.
      apply NoDup_remove_2 in H. exfalso. apply H.
      apply in_or_app. now left. }
    unfold add_key at 2. rewrite Hk.
    rewrite IH; rewrite <- app_assoc; [reflexivity|exact H].
Qed.

End DictFacts.

(* ------------------------------------------------------------------ *)
(** ** Scores after a failure, and the entry of a fold *)

Lemma add_key_NoDup (ks : list string) k :
  NoDup ks -> NoDup (add_key String.eqb ks k).
Proof.
  intros H. unfold add_key.
  destruct (existsb (String.eqb k) ks) eqn:E; [assumption|].
  apply NoDup_app; [assumption|constructor; [tauto|constructor]|].
  intros x Hx [Hk|[]]. subst x.
  assert (existsb (String.eqb k) ks = true)
    by (apply (existsb_eqb_In String.eqb String.eqb_eq); assumption).
  congruence.
Qed.

Lemma dict_update_NoDup {V} (items : list (string * V)) d :
  NoDup (dict_keys d) -> NoDup (dict_keys (dict_update String.eqb d items)).
Proof.
  intros H. rewrite (dict_keys_update String.eqb).
  revert H. generalize (dict_keys d).
  induction (map fst items) as [|k ks IH]; intros l H; cbn; [assumption|].
  apply IH. now apply add_key_NoDup.
Qed.

Lemma dict_of_items_NoDup {V} (items : list (string * V)) :
  NoDup (dict_keys (dict_of_items String.eqb items)).
Proof. apply dict_update_NoDup. constructor. Qed.

Lemma dict_get_map_values {A B} (g : A -> B) k (d : dict string A) :
  dict_get String.eqb k (map (fun kv => (fst kv, g (snd kv))) d)
  = option_map g (dict_get String.eqb k d).
Proof.
  induction d as [|[k0 v0] d IH]; cbn; [reflexivity|].
  destruct (String.eqb k k0); auto.
Qed.

(** A dictionary built from items that all carry the same value [c] holds
    [c] under every key of the items. *)
Lemma dict_of_items_constant {V} (c : V) (keys : list string) k :
  In k keys ->
  dict_get String.eqb k (dict_of_items String.eqb (map (fun n => (n, c)) keys))
  = Some c.
Proof.
  intros Hk. unfold dict_of_items.
  rewrite (dict_get_update String.eqb String.eqb_eq). cbn.
  destruct (dict_get_present String.eqb String.eqb_eq k
              (rev (map (fun n => (n, c)) keys))) as [v Hv].
  { rewrite <- map_rev, map_map. cbn. rewrite map_id. now apply in_rev in Hk. }
  rewrite Hv. apply (dict_get_In String.eqb String.eqb_eq) in Hv.
  apply in_rev in Hv. apply in_map_iff in Hv as (n & E & _).
  inversion E; now subst.
Qed.

Lemma dict_of_items_constant_absent {V} (c : V) (keys : list string) k :
  ~ In k keys ->
  dict_get String.eqb k (dict_of_items String.eqb (map (fun n => (n, c)) keys))
  = None.
Proof.
  intros Hk. apply (dict_get_absent String.eqb String.eqb_eq).
  change (map fst ?d) with (dict_keys d).
  unfold dict_of_items. rewrite (dict_keys_update String.eqb). cbn.
  rewrite map_map. cbn. rewrite map_id.
  assert (G : forall new ks, (forall x, In x ks -> In x keys) ->
                (forall x, In x new -> In x keys) ->
                forall x, In x (fold_left (add_key String.eqb) new ks) ->
                          In x keys).
  { induction new as [|n new IH]; intros ks H1 H2 x; cbn; [apply H1|].
    apply IH.
    - intros y. unfold add_key.
      destruct (existsb (String.eqb n) ks); [apply H1|].
      intros Hy. apply in_app_or in Hy as [Hy|[<-|[]]]; [now apply H1|].
      apply H2. now left.
    - intros y Hy. apply H2. now right. }
  intros H. apply Hk. eapply G; [| |exact H]; [intros ? []|auto].
Qed.

Section ScoreFacts.
Variable C : Collab.
Variable automl_config : AutoMLConfig (Splitter C) (Callback C) (Schema C).

Lemma nan_scores_get exceptions k :
  dict_get String.eqb k
    (dict_of_items String.eqb
       (map (fun kv : string * string => (fst kv, NaN)) exceptions))
  = if existsb (String.eqb k) (map fst exceptions) then Some NaN else None.
Proof.
  replace (map (fun kv : string * string => (fst kv, NaN)) exceptions)
    with (map (fun n => (n, NaN)) (map fst exceptions))
    by (now rewrite map_map).
  destruct (existsb (String.eqb k) (map fst exceptions)) eqn:E.
  - apply dict_of_items_constant.
    now apply (existsb_eqb_In String.eqb String.eqb_eq).
  - apply dict_of_items_constant_absent. intros H.
    apply (existsb_eqb_In String.eqb String.eqb_eq) in H. congruence.
Qed.



Lemma merged_present exceptions scored_successfully k :
  In k (map fst exceptions ++ map fst scored_successfully) ->
  exists v,
    dict_get String.eqb k (merged_scores exceptions scored_successfully)
    = Some v.
Proof.
  intros H. unfold merged_scores. rewrite (dict_get_update String.eqb String.eqb_eq).
  destruct (dict_get String.eqb k (rev scored_successfully)) eqn:E; [eauto|].
  rewrite nan_scores_get.
  apply in_app_or in H as [H|H].
  - apply (existsb_eqb_In String.eqb String.eqb_eq) in H. rewrite H. eauto.
  - rewrite in_rev, <- map_rev in H.
    destruct (dict_get_present String.eqb String.eqb_eq _ _ H). congruence.
Qed.

Lemma scores_by_name_Ok scores os :
  (forall o, In o os ->
             exists v, dict_get String.eqb (name o) scores = Some v) ->
  exists items,
    scores_by_name scores os = Ok items
    /\ map fst items = map name os
    /\ (forall k v, In (k, v) items ->
                    dict_get String.eqb k scores = Some v).
Proof.
  induction os as [|o os IH]; intros H; cbn.
  - exists []. repeat split. intros ? ? [].
  - destruct (H o (or_introl eq_refl)) as [v Hv].
    destruct IH as (items & E & Hk & Hi).
    { intros o' Ho'. apply H. now right. }
    unfold getitem. rewrite Hv, E.
    exists ((name o, v) :: items). repeat split.
    + cbn. now rewrite Hk.
    + intros k v' [Heq|Hin]; [inversion Heq; now subst|auto].
Qed.

(** A dictionary made of items read from [scores] agrees with [scores] on
    the keys of the items. *)
Lemma dict_of_items_agrees (items : list (string * float)) scores k :
  (forall k v, In (k, v) items -> dict_get String.eqb k scores = Some v) ->
  In k (map fst items) ->
  dict_get String.eqb k (dict_of_items String.eqb items)
  = dict_get String.eqb k scores.
Proof.
  intros Hi Hk. unfold dict_of_items.
  rewrite (dict_get_update String.eqb String.eqb_eq). cbn.
  destruct (dict_get_present String.eqb String.eqb_eq k (rev items)) as [v Hv].
  { now rewrite map_rev, <- in_rev. }
  rewrite Hv. apply (dict_get_In String.eqb String.eqb_eq) in Hv.
  apply in_rev in Hv. symmetry. now apply Hi.
Qed.

(** The scores the [except] block assigns on a PipelineScoreError that
    accounts for every configured objective. *)
Lemma scores_after_partial_failure exceptions scored_successfully :
  (forall o, In o (objectives_to_score C automl_config) ->
             In (name o)
                (map fst exceptions ++ map fst scored_successfully)) ->
  exists score scores,
    scores_after_failure C automl_config
      (PipelineScoreError exceptions scored_successfully)
    = Ok (score, scores)
    /\ dict_get String.eqb (name (objective automl_config)) scores = Some score
    /\ NoDup (dict_keys scores)
    /\ dict_keys scores
       = fold_left (add_key String.eqb)
                   (map name (objectives_to_score C automl_config)) []
    /\ (forall o, In o (objectives_to_score C automl_config) ->
          dict_get String.eqb (name o) scores
          = dict_get String.eqb (name o)
              (merged_scores exceptions scored_successfully)).
Proof.
  intros Hcov. unfold scores_after_failure.
  fold (merged_scores exceptions scored_successfully).
  destruct (scores_by_name_Ok
              (merged_scores exceptions scored_successfully)
              (objectives_to_score C automl_config))
    as (items & E & Hk & Hi).
  { intros o Ho. apply merged_present. now apply Hcov. }
  unfold objectives_to_score in *. rewrite E.
  assert (Hagree : forall o,
             In o (objective automl_config
                   :: additional_objectives automl_config) ->
             dict_get String.eqb (name o) (dict_of_items String.eqb items)
             = dict_get String.eqb (name o)
                 (merged_scores exceptions scored_successfully)).
  { intros o Ho. apply dict_of_items_agrees; [exact Hi|].
    rewrite Hk. now apply in_map. }
  destruct (merged_present exceptions scored_successfully
              (name (objective automl_config))) as [v Hv].
  { apply Hcov. now left. }
  pose proof (Hagree _ (or_introl eq_refl)) as Hp. rewrite Hv in Hp.
  unfold getitem. rewrite Hp.
  exists v, (dict_of_items String.eqb items). repeat split; auto.
  - apply dict_of_items_NoDup.
  - unfold dict_of_items. rewrite (dict_keys_update String.eqb).
    now rewrite Hk.
Qed.

(** A score of the fold's entry, for a key that is not one of the two
    counts: the score [scores] holds, else the primary score. *)
Lemma entry_get score scores (sp : Pipeline C) y_train y_valid k :
  NoDup (dict_keys scores) ->
  k <> "# Training" -> k <> "# Validation" ->
  dict_get String.eqb k
    (all_objective_scores
       (evaluation_entry C automl_config score scores sp y_train y_valid))
  = match dict_get String.eqb k scores with
    | Some v => Some (Score v)
    | None =>
        if String.eqb k (name (objective automl_config))
        then Some (Score score) else None
    end.
Proof.
  intros Hn H1 H2. unfold evaluation_entry. cbn [all_objective_scores].
  rewrite !(dict_get_update String.eqb String.eqb_eq). cbn [rev app dict_get].
  apply String.eqb_neq in H1, H2. rewrite H1, H2.
  rewrite (dict_get_rev String.eqb String.eqb_eq).
  - rewrite dict_get_map_values.
    destruct (dict_get String.eqb k scores); cbn; [reflexivity|].
    destruct (String.eqb k (name (objective automl_config))); reflexivity.
  - rewrite map_map. exact Hn.
Qed.

Lemma entry_counts score scores (sp : Pipeline C) y_train y_valid :
  let e := evaluation_entry C automl_config score scores sp y_train y_valid in
  dict_get String.eqb "# Training" (all_objective_scores e)
  = Some (Count (length y_train))
  /\ dict_get String.eqb "# Validation" (all_objective_scores e)
     = Some (Count (length y_valid)).
Proof.
  cbn zeta. unfold evaluation_entry. cbn [all_objective_scores].
  rewrite !(dict_get_update String.eqb String.eqb_eq). cbn. auto.
Qed.

End ScoreFacts.

(* ------------------------------------------------------------------ *)
(** ** One pass of training and scoring *)

Section PassFacts.
Variable C : Collab.
Variable pipeline : Pipeline C.
Variable automl_config : AutoMLConfig (Splitter C) (Callback C) (Schema C).

(** The error callback, called once when configured, changes nothing the
    statements observe besides the list of its calls. *)
Lemma report_failure_spec i e s :
  (forall callback w,
      fst (call_error_callback C callback e (format_tb C e)
             automl_config i pipeline w) = Ok tt) ->
  exists s',
    report_failure pipeline automl_config i e s = (Ok tt, s')
    /\ callback_calls s'
       = callback_calls s
         ++ match error_callback automl_config with
            | Some _ =>
                [ErrorCallbackCall e (format_tb C e) automl_config i pipeline]
            | None => []
            end
    /\ loop_i s' = loop_i s
    /\ train_calls s' = train_calls s
    /\ score_calls s' = score_calls s
    /\ fitted_pipeline s' = fitted_pipeline s
    /\ pipeline_cache s' = pipeline_cache s.
Proof.
  intros Hcb. unfold report_failure.
  destruct (error_callback automl_config) as [callback|].
  - unfold bind, emit, call. cbn.
    specialize (Hcb callback (world s)).
    destruct (call_error_callback C callback e (format_tb C e)
                automl_config i pipeline (world s)) as [r w'].
    cbn in Hcb. subst r. cbn.
    eexists. split; [reflexivity|].
    unfold callback_calls, train_calls, score_calls. cbn.
    rewrite !filter_app. cbn. rewrite !app_nil_r. auto 10.
  - eexists. split; [reflexivity|]. rewrite app_nil_r. auto 10.
Qed.

(** [_train_and_score] in a state where [i] is bound: the [try] block,
    then, on an exception deriving from Exception, the [except] block. *)
Lemma train_and_score_unfold X_train X_score y_train y_score fold_num i s :
  loop_i s = Some i ->
  _train_and_score pipeline automl_config
    X_train X_score y_train y_score fold_num s
  = match _train_and_score_try pipeline automl_config
            ("Fold " +++ str_of_nat i)
            (objectives_to_score C automl_config)
            X_train X_score y_train y_score (with_fitted pipeline s) with
    | (Ok (score, scores), s1) =>
        (Ok (score, scores, fitted_pipeline s1), s1)
    | (Raise e, s1) =>
        if isinstance_Exception e
        then match _train_and_score_except pipeline automl_config i e s1 with
             | (Ok (score, scores), s2) =>
                 (Ok (score, scores, fitted_pipeline s2), s2)
             | (Raise e', s2) => (Raise e', s2)
             end
        else (Raise e, s1)
    end.
Proof.
  intros Hi.
  unfold _train_and_score, objectives_to_score.
  unfold bind at 1. cbn [set_fitted_pipeline].
  unfold bind at 1. unfold read_i at 1. cbn [loop_i with_fitted].
  rewrite Hi.
  unfold bind at 1. unfold try_except.
  destruct (_train_and_score_try _ _ _ _ _ _ _ _ _) as [[[score scores]|e] s1].
  - reflexivity.
  - destruct (isinstance_Exception e); [|reflexivity].
    destruct (_train_and_score_except _ _ _ _ _) as [[[score scores]|e'] s2];
      reflexivity.
Qed.

(** With [i] unbound the nested function stops on its first line. *)
Lemma train_and_score_unbound X_train X_score y_train y_score fold_num s :
  loop_i s = None ->
  _train_and_score pipeline automl_config
    X_train X_score y_train y_score fold_num s
  = (Raise (NameError "i"), with_fitted pipeline s).
Proof.
  intros Hi. unfold _train_and_score.
  unfold bind at 1. cbn [set_fitted_pipeline].
  unfold bind at 1. unfold read_i at 1. cbn [loop_i with_fitted].
  now rewrite Hi.
Qed.

End PassFacts.

Section ContainmentFacts.
Variable C : Collab.
Variable pipeline : Pipeline C.
Variable automl_config : AutoMLConfig (Splitter C) (Callback C) (Schema C).
Hypothesis WB : well_behaved C automl_config.

Lemma raises_only_step {A} (m : M (St C) A) :
  (forall s, exists a s', m s = (Ok a, s')) ->
  raises_only (contained C automl_config) m.
Proof. apply raises_only_total. Qed.

Lemma raises_only_getitem (d : dict string float) k :
  raises_only (contained C automl_config) (@of_res (St C) _ (getitem d k)).
Proof.
  apply raises_only_of_res. intros e. unfold getitem.
  destruct (dict_get String.eqb k d); [discriminate|].
  intros H; inversion H; subst. split; [reflexivity|exact I].
Qed.

Lemma train_pipeline_contained p X y get_hashes :
  raises_only (contained C automl_config)
    (train_pipeline p X y automl_config false get_hashes).
Proof.
  unfold train_pipeline.
  apply raises_only_bind;
    [apply raises_only_step; intros ?; do 2 eexists; reflexivity|intros _].
  apply raises_only_bind.
  { destruct (X_schema automl_config);
      apply raises_only_step; intros ?; do 2 eexists; reflexivity. }
  intros _. apply raises_only_bind.
  { destruct (y_schema automl_config);
      apply raises_only_step; intros ?; do 2 eexists; reflexivity. }
  intros _. apply raises_only_bind.
  { apply raises_only_call. apply (wb_tuning_info WB). }
  intros [tto needs]. apply raises_only_bind.
  { destruct needs.
    - apply raises_only_bind.
      + apply raises_only_call. apply (wb_resplit WB).
      + intros [[[X1 Xtt] y1] ytt]. apply raises_only_ret.
    - apply raises_only_ret. }
  intros [[[X1 Xtt] y1] ytt]. apply raises_only_bind.
  { apply raises_only_call. apply (wb_clone WB). }
  intros cv. apply raises_only_bind.
  { apply raises_only_call. apply (wb_fit WB). }
  intros cv'. apply raises_only_bind.
  { apply raises_only_call. apply (wb_tune WB). }
  intros cv''. destruct (negb get_hashes); apply raises_only_ret.
Qed.

(** The [try] block raises only contained failures. *)
Lemma try_contained prefix X_train X_score y_train y_score :
  raises_only (contained C automl_config)
    (_train_and_score_try pipeline automl_config prefix
       (objectives_to_score C automl_config)
       X_train X_score y_train y_score).
Proof.
  unfold _train_and_score_try.
  apply raises_only_bind;
    [apply raises_only_step; intros ?; do 2 eexists; reflexivity|intros _].
  apply raises_only_bind; [apply train_pipeline_contained|intros [fp h]].
  apply raises_only_bind;
    [apply raises_only_step; intros ?; do 2 eexists; reflexivity|intros _].
  apply raises_only_bind;
    [apply raises_only_step; intros ?; do 2 eexists; reflexivity|intros _].
  apply raises_only_bind.
  { destruct (optimize_thresholds automl_config
              && is_binary C (problem_type automl_config));
      [destruct (threshold C fp)|];
      apply raises_only_step; intros ?; do 2 eexists; reflexivity. }
  intros _.
  apply raises_only_bind;
    [apply raises_only_step; intros ?; do 2 eexists; reflexivity|intros _].
  apply raises_only_bind;
    [apply raises_only_step; intros ?; do 2 eexists; reflexivity|intros _].
  apply raises_only_bind.
  { apply raises_only_call. apply (wb_score WB). }
  intros scores.
  apply raises_only_bind; [apply raises_only_getitem|intros shown].
  apply raises_only_bind;
    [apply raises_only_step; intros ?; do 2 eexists; reflexivity|intros _].
  apply raises_only_bind; [apply raises_only_getitem|intros score].
  apply raises_only_bind;
    [apply raises_only_step; intros ?; do 2 eexists; reflexivity|intros _].
  apply raises_only_ret.
Qed.

(** The [except] block completes on a contained failure. *)
Lemma except_completes i e s :
  contained C automl_config e ->
  exists score scores s',
    _train_and_score_except pipeline automl_config i e s
    = (Ok (score, scores), s')
    /\ scores_after_failure C automl_config e = Ok (score, scores)
    /\ loop_i s' = loop_i s
    /\ train_calls s' = train_calls s
    /\ fitted_pipeline s' = fitted_pipeline s.
Proof.
  intros [Hexc Hcov].
  destruct (report_failure_spec pipeline automl_config i e s)
    as (s' & Hr & _ & Hi & Ht & _ & Hf & _).
  { intros callback w. apply (wb_callback WB). }
  assert (Hs : exists score scores,
             scores_after_failure C automl_config e = Ok (score, scores)).
  { destruct e; try (cbn; eauto; fail).
    destruct (@scores_after_partial_failure C automl_config _ _ Hcov)
      as (score & scores & E & _). eauto. }
  destruct Hs as (score & scores & Hs).
  exists score, scores, s'.
  unfold _train_and_score_except. rewrite (bind_Ok _ _ _ Hr).
  unfold of_res. rewrite Hs. auto.
Qed.

(** Under well-behaved collaborators a pass returns, whether training and
    scoring succeed or not; it calls [train_pipeline] once, on the training
    slice it was given. *)
Lemma train_and_score_completes X_train X_score y_train y_score fold_num i s :
  loop_i s = Some i ->
  exists score scores sp s',
    _train_and_score pipeline automl_config
      X_train X_score y_train y_score fold_num s
    = (Ok (score, scores, sp), s')
    /\ loop_i s' = Some i
    /\ train_calls s'
       = train_calls s ++ [TrainPipelineCall pipeline X_train y_train].
Proof.
  intros Hi. rewrite (train_and_score_unfold _ _ _ _ _ _ _ _ Hi).
  destruct (_train_and_score_try _ _ _ _ _ _ _ _ _)
    as [[[score scores]|e] s1] eqn:E.
  - do 4 eexists. split; [reflexivity|]. split.
    + rewrite (keeps_elim (@try_keeps_i C pipeline automl_config _ _ _ _ _ _) E).
      exact Hi.
    + now rewrite
        (grows_elim (@try_grows_train C pipeline automl_config _ _ _ _ _ _) E).
  - pose proof (@try_contained _ _ _ _ _ _ _ _ E) as Hc.
    destruct Hc as [Hexc Hcov]. rewrite Hexc.
    destruct (except_completes i s1 (conj Hexc Hcov))
      as (score & scores & s2 & E2 & _ & Hi2 & Ht2 & _).
    rewrite E2. do 4 eexists. split; [reflexivity|]. split.
    + rewrite Hi2.
      rewrite (keeps_elim (@try_keeps_i C pipeline automl_config _ _ _ _ _ _) E).
      exact Hi.
    + rewrite Ht2.
      now rewrite
        (grows_elim (@try_grows_train C pipeline automl_config _ _ _ _ _ _) E).
Qed.

End ContainmentFacts.

(* ------------------------------------------------------------------ *)
(** ** One fold *)

Lemma iloc_rows_at {A} (l : list A) positions :
  Forall (fun p => p < length l)%nat positions ->
  iloc l positions = Ok (rows_at l positions).
Proof.
  unfold rows_at.
  induction 1 as [|p ps Hp _ IH]; [reflexivity|].
  cbn. apply nth_error_Some in Hp.
  destruct (nth_error l p); [|congruence].
  now rewrite IH.
Qed.

Lemma length_rows_at {A} (l : list A) positions :
  Forall (fun p => p < length l)%nat positions ->
  length (rows_at l positions) = length positions.
Proof.
  unfold rows_at.
  induction 1 as [|p ps Hp _ IH]; [reflexivity|].
  cbn. apply nth_error_Some in Hp.
  destruct (nth_error l p); [|congruence].
  cbn. now f_equal.
Qed.

Lemma iloc_length {A} (l : list A) positions r :
  iloc l positions = Ok r -> length r = length positions.
Proof.
  revert r. induction positions as [|p ps IH]; intros r; cbn.
  - intros H; inversion H; reflexivity.
  - destruct (nth_error l p); [|discriminate].
    destruct (iloc l ps); [|discriminate].
    intros H; inversion H; subst. cbn. now rewrite (IH _ eq_refl).
Qed.

Lemma diff_string_nonempty C diff_train diff_valid :
  diff_train <> [] \/ diff_valid <> [] ->
  exists a rest, diff_string C diff_train diff_valid = String a rest.
Proof.
  unfold diff_string.
  destruct diff_train as [|t ts]; destruct diff_valid as [|v vs];
    intros [H|H]; try congruence; cbn; eauto.
Qed.

Section FoldFacts.
Variable C : Collab.
Variable pipeline : Pipeline C.
Variable automl_config : AutoMLConfig (Splitter C) (Callback C) (Schema C).
Variable full_X_train : DataFrame (Row C).
Variable full_y_train : Series.

(** A fold whose slices exist and pass the check on target values is a
    pass of training and scoring followed by the making of the entry. *)
Lemma cv_fold_unfold i train valid s X_train X_valid y_train y_valid :
  iloc full_X_train train = Ok X_train ->
  iloc full_X_train valid = Ok X_valid ->
  iloc full_y_train train = Ok y_train ->
  iloc full_y_train valid = Ok y_valid ->
  (checks_target_values C automl_config = true ->
   setdiff1d full_y_train y_train = []
   /\ setdiff1d full_y_train y_valid = []) ->
  cv_fold pipeline automl_config full_X_train full_y_train i train valid s
  = match _train_and_score pipeline automl_config
            X_train X_valid y_train y_valid (Some i)
            (with_logger
               (JobLogger.debug
                  (tab +++ tab +++ "Training and scoring on fold "
                   +++ str_of_nat i) (job_logger s))
               (with_i (Some i) s)) with
    | (Ok (score, scores, stored_pipeline), s') =>
        (Ok (evaluation_entry C automl_config score scores stored_pipeline
               y_train y_valid, stored_pipeline), s')
    | (Raise e, s') => (Raise e, s')
    end.
Proof.
  intros HX1 HX2 Hy1 Hy2 Hcheck.
  unfold cv_fold.
  unfold bind at 1. cbn [bind_i].
  unfold bind at 1. cbn [debug].
  unfold bind at 1. unfold of_res at 1. rewrite HX1.
  unfold bind at 1. unfold of_res at 1. rewrite HX2.
  unfold bind at 1. unfold of_res at 1. rewrite Hy1.
  unfold bind at 1. unfold of_res at 1. rewrite Hy2.
  unfold bind at 1.
  assert (Hpass :
            (if checks_target_values C automl_config
             then match diff_string C (setdiff1d full_y_train y_train)
                          (setdiff1d full_y_train y_valid) with
                  | EmptyString => ret tt
                  | message => raise (Exception message)
                  end
             else ret tt)
            = @ret (St C) unit tt).
  { destruct (checks_target_values C automl_config); [|reflexivity].
    destruct (Hcheck eq_refl) as [-> ->]. reflexivity. }
  rewrite Hpass. cbn [ret].
  unfold bind at 1.
  destruct (_train_and_score _ _ _ _ _ _ _ _) as [[[[sc scs] sp]|e] s'];
    reflexivity.
Qed.

(** A fold whose slices lack a target value raises on the spot: the state
    it leaves differs from the one it found by the binding of [i] and one
    log line. *)
Lemma cv_fold_missing i train valid s X_train X_valid y_train y_valid :
  iloc full_X_train train = Ok X_train ->
  iloc full_X_train valid = Ok X_valid ->
  iloc full_y_train train = Ok y_train ->
  iloc full_y_train valid = Ok y_valid ->
  checks_target_values C automl_config = true ->
  setdiff1d full_y_train y_train <> []
  \/ setdiff1d full_y_train y_valid <> [] ->
  cv_fold pipeline automl_config full_X_train full_y_train i train valid s
  = (Raise (Exception (diff_string C (setdiff1d full_y_train y_train)
                         (setdiff1d full_y_train y_valid))),
     with_logger
       (JobLogger.debug
          (tab +++ tab +++ "Training and scoring on fold " +++ str_of_nat i)
          (job_logger s))
       (with_i (Some i) s)).
Proof.
  intros HX1 HX2 Hy1 Hy2 Hcheck Hdiff.
  unfold cv_fold.
  unfold bind at 1. cbn [bind_i].
  unfold bind at 1. cbn [debug].
  unfold bind at 1. unfold of_res at 1. rewrite HX1.
  unfold bind at 1. unfold of_res at 1. rewrite HX2.
  unfold bind at 1. unfold of_res at 1. rewrite Hy1.
  unfold bind at 1. unfold of_res at 1. rewrite Hy2.
  unfold bind at 1. rewrite Hcheck.
  destruct (diff_string_nonempty C Hdiff) as (a & rest & E).
  rewrite E. reflexivity.
Qed.

(** Under well-behaved collaborators a fold whose positions are in range
    and whose slices hold every target value completes: it yields an entry
    with the sizes of its two slices, after exactly one call of
    [train_pipeline], on the training slice. *)
Lemma cv_fold_completes i fold s :
  well_behaved C automl_config ->
  length full_y_train = length full_X_train ->
  in_range (length full_X_train) fold ->
  (checks_target_values C automl_config = true ->
   no_missing_target full_y_train fold) ->
  exists entry sp s',
    cv_fold pipeline automl_config full_X_train full_y_train
      i (fst fold) (snd fold) s
    = (Ok (entry, sp), s')
    /\ loop_i s' = Some i
    /\ train_calls s'
       = train_calls s
         ++ [TrainPipelineCall pipeline
               (rows_at full_X_train (fst fold))
               (rows_at full_y_train (fst fold))]
    /\ dict_get String.eqb "# Training" (all_objective_scores entry)
       = Some (Count (length (fst fold)))
    /\ dict_get String.eqb "# Validation" (all_objective_scores entry)
       = Some (Count (length (snd fold))).
Proof.
  intros WB Hlen [Ht Hv] Hcheck.
  assert (Ht' : Forall (fun p => p < length full_y_train)%nat (fst fold))
    by now rewrite Hlen.
  assert (Hv' : Forall (fun p => p < length full_y_train)%nat (snd fold))
    by now rewrite Hlen.
  rewrite (@cv_fold_unfold i (fst fold) (snd fold) s
             _ _ _ _
             (iloc_rows_at _ Ht) (iloc_rows_at _ Hv)
             (iloc_rows_at _ Ht') (iloc_rows_at _ Hv') Hcheck).
  destruct (@train_and_score_completes C pipeline automl_config WB
              (rows_at full_X_train (fst fold))
              (rows_at full_X_train (snd fold))
              (rows_at full_y_train (fst fold))
              (rows_at full_y_train (snd fold)) (Some i) i
              (with_logger
                 (JobLogger.debug
                    (tab +++ tab +++ "Training and scoring on fold "
                     +++ str_of_nat i) (job_logger s))
                 (with_i (Some i) s)) eq_refl)
    as (score & scores & sp & s' & E & Hi & Htr).
  rewrite E. do 3 eexists. split; [reflexivity|].
  split; [exact Hi|]. split; [exact Htr|].
  destruct (entry_counts C automl_config score scores sp
              (rows_at full_y_train (fst fold))
              (rows_at full_y_train (snd fold))) as [H1 H2].
  rewrite H1, H2, !length_rows_at by assumption. auto.
Qed.

End FoldFacts.

(* ------------------------------------------------------------------ *)
(** ** The loop over the folds *)

Section LoopFacts.
Variable C : Collab.
Variable pipeline : Pipeline C.
Variable automl_config : AutoMLConfig (Splitter C) (Callback C) (Schema C).
Variable full_X_train : DataFrame (Row C).
Variable full_y_train : Series.

Lemma cv_loop_cons fold rest i cv_data sp s :
  cv_loop pipeline automl_config full_X_train full_y_train
    (fold :: rest) i cv_data sp s
  = match cv_fold pipeline automl_config full_X_train full_y_train
            i (fst fold) (snd fold) s with
    | (Ok (entry, sp'), s') =>
        cv_loop pipeline automl_config full_X_train full_y_train
          rest (S i) (cv_data ++ [entry]) sp' s'
    | (Raise e, s') => (Raise e, s')
    end.
Proof.
  destruct fold as [train valid]. cbn [cv_loop fst snd]. unfold bind.
  destruct (cv_fold _ _ _ _ _ _ _ _) as [[[entry sp']|e] s']; reflexivity.
Qed.

(** The loop over folds that all complete: one entry per fold, appended in
    the order of the folds, and one call of [train_pipeline] per fold, in
    the same order. *)
Lemma cv_loop_completes folds :
  well_behaved C automl_config ->
  length full_y_train = length full_X_train ->
  Forall (in_range (length full_X_train)) folds ->
  (checks_target_values C automl_config = true ->
   Forall (no_missing_target full_y_train) folds) ->
  forall i cv_data sp s,
  exists entries sp' s',
    cv_loop pipeline automl_config full_X_train full_y_train
      folds i cv_data sp s
    = (Ok (cv_data ++ entries, sp'), s')
    /\ length entries = length folds
    /\ (forall n fold,
          nth_error folds n = Some fold ->
          exists entry,
            nth_error entries n = Some entry
            /\ dict_get String.eqb "# Training" (all_objective_scores entry)
               = Some (Count (length (fst fold)))
            /\ dict_get String.eqb "# Validation" (all_objective_scores entry)
               = Some (Count (length (snd fold))))
    /\ train_calls s'
       = train_calls s
         ++ map (fold_training C pipeline full_X_train full_y_train) folds
    /\ loop_i s'
       = match folds with
         | [] => loop_i s
         | _ => Some (i + length folds - 1)%nat
         end.
Proof.
  intros WB Hlen Hrange Hcheck.
  induction folds as [|fold rest IH]; intros i cv_data sp s.
  - exists [], sp, s. cbn. rewrite !app_nil_r.
    repeat split; auto. intros [|n] fold H; discriminate.
  - inversion Hrange as [|? ? Hr Hrs]; subst.
    assert (Hc1 : checks_target_values C automl_config = true ->
                  no_missing_target full_y_train fold).
    { intros Hc. specialize (Hcheck Hc). now inversion Hcheck. }
    assert (Hc2 : checks_target_values C automl_config = true ->
                  Forall (no_missing_target full_y_train) rest).
    { intros Hc. specialize (Hcheck Hc). now inversion Hcheck. }
    rewrite cv_loop_cons.
    destruct (@cv_fold_completes C pipeline automl_config
                full_X_train full_y_train i fold s WB Hlen Hr Hc1)
      as (entry & sp1 & s1 & E & Hi1 & Ht1 & Hn1 & Hn2).
    rewrite E.
    destruct (IH Hrs Hc2 (S i) (cv_data ++ [entry]) sp1 s1)
      as (entries & sp' & s' & E' & Hl & Hnth & Ht & Hi).
    exists (entry :: entries), sp', s'.
    rewrite E', <- app_assoc. cbn [app length map].
    split; [reflexivity|]. split; [now rewrite Hl|].
    split; [|split].
    + intros [|n] f Hf; cbn in Hf |- *.
      * inversion Hf; subst. eauto.
      * now apply Hnth.
    + rewrite Ht, Ht1, <- app_assoc. reflexivity.
    + rewrite Hi. destruct rest; [rewrite Hi1; f_equal; cbn; lia|].
      f_equal. cbn. lia.
Qed.

End LoopFacts.

(* ------------------------------------------------------------------ *)
(** ** The whole procedure *)

Lemma encode_length listed_before y :
  length (_encode_classification_target listed_before y) = length y.
Proof. unfold _encode_classification_target. apply length_map. Qed.

Lemma prepared_length C cfg y : length (prepared_target C cfg y) = length y.
Proof.
  unfold prepared_target.
  destruct (is_classification C (problem_type cfg));
    [apply encode_length|reflexivity].
Qed.

Section RunFacts.
Variable C : Collab.
Variable pipeline : Pipeline C.
Variable automl_config : AutoMLConfig (Splitter C) (Callback C) (Schema C).
Variable full_X_train : DataFrame (Row C).

(** The procedure is its first statements, which cannot fail, followed by
    the rest on the prepared targets. *)
Lemma run_unfold full_y_train logger X_holdout y_holdout w :
  train_and_score_pipeline C pipeline automl_config full_X_train full_y_train
    logger X_holdout y_holdout w
  = train_and_score_pipeline_rest pipeline automl_config full_X_train
      (prepared_target C automl_config full_y_train)
      (fst (time_time C w)) X_holdout
      (prepared_holdout C automl_config X_holdout y_holdout)
      (loop_start C pipeline logger w).
Proof. reflexivity. Qed.

(** What a returned result holds, whatever the collaborators did: the
    scores of the folds in the order of [cv_data], and their pandas mean. *)
Lemma rest_returns full_y_train start X_holdout y_holdout s r s' :
  train_and_score_pipeline_rest pipeline automl_config full_X_train
    full_y_train start X_holdout y_holdout s = (Ok r, s') ->
  cv_scores (scores r) = map mean_cv_score (cv_data (scores r))
  /\ cv_score_mean (scores r)
     = Series_mean (ndarray_sum C) (map mean_cv_score (cv_data (scores r))).
Proof.
  unfold train_and_score_pipeline_rest. cbv zeta. intros H.
  destruct (bind_cases _ _ _ H) as [(folds & s1 & _ & H1)|(e & _ & E)];
    [clear H|discriminate].
  destruct (bind_cases _ _ _ H1) as [([cv sp] & s2 & _ & H2)|(e & _ & E)];
    [clear H1|discriminate].
  destruct (bind_cases _ _ _ H2) as [(u & s3 & _ & H3)|(e & _ & E)];
    [clear H2|discriminate].
  destruct (bind_cases _ _ _ H3) as [([[hs hd] sp'] & s4 & _ & H4)|(e & _ & E)];
    [clear H3|discriminate].
  destruct (bind_cases _ _ _ H4) as [(t & s5 & _ & H5)|(e & _ & E)];
    [clear H4|discriminate].
  destruct (bind_cases _ _ _ H5) as [(c & s6 & _ & H6)|(e & _ & E)];
    [clear H5|discriminate].
  destruct (bind_cases _ _ _ H6) as [(l & s7 & _ & H7)|(e & _ & E)];
    [clear H6|discriminate].
  inversion H7; subst. cbn. auto.
Qed.

(** The [cv_data] of a returned result is what the loop produced. *)
Lemma rest_cv_data full_y_train start X_holdout y_holdout s r s'
      folds entries sp s1 :
  train_and_score_pipeline_rest pipeline automl_config full_X_train
    full_y_train start X_holdout y_holdout s = (Ok r, s') ->
  fst (split C (data_splitter automl_config) full_X_train full_y_train
         (world s)) = Ok folds ->
  cv_loop pipeline automl_config full_X_train full_y_train folds 0 []
    pipeline
    (with_world
       (snd (split C (data_splitter automl_config) full_X_train full_y_train
               (world s))) s)
  = (Ok (entries, sp), s1) ->
  cv_data (scores r) = entries.
Proof.
  unfold train_and_score_pipeline_rest. cbv zeta. intros H Hsplit Hloop.
  split_bind H folds' s2 H1 H2; [|discriminate].
  unfold call in H1. rewrite Hsplit in H1. injection H1 as <- <-.
  clear H. rewrite (bind_Ok _ _ _ Hloop) in H2.
  split_bind H2 u s3 H1 H3; [|discriminate]. clear H1 H2.
  split_bind H3 hp s4 H1 H2; [|discriminate]. clear H1 H3.
  destruct hp as [[hs hd] sp'].
  split_bind H2 t s5 H1 H3; [|discriminate]. clear H1 H2.
  split_bind H3 c s6 H1 H2; [|discriminate]. clear H1 H3.
  split_bind H2 l s7 H1 H3; [|discriminate].
  unfold ret in H3. injection H3 as <- _. reflexivity.
Qed.

End RunFacts.

Section RunCompletes.
Variable C : Collab.
Variable pipeline : Pipeline C.
Variable automl_config : AutoMLConfig (Splitter C) (Callback C) (Schema C).
Variable full_X_train : DataFrame (Row C).
Variable full_y_train : Series.
Hypothesis WB : well_behaved C automl_config.
Hypothesis Hlen : length full_y_train = length full_X_train.

(** From the call of the splitter on: with well-behaved collaborators,
    folds in range and holding every target value, and at least one fold
    when a holdout set is given, the procedure returns; [cv_data] has one
    entry per fold in the order of the folds, [train_pipeline] was called
    once per fold and once more for the holdout pass, and the holdout
    fields hold what that pass returned. *)
Lemma rest_completes start X_holdout y_holdout s folds :
  fst (split C (data_splitter automl_config) full_X_train full_y_train
         (world s)) = Ok folds ->
  Forall (in_range (length full_X_train)) folds ->
  (checks_target_values C automl_config = true ->
   Forall (no_missing_target full_y_train) folds) ->
  (X_holdout = None \/ y_holdout = None \/ folds <> []) ->
  exists r s',
    train_and_score_pipeline_rest pipeline automl_config full_X_train
      full_y_train start X_holdout y_holdout s = (Ok r, s')
    /\ length (cv_data (scores r)) = length folds
    /\ (forall n fold,
          nth_error folds n = Some fold ->
          exists entry,
            nth_error (cv_data (scores r)) n = Some entry
            /\ dict_get String.eqb "# Training" (all_objective_scores entry)
               = Some (Count (length (fst fold)))
            /\ dict_get String.eqb "# Validation" (all_objective_scores entry)
               = Some (Count (length (snd fold))))
    /\ train_calls s'
       = train_calls s
         ++ map (fold_training C pipeline full_X_train full_y_train) folds
         ++ holdout_training C pipeline full_X_train full_y_train
              X_holdout y_holdout
    /\ match X_holdout, y_holdout with
       | Some X_h, Some y_h =>
           exists holdout_score' holdout_scores' s1 s2,
             holdout_score (scores r) = Some holdout_score'
             /\ holdout_scores (scores r) = Some holdout_scores'
             /\ _train_and_score pipeline automl_config
                  full_X_train X_h full_y_train y_h None s1
                = (Ok (holdout_score', holdout_scores', stored_pipeline_of r),
                   s2)
       | _, _ =>
           holdout_score (scores r) = None
           /\ holdout_scores (scores r) = None
       end.
Proof.
  intros Hsplit Hrange Hcheck Hholdout.
  unfold train_and_score_pipeline_rest. cbv zeta.
  unfold bind at 1. unfold call at 1.
  destruct (split C (data_splitter automl_config) full_X_train full_y_train
              (world s)) as [rf w1].
  cbn [fst snd] in Hsplit |- *. subst rf.
  destruct (@cv_loop_completes C pipeline automl_config full_X_train
              full_y_train folds WB Hlen Hrange Hcheck 0%nat [] pipeline
              (with_world w1 s))
    as (entries & sp & s1 & E & Hl & Hnth & Ht & Hi).
  cbn [app] in E. unfold bind at 1. rewrite E.
  unfold bind at 1. cbn [info].
  set (s2 := with_logger _ s1).
  assert (Ht2 : train_calls s2
                = train_calls s
                  ++ map (fold_training C pipeline full_X_train full_y_train)
                       folds) by exact Ht.
  assert (Hi2 : loop_i s2 = loop_i s1) by reflexivity.
  clearbody s2.
  destruct X_holdout as [X_h|]; [destruct y_holdout as [y_h|]|].
  - (* both holdout arguments *)
    destruct folds as [|fold rest];
      [destruct Hholdout as [?|[?|?]]; congruence|].
    unfold bind at 1. unfold bind at 1. cbn [info].
    unfold bind at 1. cbn [debug].
    unfold bind at 1.
    match goal with
    | |- context [_train_and_score _ _ _ _ _ _ _ ?st] =>
        destruct (@train_and_score_completes C pipeline automl_config WB
                    full_X_train X_h full_y_train y_h None
                    (0 + length (fold :: rest) - 1)%nat st)
          as (hs & hd & sp' & s3 & E3 & _ & Ht3);
        [cbn [loop_i with_logger]; rewrite Hi2; exact Hi|]
    end.
    rewrite E3.
    unfold bind at 1. cbn [info].
    cbn [ret]. unfold bind at 1. cbn [now].
    unfold bind at 1. cbn [get_cache].
    unfold bind at 1. cbn [get_logger]. cbn [ret].
    do 2 eexists. split; [reflexivity|]. cbn [scores cv_data].
    split; [exact Hl|]. split; [exact Hnth|]. split.
    + unfold train_calls in *. cbn [trace with_world with_logger] in *.
      rewrite Ht3, Ht2. unfold holdout_training. now rewrite <- app_assoc.
    + unfold stored_pipeline_of. cbn [holdout_score holdout_scores].
      do 4 eexists. split; [reflexivity|]. split; [reflexivity|].
      exact E3.
  - (* no holdout target *)
    unfold bind at 1. cbn [ret].
    unfold bind at 1. cbn [now].
    unfold bind at 1. cbn [get_cache].
    unfold bind at 1. cbn [get_logger]. cbn [ret].
    do 2 eexists. split; [reflexivity|]. cbn [scores cv_data].
    split; [exact Hl|]. split; [exact Hnth|]. split; [|split; reflexivity].
    unfold train_calls in *. cbn [trace with_world with_logger] in *.
    rewrite Ht2. unfold holdout_training. now rewrite app_nil_r.
  - (* no holdout features *)
    unfold bind at 1. cbn [ret].
    unfold bind at 1. cbn [now].
    unfold bind at 1. cbn [get_cache].
    unfold bind at 1. cbn [get_logger]. cbn [ret].
    do 2 eexists. split; [reflexivity|]. cbn [scores cv_data].
    split; [exact Hl|]. split; [exact Hnth|]. split; [|split; reflexivity].
    unfold train_calls in *. cbn [trace with_world with_logger] in *.
    rewrite Ht2. unfold holdout_training. now rewrite app_nil_r.
Qed.

End RunCompletes.

(* ------------------------------------------------------------------ *)
(** ** The example world is well behaved *)

Lemma example_well_behaved pt folds cb :
  well_behaved Example.toy (Example.config pt folds cb).
Proof.
  constructor.
  - intros p w e w' H. inversion H.
  - intros p X y w e w' H. inversion H.
  - intros p w e w' H. inversion H.
  - intros p X y w e w' H. cbn in H. unfold Example.toy_fit in H.
    destruct (Example.holds (-3) X); inversion H; subst.
    split; [reflexivity|exact I].
  - intros p o t X_tt y_tt X y w e w' H. cbn in H.
    unfold Example.toy_tune in H. destruct o; inversion H.
  - intros p X y X_train y_train w e w' H. cbn in H.
    unfold Example.toy_score in H.
    destruct (Example.holds (-1) X).
    { inversion H; subst. split; [reflexivity|exact I]. }
    destruct (Example.holds (-2) X); inversion H; subst.
    split; [reflexivity|].
    intros o [<-|[<-|[]]]; cbn; auto.
  - reflexivity.
Qed.

Ltac in_range_tac :=
  repeat first
    [ apply Forall_nil
    | apply Forall_cons
    | split
    | progress cbn; lia ].

(* ------------------------------------------------------------------ *)
(** ** The claims on the result of an evaluation *)

(** Let the data splitter yield the folds [folds], let the
    collaborators be well behaved (training and scoring raise only failures
    the fold boundary contains, the error callback does not raise), and let
    the folds address rows of the data and pass the check on target values.
    Then the loop over the folds completes, whatever fails inside a fold: it
    yields exactly one entry per fold, in the order of the folds (the n-th
    entry carries the sizes of the n-th fold's slices, and the n-th call of
    [train_pipeline] is on the n-th fold's training slice); every result
    [train_and_score_pipeline] returns has these entries as its [cv_data];
    and it does return a result, unless a holdout set is given and there is
    no fold at all. *)
Lemma cv_data_one_entry_per_fold :
  forall (C : Collab) (pipeline : Pipeline C)
         (automl_config : AutoMLConfig (Splitter C) (Callback C) (Schema C))
         (full_X_train : DataFrame (Row C)) (full_y_train : Series)
         (logger : JobLogger.t)
         (X_holdout : option (DataFrame (Row C))) (y_holdout : option Series)
         (w : World C) (folds : list (list nat * list nat)),
    well_behaved C automl_config ->
    fst (split C (data_splitter automl_config) full_X_train
           (prepared_target C automl_config full_y_train)
           (snd (time_time C w))) = Ok folds ->
    length full_y_train = length full_X_train ->
    Forall (in_range (length full_X_train)) folds ->
    (checks_target_values C automl_config = true ->
     Forall (no_missing_target (prepared_target C automl_config full_y_train))
            folds) ->
    let y := prepared_target C automl_config full_y_train in
    let s0 :=
      with_world
        (snd (split C (data_splitter automl_config) full_X_train y
                (snd (time_time C w))))
        (loop_start C pipeline logger w) in
    exists entries sp s1,
      cv_loop pipeline automl_config full_X_train y folds 0 [] pipeline s0
      = (Ok (entries, sp), s1)
      /\ length entries = length folds
      /\ (forall n fold,
            nth_error folds n = Some fold ->
            exists entry,
              nth_error entries n = Some entry
              /\ dict_get String.eqb "# Training" (all_objective_scores entry)
                 = Some (Count (length (fst fold)))
              /\ dict_get String.eqb "# Validation" (all_objective_scores entry)
                 = Some (Count (length (snd fold))))
      /\ train_calls s1 = map (fold_training C pipeline full_X_train y) folds
      /\ (forall r s,
            train_and_score_pipeline C pipeline automl_config full_X_train
              full_y_train logger X_holdout y_holdout w = (Ok r, s) ->
            cv_data (scores r) = entries)
      /\ (X_holdout = None \/ y_holdout = None \/ folds <> [] ->
          exists r s,
            train_and_score_pipeline C pipeline automl_config full_X_train
              full_y_train logger X_holdout y_holdout w = (Ok r, s)
            /\ cv_data (scores r) = entries).
Proof.
  intros C pipeline automl_config full_X_train full_y_train logger
         X_holdout y_holdout w folds WB Hsplit Hlen Hrange Hcheck y s0.
  assert (Hleny : length y = length full_X_train)
    by (unfold y; now rewrite prepared_length).
  destruct (@cv_loop_completes C pipeline automl_config full_X_train y
              folds WB Hleny Hrange Hcheck 0%nat [] pipeline s0)
    as (entries & sp & s1 & E & Hl & Hnth & Ht & _).
  cbn [app] in E.
  assert (Hdata : forall r s,
             train_and_score_pipeline C pipeline automl_config full_X_train
               full_y_train logger X_holdout y_holdout w = (Ok r, s) ->
             cv_data (scores r) = entries).
  { intros r s Hrun. rewrite run_unfold in Hrun.
    eapply rest_cv_data; [exact Hrun|exact Hsplit|exact E]. }
  exists entries, sp, s1. split; [exact E|]. split; [exact Hl|].
  split; [exact Hnth|]. split; [exact Ht|]. split; [exact Hdata|].
  intros Hholdout.
  destruct (@rest_completes C pipeline automl_config full_X_train y WB Hleny
              (fst (time_time C w)) X_holdout
              (prepared_holdout C automl_config X_holdout y_holdout)
              (loop_start C pipeline logger w) folds Hsplit Hrange Hcheck)
    as (r & s & Hrun & _).
  { destruct Hholdout as [H|[H|H]]; auto.
    right; left. subst. unfold prepared_holdout. now destruct (_ && _). }
  exists r, s. rewrite run_unfold. split; [exact Hrun|].
  apply (Hdata r s). now rewrite run_unfold.
Qed.

(** C1.  With well-behaved collaborators and folds that address rows of
    the data and pass the check on target values, the loop yields exactly
    one entry per fold, in the order of the folds, whatever fails inside a
    fold, and every result returned carries them as [cv_data]; a result is
    returned when there is at least one fold or no holdout set.  But when
    the splitter yields no fold and a holdout set is given, no result is
    returned: the holdout pass reads the loop variable [i], which the loop
    never bound, and [train_and_score_pipeline] raises NameError before it
    trains anything (the defect of C9). *)
Theorem C1_cv_data_has_one_entry_per_fold :
  (forall (C : Collab) (pipeline : Pipeline C)
         (automl_config : AutoMLConfig (Splitter C) (Callback C) (Schema C))
         (full_X_train : DataFrame (Row C)) (full_y_train : Series)
         (logger : JobLogger.t)
         (X_holdout : option (DataFrame (Row C))) (y_holdout : option Series)
         (w : World C) (folds : list (list nat * list nat)),
    well_behaved C automl_config ->
    fst (split C (data_splitter automl_config) full_X_train
           (prepared_target C automl_config full_y_train)
           (snd (time_time C w))) = Ok folds ->
    length full_y_train = length full_X_train ->
    Forall (in_range (length full_X_train)) folds ->
    (checks_target_values C automl_config = true ->
     Forall (no_missing_target (prepared_target C automl_config full_y_train))
            folds) ->
    let y := prepared_target C automl_config full_y_train in
    let s0 :=
      with_world
        (snd (split C (data_splitter automl_config) full_X_train y
                (snd (time_time C w))))
        (loop_start C pipeline logger w) in
    exists entries sp s1,
      cv_loop pipeline automl_config full_X_train y folds 0 [] pipeline s0
      = (Ok (entries, sp), s1)
      /\ length entries = length folds
      /\ (forall n fold,
            nth_error folds n = Some fold ->
            exists entry,
              nth_error entries n = Some entry
              /\ dict_get String.eqb "# Training" (all_objective_scores entry)
                 = Some (Count (length (fst fold)))
              /\ dict_get String.eqb "# Validation" (all_objective_scores entry)
                 = Some (Count (length (snd fold))))
      /\ train_calls s1 = map (fold_training C pipeline full_X_train y) folds
      /\ (forall r s,
            train_and_score_pipeline C pipeline automl_config full_X_train
              full_y_train logger X_holdout y_holdout w = (Ok r, s) ->
            cv_data (scores r) = entries)
      /\ (X_holdout = None \/ y_holdout = None \/ folds <> [] ->
          exists r s,
            train_and_score_pipeline C pipeline automl_config full_X_train
              full_y_train logger X_holdout y_holdout w = (Ok r, s)
            /\ cv_data (scores r) = entries))
  /\ (forall (C : Collab) (pipeline : Pipeline C)
             (automl_config : AutoMLConfig (Splitter C) (Callback C) (Schema C))
             (full_X_train : DataFrame (Row C)) (full_y_train : Series)
             (job_log : JobLogger.t)
             (X_holdout : DataFrame (Row C)) (y_holdout : Series)
             (w w1 : World C),
        split C (data_splitter automl_config) full_X_train
          (prepared_target C automl_config full_y_train)
          (snd (time_time C w)) = (Ok [], w1) ->
        exists s,
          train_and_score_pipeline C pipeline automl_config full_X_train
            full_y_train job_log (Some X_holdout) (Some y_holdout) w
          = (Raise (NameError "i"), s)
          /\ trace s = [])
  /\ (well_behaved Example.toy (Example.config REGRESSION [] (Some tt))
      /\ fst (train_and_score_pipeline Example.toy
                (Example.unfitted REGRESSION)
                (Example.config REGRESSION [] (Some tt))
                Example.X6_clean Example.y6 JobLogger.init
                (Some Example.X3_holdout) (Some Example.y3_holdout) 0%nat)
         = Raise (NameError "i")).
Proof.
  split; [exact cv_data_one_entry_per_fold|]. split.
  - intros C pipeline automl_config full_X_train full_y_train job_log
           X_holdout y_holdout w w1 Hsplit.
    rewrite run_unfold. unfold train_and_score_pipeline_rest.
    unfold bind at 1. unfold call at 1.
    change (world (loop_start C pipeline job_log w))
      with (snd (time_time C w)).
    rewrite Hsplit. cbn [fst snd cv_loop].
    unfold prepared_holdout.
    destruct (is_classification C (problem_type automl_config));
      eexists; (split; [reflexivity|reflexivity]).
  - split; [apply example_well_behaved|]. vm_compute. reflexivity.
Qed.

(** A run of C1: three folds over six rows, the second and third of which
    fail at scoring. *)
Lemma C1_witness :
  exists r s,
    train_and_score_pipeline Example.toy (Example.unfitted REGRESSION)
      (Example.config REGRESSION Example.folds3 (Some tt))
      Example.X6 Example.y6 JobLogger.init None None 0%nat = (Ok r, s)
    /\ length (cv_data (scores r)) = 3%nat.
Proof.
  destruct (proj1 C1_cv_data_has_one_entry_per_fold Example.toy
              (Example.unfitted REGRESSION)
              (Example.config REGRESSION Example.folds3 (Some tt))
              Example.X6 Example.y6 JobLogger.init None None 0%nat
              Example.folds3)
    as (entries & sp & s1 & _ & Hl & _ & _ & _ & Hrun).
  - apply example_well_behaved.
  - reflexivity.
  - reflexivity.
  - in_range_tac.
  - discriminate.
  - destruct Hrun as (r & s & E & Hd); [now left|].
    exists r, s. split; [exact E|]. rewrite Hd. exact Hl.
Defined.

(** The holdout pass.  With well-behaved collaborators, folds in range that
    pass the check on target values, and at least one fold when a holdout
    set is given: when both holdout arguments are given, the calls
    of [train_pipeline] are those of the folds followed by exactly one more,
    on the entire training set, and [holdout_score] and [holdout_scores] hold
    what that pass of [_train_and_score] returned, a pass that trains on the
    entire training set and scores on the holdout set; when a holdout
    argument is missing, the calls of [train_pipeline] are those of the folds
    and both fields are None.  (The targets are the prepared ones: re-encoded
    when the problem is a classification.) *)
Theorem holdout_pass_runs_once :
  forall (C : Collab) (pipeline : Pipeline C)
         (automl_config : AutoMLConfig (Splitter C) (Callback C) (Schema C))
         (full_X_train : DataFrame (Row C)) (full_y_train : Series)
         (logger : JobLogger.t)
         (X_holdout : option (DataFrame (Row C))) (y_holdout : option Series)
         (w : World C) (folds : list (list nat * list nat)),
    well_behaved C automl_config ->
    fst (split C (data_splitter automl_config) full_X_train
           (prepared_target C automl_config full_y_train)
           (snd (time_time C w))) = Ok folds ->
    length full_y_train = length full_X_train ->
    Forall (in_range (length full_X_train)) folds ->
    (checks_target_values C automl_config = true ->
     Forall (no_missing_target (prepared_target C automl_config full_y_train))
            folds) ->
    (X_holdout = None \/ y_holdout = None \/ folds <> []) ->
    let y := prepared_target C automl_config full_y_train in
    exists r s,
      train_and_score_pipeline C pipeline automl_config full_X_train
        full_y_train logger X_holdout y_holdout w = (Ok r, s)
      /\ match X_holdout, prepared_holdout C automl_config X_holdout y_holdout
         with
         | Some X_h, Some y_h =>
             train_calls s
             = map (fold_training C pipeline full_X_train y) folds
               ++ [TrainPipelineCall pipeline full_X_train y]
             /\ exists holdout_score' holdout_scores' s1 s2,
                 holdout_score (scores r) = Some holdout_score'
                 /\ holdout_scores (scores r) = Some holdout_scores'
                 /\ _train_and_score pipeline automl_config
                      full_X_train X_h y y_h None s1
                    = (Ok (holdout_score', holdout_scores',
                           stored_pipeline_of r), s2)
         | _, _ =>
             train_calls s
             = map (fold_training C pipeline full_X_train y) folds
             /\ holdout_score (scores r) = None
             /\ holdout_scores (scores r) = None
         end.
Proof.
  intros C pipeline automl_config full_X_train full_y_train logger
         X_holdout y_holdout w folds WB Hsplit Hlen Hrange Hcheck Hholdout y.
  rewrite run_unfold.
  destruct (@rest_completes C pipeline automl_config full_X_train y WB
              (eq_trans (prepared_length C automl_config full_y_train) Hlen)
              (fst (time_time C w)) X_holdout
              (prepared_holdout C automl_config X_holdout y_holdout)
              (loop_start C pipeline logger w) folds Hsplit Hrange Hcheck)
    as (r & s & E & _ & _ & Ht & Hh).
  { destruct Hholdout as [H|[H|H]]; auto.
    right; left. subst. unfold prepared_holdout. now destruct (_ && _). }
  exists r, s. split; [exact E|].
  cbn [train_calls loop_start enter trace with_logger with_world filter app]
    in Ht.
  unfold holdout_training in Ht.
  destruct X_holdout as [X_h|];
    [destruct (prepared_holdout C automl_config (Some X_h) y_holdout)
       as [y_h|]|].
  - split; [exact Ht|exact Hh].
  - rewrite app_nil_r in Ht. destruct Hh. auto.
  - rewrite app_nil_r in Ht. destruct Hh. auto.
Qed.

(** A run with a holdout set: one fold, then the holdout pass. *)
Lemma holdout_pass_runs_once_witness :
  exists r s,
    train_and_score_pipeline Example.toy (Example.unfitted REGRESSION)
      (Example.config REGRESSION [([0; 2], [1; 3])]%nat (Some tt))
      Example.X6 Example.y6 JobLogger.init
      (Some Example.X6) (Some Example.y6) 0%nat = (Ok r, s)
    /\ length (train_calls s) = 2%nat
    /\ holdout_score (scores r) = Some NaN.
Proof.
  destruct (@holdout_pass_runs_once Example.toy
              (Example.unfitted REGRESSION)
              (Example.config REGRESSION [([0; 2], [1; 3])]%nat (Some tt))
              Example.X6 Example.y6 JobLogger.init
              (Some Example.X6) (Some Example.y6) 0%nat
              [([0; 2], [1; 3])]%nat)
    as (r & s & E & Ht & _).
  - apply example_well_behaved.
  - reflexivity.
  - reflexivity.
  - in_range_tac.
  - discriminate.
  - right; right; discriminate.
  - exists r, s. split; [exact E|]. split.
    + rewrite Ht. reflexivity.
    + vm_compute in E. inversion E. reflexivity.
Defined.

(* ------------------------------------------------------------------ *)
(** ** The cross-validation mean *)

Lemma filter_all {A} (f : A -> bool) l :
  (forall x, In x l -> f x = true) -> filter f l = l.
Proof.
  induction l as [|a l IH]; intros H; cbn; [reflexivity|].
  rewrite (H a (or_introl eq_refl)), IH; [reflexivity|].
  intros x Hx. apply H. now right.
Qed.

Lemma filter_none {A} (f : A -> bool) l :
  (forall x, In x l -> f x = false) -> filter f l = [].
Proof.
  induction l as [|a l IH]; intros H; cbn; [reflexivity|].
  rewrite (H a (or_introl eq_refl)). apply IH.
  intros x Hx. apply H. now right.
Qed.

(** C2, as the code has it.  The returned [cv_score_mean] is the mean pandas
    takes of the per-fold primary scores, which skips NaN: the scores are
    summed with every NaN score taken as 0 (the sum is numpy's, in numpy's
    order of additions) and the sum is divided by the number of scores that
    are not NaN.  So it is the arithmetic mean of all per-fold scores when
    none is NaN, and it is NaN when every one is NaN (or there is no
    fold). *)
Theorem C2_cv_score_mean_skips_nan :
  forall (C : Collab) (pipeline : Pipeline C)
         (automl_config : AutoMLConfig (Splitter C) (Callback C) (Schema C))
         (full_X_train : DataFrame (Row C)) (full_y_train : Series)
         (logger : JobLogger.t)
         (X_holdout : option (DataFrame (Row C))) (y_holdout : option Series)
         (w : World C) (r : Result C) (s : St C),
    train_and_score_pipeline C pipeline automl_config full_X_train
      full_y_train logger X_holdout y_holdout w = (Ok r, s) ->
    let per_fold := map mean_cv_score (cv_data (scores r)) in
    let counted := filter (fun v => negb (PrimFloat.is_nan v)) per_fold in
    let filled :=
      map (fun v => if PrimFloat.is_nan v then 0%float else v) per_fold in
    cv_scores (scores r) = per_fold
    /\ cv_score_mean (scores r)
       = match counted with
         | [] => NaN
         | _ => (ndarray_sum C filled / float_of_nat (length counted))%float
         end
    /\ ((forall v, In v per_fold -> PrimFloat.is_nan v = false) ->
        per_fold <> [] ->
        cv_score_mean (scores r) = arithmetic_mean (ndarray_sum C) per_fold)
    /\ ((forall v, In v per_fold -> PrimFloat.is_nan v = true) ->
        cv_score_mean (scores r) = NaN).
Proof.
  intros C pipeline automl_config full_X_train full_y_train logger
         X_holdout y_holdout w r s E per_fold counted filled.
  rewrite run_unfold in E.
  destruct (rest_returns _ _ _ _ _ _ _ _ E) as [Hs Hm].
  fold per_fold in Hs, Hm.
  assert (Hmean : cv_score_mean (scores r)
                  = match counted with
                    | [] => NaN
                    | _ => (ndarray_sum C filled
                            / float_of_nat (length counted))%float
                    end).
  { rewrite Hm. unfold Series_mean. fold counted. fold filled.
    destruct counted; reflexivity. }
  repeat split; auto.
  - intros Hnone Hne. rewrite Hmean.
    assert (Hc : counted = per_fold).
    { apply filter_all. intros v Hv. now rewrite (Hnone v Hv). }
    assert (Hf : filled = per_fold).
    { unfold filled. rewrite <- (map_id per_fold) at 2.
      apply map_ext_in. intros v Hv. now rewrite (Hnone v Hv). }
    rewrite Hc, Hf. destruct per_fold; [congruence|reflexivity].
  - intros Hall. rewrite Hmean.
    assert (Hc : counted = []).
    { apply filter_none. intros v Hv. now rewrite (Hall v Hv). }
    now rewrite Hc.
Qed.

(** A run of C2: the three folds score 0.5, NaN and NaN; the mean is 0.5. *)
Lemma C2_witness :
  exists r s,
    train_and_score_pipeline Example.toy (Example.unfitted REGRESSION)
      (Example.config REGRESSION Example.folds3 (Some tt))
      Example.X6 Example.y6 JobLogger.init None None 0%nat = (Ok r, s)
    /\ cv_scores (scores r) = map mean_cv_score (cv_data (scores r))
    /\ cv_score_mean (scores r) = 0.5%float.
Proof.
  eexists. eexists. split; [vm_compute; reflexivity|].
  match goal with
  | |- context [cv_scores (scores ?r)] =>
      destruct (@C2_cv_score_mean_skips_nan Example.toy
                  (Example.unfitted REGRESSION)
                  (Example.config REGRESSION Example.folds3 (Some tt))
                  Example.X6 Example.y6 JobLogger.init None None 0%nat
                  r _ ltac:(vm_compute; reflexivity))
        as (Hs & Hm & _)
  end.
  split; [exact Hs|]. rewrite Hm. reflexivity.
Defined.

(** C2 as stated fails: in this run the second fold's primary score is NaN
    (its scoring failed) and the returned mean is 0.5, not NaN. *)
Lemma C2_counterexample :
  exists r s,
    train_and_score_pipeline Example.toy (Example.unfitted REGRESSION)
      (Example.config REGRESSION Example.folds3 (Some tt))
      Example.X6 Example.y6 JobLogger.init None None 0%nat = (Ok r, s)
    /\ (exists entry,
          nth_error (cv_data (scores r)) 1 = Some entry
          /\ PrimFloat.is_nan (mean_cv_score entry) = true)
    /\ PrimFloat.is_nan (cv_score_mean (scores r)) = false
    /\ cv_score_mean (scores r) = 0.5%float.
Proof.
  eexists. eexists. split; [vm_compute; reflexivity|].
  split; [eexists; split; reflexivity|].
  split; reflexivity.
Qed.

(** The loop over [before ++ rest] is the loop over [before], then the
    loop over [rest] from the fold number reached. *)
Section LoopPrefix.
Variable C : Collab.
Variable pipeline : Pipeline C.
Variable automl_config : AutoMLConfig (Splitter C) (Callback C) (Schema C).
Variable full_X_train : DataFrame (Row C).
Variable full_y_train : Series.

Lemma cv_loop_app before rest :
  forall i cv_data sp s,
    cv_loop pipeline automl_config full_X_train full_y_train
      (before ++ rest) i cv_data sp s
    = match cv_loop pipeline automl_config full_X_train full_y_train
              before i cv_data sp s with
      | (Ok (cv_data', sp'), s') =>
          cv_loop pipeline automl_config full_X_train full_y_train
            rest (i + length before) cv_data' sp' s'
      | (Raise e, s') => (Raise e, s')
      end.
Proof.
  induction before as [|fold before IH]; intros i cv_data sp s.
  - cbn. now rewrite Nat.add_0_r.
  - cbn [app]. rewrite !cv_loop_cons.
    destruct (cv_fold _ _ _ _ _ _ _ _) as [[[entry sp']|e] s']; [|reflexivity].
    rewrite IH. cbn [length]. now rewrite Nat.add_succ_r.
Qed.

End LoopPrefix.

(* ------------------------------------------------------------------ *)
(** ** A fold whose training or scoring fails *)

Lemma constant_scores_get (c : float) (os : list Objective) k :
  dict_get String.eqb k
    (dict_of_items String.eqb (map (fun n => (name n, c)) os))
  = if existsb (String.eqb k) (map name os) then Some c else None.
Proof.
  replace (map (fun n => (name n, c)) os)
    with (map (fun n => (n, c)) (map name os)) by (now rewrite map_map).
  destruct (existsb (String.eqb k) (map name os)) eqn:E.
  - apply dict_of_items_constant.
    now apply (existsb_eqb_In String.eqb String.eqb_eq).
  - apply dict_of_items_constant_absent. intros H.
    apply (existsb_eqb_In String.eqb String.eqb_eq) in H. congruence.
Qed.

Lemma report_failure_returns (C : Collab) (pipeline : Pipeline C)
  (automl_config : AutoMLConfig (Splitter C) (Callback C) (Schema C))
  (i : nat) (e : exn) (s : St C) :
  (forall callback,
      error_callback automl_config = Some callback ->
      fst (call_error_callback C callback e (format_tb C e)
             automl_config i pipeline (world s)) = Ok tt) ->
  report_failure pipeline automl_config i e s
  = (Ok tt,
     match error_callback automl_config with
     | Some callback =>
         with_world
           (snd (call_error_callback C callback e (format_tb C e)
                   automl_config i pipeline (world s)))
           (with_trace
              (trace s
               ++ [ErrorCallbackCall e (format_tb C e) automl_config i
                     pipeline]) s)
     | None => s
     end).
Proof.
  intros Hcb. unfold report_failure.
  destruct (error_callback automl_config) as [callback|]; [|reflexivity].
  specialize (Hcb callback eq_refl).
  unfold bind, emit, call. cbn [fst snd world with_trace].
  destruct (call_error_callback C callback e (format_tb C e) automl_config
              i pipeline (world s)) as [r w'].
  cbn in Hcb. subst r. reflexivity.
Qed.

(** C3.  Let the loop have run the folds [before], and take the next fold,
    whose number [i] is the number of folds before it: its slices exist and
    pass the check on target values, and its [try] block (training, then
    scoring) raises an exception [e] that derives from Exception and is not a
    PipelineScoreError.  If the configured error callback returns and no
    objective is named like one of the two count fields, the fold completes
    and the loop goes on with the folds after it; the entry of the fold has
    NaN as mean score and NaN under the name of the primary objective and of
    every additional objective; and the error callback, when one is
    configured, was called exactly once during the fold, with [e], its
    formatted traceback, the configuration, the fold number [i] and the
    pipeline: the call is the one event the fold adds to the record of
    callback calls, and the world the fold leaves is the world that call
    left.  When none is configured nothing is called. *)
Theorem C3_failed_fold_scores_nan :
  forall (C : Collab) (pipeline : Pipeline C)
         (automl_config : AutoMLConfig (Splitter C) (Callback C) (Schema C))
         (full_X_train : DataFrame (Row C)) (full_y_train : Series)
         (before : list (list nat * list nat)) (train valid : list nat)
         (entries : list Entry) (sp0 : Pipeline C) (s0 s : St C)
         (X_train X_valid : DataFrame (Row C)) (y_train y_valid : Series)
         (e : exn) (s1 : St C),
    cv_loop pipeline automl_config full_X_train full_y_train
      before 0 [] pipeline s0 = (Ok (entries, sp0), s) ->
    iloc full_X_train train = Ok X_train ->
    iloc full_X_train valid = Ok X_valid ->
    iloc full_y_train train = Ok y_train ->
    iloc full_y_train valid = Ok y_valid ->
    (checks_target_values C automl_config = true ->
     setdiff1d full_y_train y_train = []
     /\ setdiff1d full_y_train y_valid = []) ->
    let i := length before in
    _train_and_score_try pipeline automl_config ("Fold " +++ str_of_nat i)
      (objectives_to_score C automl_config)
      X_train X_valid y_train y_valid (fold_begins pipeline i s)
    = (Raise e, s1) ->
    isinstance_Exception e = true ->
    isinstance_PipelineScoreError e = false ->
    (forall callback,
        error_callback automl_config = Some callback ->
        fst (call_error_callback C callback e (format_tb C e)
               automl_config i pipeline (world s1)) = Ok tt) ->
    (forall o, In o (objectives_to_score C automl_config) ->
               name o <> "# Training" /\ name o <> "# Validation") ->
    exists entry sp s',
      cv_loop pipeline automl_config full_X_train full_y_train
        (before ++ [(train, valid)]) 0 [] pipeline s0
      = (Ok (entries ++ [entry], sp), s')
      /\ (forall rest,
            cv_loop pipeline automl_config full_X_train full_y_train
              (before ++ (train, valid) :: rest) 0 [] pipeline s0
            = cv_loop pipeline automl_config full_X_train full_y_train
                rest (S i) (entries ++ [entry]) sp s')
      /\ mean_cv_score entry = NaN
      /\ (forall o, In o (objectives_to_score C automl_config) ->
            dict_get String.eqb (name o) (all_objective_scores entry)
            = Some (Score NaN))
      /\ match error_callback automl_config with
         | Some callback =>
             callback_calls s'
             = callback_calls s
               ++ [ErrorCallbackCall e (format_tb C e) automl_config i
                     pipeline]
             /\ world s'
                = snd (call_error_callback C callback e (format_tb C e)
                         automl_config i pipeline (world s1))
         | None => callback_calls s' = callback_calls s /\ world s' = world s1
         end.
Proof.
  intros C pipeline automl_config full_X_train full_y_train before train valid
         entries sp0 s0 s X_train X_valid y_train y_valid e s1
         Hbefore HX1 HX2 Hy1 Hy2 Hcheck i Htry Hexc Hpse Hcb Hnames.
  set (s2 := match error_callback automl_config with
             | Some callback =>
                 with_world
                   (snd (call_error_callback C callback e (format_tb C e)
                           automl_config i pipeline (world s1)))
                   (with_trace
                      (trace s1
                       ++ [ErrorCallbackCall e (format_tb C e) automl_config
                             i pipeline]) s1)
             | None => s1
             end).
  set (nans := dict_of_items String.eqb
                 (map (fun n => (name n, NaN))
                      (additional_objectives automl_config))).
  assert (Hfold :
    cv_fold pipeline automl_config full_X_train full_y_train i train valid s
    = (Ok (evaluation_entry C automl_config NaN nans (fitted_pipeline s2)
             y_train y_valid, fitted_pipeline s2), s2)).
  { rewrite (@cv_fold_unfold C pipeline automl_config full_X_train
               full_y_train i train valid s _ _ _ _ HX1 HX2 Hy1 Hy2 Hcheck).
    rewrite train_and_score_unfold with (i := i) by reflexivity.
    change (with_fitted pipeline _) with (fold_begins pipeline i s).
    rewrite Htry, Hexc.
    unfold _train_and_score_except.
    rewrite (bind_Ok _ _ _ (report_failure_returns pipeline automl_config
                              i e s1 Hcb)).
    fold s2.
    assert (Hs : scores_after_failure C automl_config e = Ok (NaN, nans))
      by (destruct e; try reflexivity; discriminate).
    unfold of_res. rewrite Hs. reflexivity. }
  exists (evaluation_entry C automl_config NaN nans (fitted_pipeline s2)
            y_train y_valid), (fitted_pipeline s2), s2.
  split; [|split; [|split; [reflexivity|split]]].
  - rewrite cv_loop_app, Hbefore. cbn [Nat.add]. fold i.
    rewrite cv_loop_cons. cbn [fst snd]. rewrite Hfold. reflexivity.
  - intros rest. rewrite cv_loop_app, Hbefore. cbn [Nat.add]. fold i.
    rewrite cv_loop_cons. cbn [fst snd]. rewrite Hfold. reflexivity.
  - intros o Ho. destruct (Hnames o Ho) as [H1 H2].
    unfold nans.
    rewrite entry_get by (auto using dict_of_items_NoDup).
    rewrite constant_scores_get.
    destruct (existsb (String.eqb (name o))
                (map name (additional_objectives automl_config))) eqn:E;
      [reflexivity|].
    destruct Ho as [<-|Ho].
    + now rewrite String.eqb_refl.
    + apply (in_map name) in Ho.
      apply (existsb_eqb_In String.eqb String.eqb_eq) in Ho. congruence.
  - pose proof (keeps_elim
                  (@try_keeps_callbacks C pipeline automl_config _ _ _ _ _ _)
                  Htry) as Hkeep.
    change (callback_calls (fold_begins pipeline i s))
      with (callback_calls s) in Hkeep.
    subst s2. destruct (error_callback automl_config) as [callback|].
    + split; [|reflexivity].
      unfold callback_calls. cbn [trace with_world with_trace].
      rewrite filter_app. cbn [filter is_callback_call].
      fold (callback_calls s1). now rewrite Hkeep.
    + split; [exact Hkeep|reflexivity].
Qed.

(** A run of C3 in the second world, whose callback takes 100 ticks of the
    clock: the second fold fails in scoring, the callback is called once,
    with the fold number 1, and the clock shows it. *)
Lemma C3_witness :
  let X := [(10, 1); (11, 2); (12, 3); (13, 4); (14, -1)]%Z in
  let y := [5; 5; 7; 7; 5]%Z in
  let config := Harsh.config REGRESSION [] (Some false) false in
  let s0 :=
    enter Harsh.world 0%nat JobLogger.init (Example.unfitted REGRESSION) in
  exists entry sp (s' s s1 : St Harsh.world),
    @cv_loop Harsh.world (Example.unfitted REGRESSION) config X y
      [([0; 2], [1; 3])]%nat 0 [] (Example.unfitted REGRESSION) s0
    = (Ok ([evaluation_entry Harsh.world config
              0.5%float [("AUC", 0.5%float); ("F1", 0.5%float)]
              {| Example.kind := REGRESSION; Example.fitted := true;
                 Example.toy_threshold := None |}
              [5; 7]%Z [5; 7]%Z],
           {| Example.kind := REGRESSION; Example.fitted := true;
              Example.toy_threshold := None |}), s)
    /\ @_train_and_score_try Harsh.world (Example.unfitted REGRESSION) config
         ("Fold " +++ str_of_nat 1) (objectives_to_score Harsh.world config)
         [(10, 1); (11, 2); (12, 3); (13, 4)]%Z [(14, -1)]%Z
         [5; 5; 7; 7]%Z [5]%Z
         (@fold_begins Harsh.world (Example.unfitted REGRESSION) 1 s)
       = (Raise (Raised "ValueError" true), s1)
    /\ @cv_loop Harsh.world (Example.unfitted REGRESSION) config X y
         ([([0; 2], [1; 3])] ++ [([0; 1; 2; 3], [4])])%nat 0 []
         (Example.unfitted REGRESSION) s0
       = (Ok ([evaluation_entry Harsh.world config
                 0.5%float [("AUC", 0.5%float); ("F1", 0.5%float)]
                 {| Example.kind := REGRESSION; Example.fitted := true;
                    Example.toy_threshold := None |}
                 [5; 7]%Z [5; 7]%Z] ++ [entry], sp), s')
    /\ mean_cv_score entry = NaN
    /\ dict_get String.eqb "F1" (all_objective_scores entry)
       = Some (Score NaN)
    /\ map (fun c => match c with
                     | ErrorCallbackCall _ _ _ fold_num _ => Some fold_num
                     | _ => None
                     end) (callback_calls s') = [Some 1%nat]
    /\ world s' = (world s1 + 100)%nat.
Proof.
  intros X y config s0.
  edestruct (@C3_failed_fold_scores_nan Harsh.world
               (Example.unfitted REGRESSION) config X y
               [([0; 2], [1; 3])]%nat [0; 1; 2; 3]%nat [4]%nat)
    as (entry & sp & s' & E & _ & Hm & Ho & Hc).
  - vm_compute. reflexivity.
  - reflexivity.
  - reflexivity.
  - reflexivity.
  - reflexivity.
  - discriminate.
  - vm_compute. reflexivity.
  - reflexivity.
  - reflexivity.
  - intros callback H. injection H as <-. reflexivity.
  - intros o [<-|[<-|[]]]; split; discriminate.
  - eexists entry, sp, s', _, _.
    split; [vm_compute; reflexivity|].
    split; [vm_compute; reflexivity|].
    split; [exact E|]. split; [exact Hm|].
    split; [apply (Ho {| name := "F1" |}); cbn; auto|].
    cbn in Hc. destruct Hc as [Hc Hw]. rewrite Hc, Hw.
    split; reflexivity.
Defined.



(* ------------------------------------------------------------------ *)
(** ** Scoring and the pipeline a pass returns *)

Section ScoringFacts.
Variable C : Collab.
Variable pipeline : Pipeline C.
Variable automl_config : AutoMLConfig (Splitter C) (Callback C) (Schema C).

Lemma train_pipeline_keeps_scores p X y cfg schema get_hashes :
  keeps (@score_calls C) (train_pipeline p X y cfg schema get_hashes).
Proof. unfold train_pipeline. keeps_tac. Qed.

(** What a run of the [try] block did about scoring: either [pipeline.score]
    was not called, or it was called once, on the pipeline the block leaves in
    [fitted_pipeline], with the scoring slice, the objectives and the training
    slice; and when the block returns, the scores are those [pipeline.score]
    returned for that pipeline, and the score is the one under the name of
    the primary objective. *)
Lemma try_scoring prefix objs X_train X_score y_train y_score s r s1 :
  _train_and_score_try pipeline automl_config prefix objs
    X_train X_score y_train y_score s = (r, s1) ->
  (score_calls s1 = score_calls s
   \/ score_calls s1
      = score_calls s
        ++ [ScoreCall (fitted_pipeline s1) X_score y_score objs X_train y_train])
  /\ match r with
     | Ok (primary, all) =>
         getitem all (name (objective automl_config)) = Ok primary
         /\ exists w w',
             score C (fitted_pipeline s1) X_score y_score objs
               X_train y_train w = (Ok all, w')
     | Raise _ => True
     end.
Proof.
  unfold _train_and_score_try. intros H.
  split_bind H u0 s2 H1 H2; [|inversion H1].
  assert (K2 : score_calls s2 = score_calls s).
  { eapply (@keeps_elim _ _ _ (@score_calls C)); [|exact H1]. keeps_tac. }
  clear H H1.
  split_bind H2 fh s3 H1 H3.
  { assert (K3 : score_calls s3 = score_calls s).
    { rewrite (keeps_elim (train_pipeline_keeps_scores _ _ _ _ _ _) H1).
      exact K2. }
    clear H1 K2 H2. destruct fh as [fp h].
    split_bind H3 u1 s4 H1 H2; [|inversion H1].
    assert (K4 : score_calls s4 = score_calls s).
    { rewrite <- K3.
      eapply (@keeps_elim _ _ _ (@score_calls C)); [|exact H1]. keeps_tac. }
    assert (F4 : fitted_pipeline s4 = fp).
    { unfold set_fitted_pipeline in H1. injection H1 as _ Hs. now subst s4. }
    clear H1 H3 K3.
    split_bind H2 u2 s5 H1 H3; [|inversion H1].
    assert (K5 : score_calls s5 = score_calls s).
    { rewrite <- K4.
      eapply (@keeps_elim _ _ _ (@score_calls C)); [|exact H1]. keeps_tac. }
    assert (F5 : fitted_pipeline s5 = fp).
    { rewrite <- F4.
      eapply (@keeps_elim _ _ _ (@fitted_pipeline C)); [|exact H1]. keeps_tac. }
    clear H1 H2 K4 F4.
    split_bind H3 u3 s6 H1 H2.
    2:{ exfalso.
        destruct (optimize_thresholds automl_config
                  && is_binary C (problem_type automl_config));
          [destruct (threshold C fp)|]; inversion H1. }
    assert (K6 : score_calls s6 = score_calls s).
    { rewrite <- K5.
      eapply (@keeps_elim _ _ _ (@score_calls C)); [|exact H1]. keeps_tac. }
    assert (F6 : fitted_pipeline s6 = fp).
    { rewrite <- F5.
      eapply (@keeps_elim _ _ _ (@fitted_pipeline C)); [|exact H1]. keeps_tac. }
    clear H1 H3 K5 F5.
    split_bind H2 u4 s7 H1 H3; [|inversion H1].
    assert (K7 : score_calls s7 = score_calls s).
    { rewrite <- K6.
      eapply (@keeps_elim _ _ _ (@score_calls C)); [|exact H1]. keeps_tac. }
    assert (F7 : fitted_pipeline s7 = fp).
    { rewrite <- F6.
      eapply (@keeps_elim _ _ _ (@fitted_pipeline C)); [|exact H1]. keeps_tac. }
    clear H1 H2 K6 F6.
    split_bind H3 u5 s8 H1 H2; [|inversion H1].
    assert (K8 : score_calls s8
                 = score_calls s
                   ++ [ScoreCall fp X_score y_score objs X_train y_train]).
    { unfold emit in H1. injection H1 as _ Hs. subst s8.
      unfold score_calls in *. cbn. rewrite filter_app, K7. reflexivity. }
    assert (F8 : fitted_pipeline s8 = fp).
    { rewrite <- F7.
      eapply (@keeps_elim _ _ _ (@fitted_pipeline C)); [|exact H1]. keeps_tac. }
    clear H1 H3 K7 F7.
    assert (Ff : fitted_pipeline s1 = fp).
    { rewrite <- F8.
      eapply (@keeps_elim _ _ _ (@fitted_pipeline C)); [|exact H2]. keeps_tac. }
    split.
    { right. rewrite Ff, <- K8.
      eapply (@keeps_elim _ _ _ (@score_calls C)); [|exact H2]. keeps_tac. }
    destruct r as [[primary all]|e]; [|exact I].
    split_bind H2 all' s9 H1 H3; [|discriminate].
    assert (Hcall : exists w w',
               score C fp X_score y_score objs X_train y_train w
               = (Ok all', w')).
    { unfold call in H1.
      destruct (score C fp X_score y_score objs X_train y_train (world s8))
        as [rr ww] eqn:E.
      cbn in H1. injection H1 as Hrr _. subst rr. eauto. }
    clear H1 H2.
    split_bind H3 shown s10 H1 H2; [|discriminate]. clear H1 H3.
    split_bind H2 u6 s11 H1 H3; [|discriminate]. clear H1 H2.
    split_bind H3 primary' s12 H1 H2; [|discriminate].
    assert (Hget : getitem all' (name (objective automl_config)) = Ok primary').
    { unfold of_res in H1. now injection H1 as Hg _. }
    clear H1 H3.
    split_bind H2 u7 s13 H1 H3; [|discriminate].
    unfold ret in H3. injection H3 as Hp Ha _. subst primary' all'.
    rewrite Ff. split; [exact Hget|exact Hcall]. }
  subst r. split; [left|exact I].
  rewrite (keeps_elim (train_pipeline_keeps_scores _ _ _ _ _ _) H1).
  exact K2.
Qed.

Lemma report_failure_keeps_scores i e :
  keeps (@score_calls C) (report_failure pipeline automl_config i e).
Proof. unfold report_failure. keeps_tac. Qed.

Lemma report_failure_keeps_fitted i e :
  keeps (@fitted_pipeline C) (report_failure pipeline automl_config i e).
Proof. unfold report_failure. keeps_tac. Qed.

(** What a pass that returns did: it returns the pipeline it leaves in
    [fitted_pipeline]; if [pipeline.score] was called, it was called once, on
    that pipeline; and the scores returned are those of [pipeline.score] for
    that pipeline, or those the [except] block assigns for some exception. *)
Lemma train_and_score_returns X_train X_score y_train y_score fold_num i s
      primary all sp s' :
  loop_i s = Some i ->
  _train_and_score pipeline automl_config
    X_train X_score y_train y_score fold_num s = (Ok (primary, all, sp), s') ->
  (score_calls s' = score_calls s
   \/ score_calls s'
      = score_calls s
        ++ [ScoreCall sp X_score y_score
              (objectives_to_score C automl_config) X_train y_train])
  /\ ((exists w w',
         score C sp X_score y_score (objectives_to_score C automl_config)
           X_train y_train w = (Ok all, w'))
      \/ (exists e, scores_after_failure C automl_config e = Ok (primary, all))).
Proof.
  intros Hi H. rewrite (train_and_score_unfold _ _ _ _ _ _ _ _ Hi) in H.
  destruct (_train_and_score_try _ _ _ _ _ _ _ _ _)
    as [[[p a]|e] s1] eqn:E.
  - injection H as -> -> <- <-.
    destruct (try_scoring _ _ _ _ _ _ _ E) as [Hs [_ Hc]].
    split; [exact Hs|left; exact Hc].
  - destruct (isinstance_Exception e); [|discriminate].
    destruct (_train_and_score_except pipeline automl_config i e s1)
      as [[[p a]|e'] s2] eqn:E2; [|discriminate].
    injection H as -> -> <- <-.
    unfold _train_and_score_except in E2.
    split_bind E2 u s3 H1 H2; [|discriminate].
    unfold of_res in H2. injection H2 as Hs Hst. subst s3.
    destruct (try_scoring _ _ _ _ _ _ _ E) as [Hsc _].
    rewrite (keeps_elim (report_failure_keeps_scores i e) H1).
    rewrite (keeps_elim (report_failure_keeps_fitted i e) H1).
    split; [exact Hsc|right; eauto].
Qed.

End ScoringFacts.

(* ------------------------------------------------------------------ *)
(** ** The entry of a fold that returns *)

Lemma scores_by_name_keys scores os items :
  scores_by_name scores os = Ok items -> map fst items = map name os.
Proof.
  revert items. induction os as [|o os IH]; intros items; cbn.
  - intros H; injection H as <-. reflexivity.
  - destruct (getitem scores (name o)); [|discriminate].
    destruct (scores_by_name scores os); [|discriminate].
    intros H; injection H as <-. cbn. now rewrite (IH _ eq_refl).
Qed.

Section EntryFacts.
Variable C : Collab.
Variable pipeline : Pipeline C.
Variable automl_config : AutoMLConfig (Splitter C) (Callback C) (Schema C).
Variable full_X_train : DataFrame (Row C).
Variable full_y_train : Series.

Hypothesis distinct_names :
  NoDup (map name (objectives_to_score C automl_config)
         ++ ["# Training"; "# Validation"]).

Lemma additional_names_NoDup :
  NoDup (map name (additional_objectives automl_config)).
Proof.
  pose proof (NoDup_app_remove_r _ _ distinct_names) as H.
  cbn in H. now inversion H.
Qed.

(** The keys of the scores the [except] block assigns. *)
Lemma scores_after_failure_keys e primary all :
  scores_after_failure C automl_config e = Ok (primary, all) ->
  dict_keys all = map name (objectives_to_score C automl_config)
  \/ dict_keys all = map name (additional_objectives automl_config).
Proof.
  unfold scores_after_failure.
  assert (Hother :
            Ok (NaN,
                dict_of_items String.eqb
                  (map (fun n => (name n, NaN))
                       (additional_objectives automl_config)))
            = Ok (primary, all) ->
            dict_keys all = map name (additional_objectives automl_config)).
  { intros H. injection H as _ <-.
    unfold dict_of_items. rewrite (dict_keys_update String.eqb).
    rewrite map_map. cbn [fst dict_keys map].
    apply (add_keys_fresh String.eqb String.eqb_eq).
    exact additional_names_NoDup. }
  destruct e; try (intros H; right; exact (Hother H)).
  destruct (scores_by_name _ _) as [items|] eqn:E; [|discriminate].
  destruct (getitem _ _); [|discriminate].
  intros H. injection H as _ <-. left.
  unfold dict_of_items. rewrite (dict_keys_update String.eqb).
  rewrite (scores_by_name_keys _ _ E). cbn [dict_keys map].
  apply (add_keys_fresh String.eqb String.eqb_eq).
  exact (NoDup_app_remove_r _ _ distinct_names).
Qed.

(** The keys of a fold's entry, in order. *)
Lemma entry_keys primary all (sp : Pipeline C) y_train y_valid :
  dict_keys all = map name (objectives_to_score C automl_config)
  \/ dict_keys all = map name (additional_objectives automl_config) ->
  dict_keys
    (all_objective_scores
       (evaluation_entry C automl_config primary all sp y_train y_valid))
  = map name (objectives_to_score C automl_config)
    ++ ["# Training"; "# Validation"].
Proof.
  intros Hkeys. unfold evaluation_entry. cbn [all_objective_scores].
  rewrite !(dict_keys_update String.eqb). cbn [map fst dict_keys fold_left].
  rewrite map_map. cbn [fst].
  change (map (fun x : string * float => fst x) all) with (dict_keys all).
  assert (Hobj : fold_left (add_key String.eqb) (dict_keys all)
                   (add_key String.eqb [] (name (objective automl_config)))
                 = map name (objectives_to_score C automl_config)).
  { unfold add_key at 2. cbn [existsb app].
    pose proof (NoDup_app_remove_r _ _ distinct_names) as Hn.
    destruct Hkeys as [-> | ->]; cbn [objectives_to_score map fold_left] in *.
    - unfold add_key at 2. cbn [existsb]. rewrite String.eqb_refl. cbn [orb].
      now apply (add_keys_fresh String.eqb String.eqb_eq).
    - now apply (add_keys_fresh String.eqb String.eqb_eq). }
  rewrite Hobj.
  change (add_key String.eqb
            (add_key String.eqb
               (map name (objectives_to_score C automl_config)) "# Training")
            "# Validation")
    with (fold_left (add_key String.eqb) ["# Training"; "# Validation"]
            (map name (objectives_to_score C automl_config))).
  now apply (add_keys_fresh String.eqb String.eqb_eq).
Qed.

(** A fold that returns took its four slices and ran one pass on them. *)
Lemma cv_fold_returns i train valid s entry sp s' :
  cv_fold pipeline automl_config full_X_train full_y_train i train valid s
  = (Ok (entry, sp), s') ->
  exists X_train X_valid y_train y_valid primary all,
    iloc full_X_train train = Ok X_train
    /\ iloc full_X_train valid = Ok X_valid
    /\ iloc full_y_train train = Ok y_train
    /\ iloc full_y_train valid = Ok y_valid
    /\ _train_and_score pipeline automl_config
         X_train X_valid y_train y_valid (Some i)
         (with_logger
            (JobLogger.debug
               (tab +++ tab +++ "Training and scoring on fold "
                +++ str_of_nat i) (job_logger s))
            (with_i (Some i) s))
       = (Ok (primary, all, sp), s')
    /\ entry
       = evaluation_entry C automl_config primary all sp y_train y_valid.
Proof.
  unfold cv_fold. intros H.
  split_bind H u0 s1 H1 H2; [|discriminate].
  unfold bind_i in H1. injection H1 as _ <-. clear H.
  split_bind H2 u1 s2 H1 H3; [|discriminate].
  unfold debug in H1. injection H1 as _ <-. clear H2.
  split_bind H3 X_train s3 H1 H2; [|discriminate].
  unfold of_res in H1. injection H1 as HX1 <-. clear H3.
  split_bind H2 X_valid s4 H1 H3; [|discriminate].
  unfold of_res in H1. injection H1 as HX2 <-. clear H2.
  split_bind H3 y_train s5 H1 H2; [|discriminate].
  unfold of_res in H1. injection H1 as Hy1 <-. clear H3.
  split_bind H2 y_valid s6 H1 H3; [|discriminate].
  unfold of_res in H1. injection H1 as Hy2 <-. clear H2.
  split_bind H3 u2 s7 H1 H2; [|discriminate].
  assert (Hs7 : s7 = with_logger
                       (JobLogger.debug
                          (tab +++ tab +++ "Training and scoring on fold "
                           +++ str_of_nat i) (job_logger s))
                       (with_i (Some i) s)).
  { destruct (checks_target_values C automl_config).
    - destruct (diff_string C _ _); [|discriminate].
      unfold ret in H1. now injection H1 as _ <-.
    - unfold ret in H1. now injection H1 as _ <-. }
  subst s7. clear H1 H3.
  split_bind H2 res s8 H1 H3; [|discriminate].
  destruct res as [[primary all] sp'].
  unfold ret in H3. injection H3 as <- <- <-.
  exists X_train, X_valid, y_train, y_valid, primary, all.
  repeat split; auto.
Qed.

End EntryFacts.

(** Take a fold that returns an entry, in a configuration whose
    objectives have distinct names, none of them "# Training" or
    "# Validation", and with a pipeline whose [score] returns the scores of
    the objectives it was given, in their order.  Then the keys of the entry's
    [all_objective_scores] are, in order: the primary objective's name, the
    additional objectives' names, "# Training", "# Validation", the two counts
    being the sizes of the training and validation slices.  Its
    [binary_classification_threshold] is the threshold of the pipeline the
    fold returns when the problem is binary (None when that pipeline has no
    threshold), and None when the problem is not binary; and if the fold
    called [pipeline.score], it called it once and on that same pipeline. *)
Lemma entry_keys_and_threshold :
  forall (C : Collab) (pipeline : Pipeline C)
         (automl_config : AutoMLConfig (Splitter C) (Callback C) (Schema C))
         (full_X_train : DataFrame (Row C)) (full_y_train : Series)
         (i : nat) (train valid : list nat) (s : St C)
         (entry : Entry) (sp : Pipeline C) (s' : St C),
    cv_fold pipeline automl_config full_X_train full_y_train i train valid s
    = (Ok (entry, sp), s') ->
    (forall p X_score y_score X_train y_train w all w',
        score C p X_score y_score (objectives_to_score C automl_config)
          X_train y_train w = (Ok all, w') ->
        dict_keys all = map name (objectives_to_score C automl_config)) ->
    NoDup (map name (objectives_to_score C automl_config)
           ++ ["# Training"; "# Validation"]) ->
    dict_keys (all_objective_scores entry)
    = name (objective automl_config)
      :: map name (additional_objectives automl_config)
      ++ ["# Training"; "# Validation"]
    /\ dict_get String.eqb "# Training" (all_objective_scores entry)
       = Some (Count (length train))
    /\ dict_get String.eqb "# Validation" (all_objective_scores entry)
       = Some (Count (length valid))
    /\ binary_classification_threshold entry
       = (if is_binary C (problem_type automl_config)
          then threshold C sp
          else None)
    /\ (is_binary C (problem_type automl_config) = false ->
        binary_classification_threshold entry = None)
    /\ (score_calls s' = score_calls s
        \/ exists X_score y_score X_train y_train,
            score_calls s'
            = score_calls s
              ++ [ScoreCall sp X_score y_score
                    (objectives_to_score C automl_config) X_train y_train]).
Proof.
  intros C pipeline automl_config full_X_train full_y_train i train valid s
         entry sp s' Hfold Hscore Hnames.
  destruct (cv_fold_returns _ _ _ _ _ _ _ _ Hfold)
    as (X_train & X_valid & y_train & y_valid & primary & all
        & HX1 & HX2 & Hy1 & Hy2 & Hpass & ->).
  assert (Hi : loop_i
                 (with_logger
                    (JobLogger.debug
                       (tab +++ tab +++ "Training and scoring on fold "
                        +++ str_of_nat i) (job_logger s))
                    (with_i (Some i) s)) = Some i) by reflexivity.
  destruct (train_and_score_returns _ _ _ _ _ _ _ _ Hi Hpass)
    as [Hcalls Hall].
  assert (Hkeys :
            dict_keys all = map name (objectives_to_score C automl_config)
            \/ dict_keys all
               = map name (additional_objectives automl_config)).
  { destruct Hall as [(w & w' & Hw)|(e & He)].
    - left. eapply Hscore; eauto.
    - eapply scores_after_failure_keys; eauto. }
  split; [exact (entry_keys Hnames primary all sp y_train y_valid Hkeys)|].
  destruct (entry_counts C automl_config primary all sp y_train y_valid)
    as [Ht Hv].
  rewrite (iloc_length _ _ Hy1) in Ht. rewrite (iloc_length _ _ Hy2) in Hv.
  split; [exact Ht|]. split; [exact Hv|].
  split; [reflexivity|]. split.
  - intros Hb. cbn. now rewrite Hb.
  - destruct Hcalls as [H|H]; [left; exact H|right; eauto].
Qed.

Lemma example_score_keys pt folds cb :
  forall p X_score y_score X_train y_train w all w',
    score Example.toy p X_score y_score
      (objectives_to_score Example.toy (Example.config pt folds cb))
      X_train y_train w = (Ok all, w') ->
    dict_keys all
    = map name (objectives_to_score Example.toy (Example.config pt folds cb)).
Proof.
  intros p X_score y_score X_train y_train w all w' H.
  cbn in H. unfold Example.toy_score in H.
  destruct (Example.holds (-1) X_score); [discriminate|].
  destruct (Example.holds (-2) X_score); [discriminate|].
  injection H as <- _. reflexivity.
Qed.

(* ------------------------------------------------------------------ *)
(** ** A fold that lacks a target value *)

Lemma append_assoc (a b c : string) : (a +++ b) +++ c = a +++ b +++ c.
Proof. induction a as [|ch a IH]; cbn; [reflexivity|now rewrite IH]. Qed.

(** Let the check on target values apply (the problem type is BINARY or
    MULTICLASS), let the collaborators be well behaved, and let the splitter
    yield the folds [before ++ fold :: after], where the folds of [before]
    are in range and hold every target value, and [fold] is in range and one
    of its slices lacks a value of the target the loop works on (the
    re-encoded one).  Then [train_and_score_pipeline] raises [Exception] (it
    returns no result); the
    message is [diff_string] of the two sets of missing values, which names
    the values missing from the training slice after "Missing target values
    in the training set after data split: " and those missing from the
    validation slice after "Missing target values in the validation set after
    data split: "; and [train_pipeline] was called for the folds of [before]
    only: the fold was not trained, nor any fold after it. *)
Lemma missing_target_values_abort :
  forall (C : Collab) (pipeline : Pipeline C)
         (automl_config : AutoMLConfig (Splitter C) (Callback C) (Schema C))
         (full_X_train : DataFrame (Row C)) (full_y_train : Series)
         (logger : JobLogger.t)
         (X_holdout : option (DataFrame (Row C))) (y_holdout : option Series)
         (w : World C)
         (before : list (list nat * list nat)) (fold : list nat * list nat)
         (after : list (list nat * list nat)),
    handle_problem_types C (problem_type automl_config) = BINARY
    \/ handle_problem_types C (problem_type automl_config) = MULTICLASS ->
    well_behaved C automl_config ->
    fst (split C (data_splitter automl_config) full_X_train
           (prepared_target C automl_config full_y_train)
           (snd (time_time C w))) = Ok (before ++ fold :: after) ->
    length full_y_train = length full_X_train ->
    Forall (in_range (length full_X_train)) before ->
    Forall (no_missing_target (prepared_target C automl_config full_y_train))
           before ->
    in_range (length full_X_train) fold ->
    let y := prepared_target C automl_config full_y_train in
    let diff_train := setdiff1d y (rows_at y (fst fold)) in
    let diff_valid := setdiff1d y (rows_at y (snd fold)) in
    diff_train <> [] \/ diff_valid <> [] ->
    exists s,
      train_and_score_pipeline C pipeline automl_config full_X_train
        full_y_train logger X_holdout y_holdout w
      = (Raise (Exception (diff_string C diff_train diff_valid)), s)
      /\ train_calls s = map (fold_training C pipeline full_X_train y) before
      /\ (diff_train <> [] ->
          exists rest,
            diff_string C diff_train diff_valid
            = "Missing target values in the training set after data split: "
              +++ repr_set C diff_train +++ ". " +++ rest)
      /\ (diff_valid <> [] ->
          exists start,
            diff_string C diff_train diff_valid
            = start
              +++ "Missing target values in the validation set after data split: "
              +++ repr_set C diff_valid +++ ".").
Proof.
  intros C pipeline automl_config full_X_train full_y_train logger
         X_holdout y_holdout w before fold after
         Hpt WB Hsplit Hlen Hrange Hmiss Hfold y diff_train diff_valid Hdiff.
  assert (Hcheck : checks_target_values C automl_config = true).
  { unfold checks_target_values. cbn.
    destruct Hpt as [-> | ->]; reflexivity. }
  assert (Hleny : length y = length full_X_train)
    by (unfold y; now rewrite prepared_length).
  rewrite run_unfold. fold y.
  unfold train_and_score_pipeline_rest. cbv zeta.
  unfold bind at 1. unfold call at 1.
  destruct (split C (data_splitter automl_config) full_X_train y
              (world (loop_start C pipeline logger w))) as [rf w1] eqn:Es.
  assert (Hrf : rf = Ok (before ++ fold :: after)).
  { unfold y in Es. cbn [loop_start world with_logger with_world] in Es.
    rewrite Es in Hsplit. exact Hsplit. }
  subst rf. cbn [fst snd].
  unfold bind at 1. rewrite cv_loop_app.
  destruct (@cv_loop_completes C pipeline automl_config full_X_train y
              before WB Hleny Hrange (fun _ => Hmiss) 0%nat [] pipeline
              (with_world w1 (loop_start C pipeline logger w)))
    as (entries & sp & s1 & E & _ & _ & Ht & _).
  rewrite E. rewrite cv_loop_cons.
  destruct Hfold as [Hft Hfv].
  assert (Hft' : Forall (fun p => p < length y)%nat (fst fold))
    by now rewrite Hleny.
  assert (Hfv' : Forall (fun p => p < length y)%nat (snd fold))
    by now rewrite Hleny.
  rewrite (@cv_fold_missing C pipeline automl_config full_X_train y
             (0 + length before) (fst fold) (snd fold) s1 _ _ _ _
             (iloc_rows_at _ Hft) (iloc_rows_at _ Hfv)
             (iloc_rows_at _ Hft') (iloc_rows_at _ Hfv') Hcheck Hdiff).
  eexists. split; [reflexivity|]. split; [|split].
  - unfold train_calls in *. cbn [trace with_logger with_i] in *.
    rewrite Ht. reflexivity.
  - intros Hne. unfold diff_string. fold diff_train diff_valid.
    destruct diff_train; [congruence|].
    eexists. rewrite !append_assoc. reflexivity.
  - intros Hne. unfold diff_string. fold diff_train diff_valid.
    destruct diff_valid; [congruence|]. eexists. reflexivity.
Qed.

(** C6.  At the first fold one of whose slices lacks a value of the target
    the loop works on, [train_and_score_pipeline] raises [Exception] before
    the fold is trained, nothing catches it, and the message says from which
    slice values are missing.  But the target the loop works on is the
    re-encoded one, so the values the message names are codes, not the
    values of the target that are missing (the defect of C5): for the
    target [2; 2; 2; 1; 1; 0] and a training slice [1; 1; 0], which lacks
    the value 2, the message names 0, a value the slice holds. *)
Theorem C6_missing_target_values_abort :
  (forall (C : Collab) (pipeline : Pipeline C)
         (automl_config : AutoMLConfig (Splitter C) (Callback C) (Schema C))
         (full_X_train : DataFrame (Row C)) (full_y_train : Series)
         (logger : JobLogger.t)
         (X_holdout : option (DataFrame (Row C))) (y_holdout : option Series)
         (w : World C)
         (before : list (list nat * list nat)) (fold : list nat * list nat)
         (after : list (list nat * list nat)),
    handle_problem_types C (problem_type automl_config) = BINARY
    \/ handle_problem_types C (problem_type automl_config) = MULTICLASS ->
    well_behaved C automl_config ->
    fst (split C (data_splitter automl_config) full_X_train
           (prepared_target C automl_config full_y_train)
           (snd (time_time C w))) = Ok (before ++ fold :: after) ->
    length full_y_train = length full_X_train ->
    Forall (in_range (length full_X_train)) before ->
    Forall (no_missing_target (prepared_target C automl_config full_y_train))
           before ->
    in_range (length full_X_train) fold ->
    let y := prepared_target C automl_config full_y_train in
    let diff_train := setdiff1d y (rows_at y (fst fold)) in
    let diff_valid := setdiff1d y (rows_at y (snd fold)) in
    diff_train <> [] \/ diff_valid <> [] ->
    exists s,
      train_and_score_pipeline C pipeline automl_config full_X_train
        full_y_train logger X_holdout y_holdout w
      = (Raise (Exception (diff_string C diff_train diff_valid)), s)
      /\ train_calls s = map (fold_training C pipeline full_X_train y) before
      /\ (diff_train <> [] ->
          exists rest,
            diff_string C diff_train diff_valid
            = "Missing target values in the training set after data split: "
              +++ repr_set C diff_train +++ ". " +++ rest)
      /\ (diff_valid <> [] ->
          exists start,
            diff_string C diff_train diff_valid
            = start
              +++ "Missing target values in the validation set after data split: "
              +++ repr_set C diff_valid +++ "."))
  /\ (let y := [2; 2; 2; 1; 1; 0]%Z in
      let config := Example.config MULTICLASS [([3; 4; 5], [0; 3; 5])]%nat None in
      (exists s,
          train_and_score_pipeline Example.toy (Example.unfitted MULTICLASS)
            config Example.X6_clean y JobLogger.init None None 0%nat
          = (Raise
               (Exception
                  "Missing target values in the training set after data split: {0}. "),
             s)
          /\ train_calls s = [])
      /\ rows_at y [3; 4; 5]%nat = [1; 1; 0]%Z
      /\ setdiff1d y (rows_at y [3; 4; 5]%nat) = [2]%Z
      /\ (forall listed_before,
            _encode_classification_target listed_before y
            = [0; 0; 0; 1; 1; 2]%Z)).
Proof.
  split; [exact missing_target_values_abort|].
  cbv zeta. split; [|split; [reflexivity|split; [reflexivity|]]].
  - eexists. split; [vm_compute; reflexivity|reflexivity].
  - intros listed_before. reflexivity.
Qed.

(** A run of C6: a binary problem whose second fold has a training slice
    without the second class and a validation slice without the first. *)
Lemma C6_witness :
  exists s,
    train_and_score_pipeline Example.toy (Example.unfitted BINARY)
      (Example.config BINARY
         [([0; 2], [1; 3]); ([0; 1; 4], [2; 3])]%nat (Some tt))
      Example.X6_clean Example.y6 JobLogger.init None None 0%nat
    = (Raise
         (Exception
            ("Missing target values in the training set after data split: {1}. "
             +++ "Missing target values in the validation set after data split: {0}.")),
       s)
    /\ length (train_calls s) = 1%nat.
Proof.
  destruct (proj1 C6_missing_target_values_abort Example.toy
              (Example.unfitted BINARY)
              (Example.config BINARY
                 [([0; 2], [1; 3]); ([0; 1; 4], [2; 3])]%nat (Some tt))
              Example.X6_clean Example.y6 JobLogger.init None None 0%nat
              [([0; 2], [1; 3])]%nat ([0; 1; 4], [2; 3])%nat [])
    as (s & E & Ht & _).
  - now left.
  - apply example_well_behaved.
  - reflexivity.
  - reflexivity.
  - in_range_tac.
  - constructor; [split; reflexivity|constructor].
  - in_range_tac.
  - left. vm_compute. discriminate.
  - exists s. split; [exact E|]. rewrite Ht. reflexivity.
Defined.

(* ------------------------------------------------------------------ *)
(** ** The re-encoded target *)

(** C5, on the code.  A binary problem with the labels 5 (four rows) and 7
    (two rows), one fold, and a holdout set in which 7 is the more frequent
    label.  The run completes, and what reached the pipeline is the
    re-encoded target, not the original labels: the fold's [train_pipeline]
    got the training target [0; 1; 0] (the labels were [5; 7; 5]) and its
    [score] the validation target [0; 1; 0]; the holdout pass trained on
    [0; 0; 1; 1; 0; 0] (5 as 0, 7 as 1) and scored on the holdout target
    [0; 0; 1], encoded by the holdout set's own counts (7 as 0, 5 as 1).
    With a second fold that lacks a class in each slice, the message of the
    exception names the codes 1 and 0, which are no labels of the target. *)
Theorem C5_pipeline_sees_encoded_targets :
  (exists r s,
      train_and_score_pipeline Example.toy (Example.unfitted BINARY)
        (Example.config BINARY [([0; 2; 4], [1; 3; 5])]%nat (Some tt))
        Example.X6_clean Example.y6 JobLogger.init
        (Some Example.X3_holdout) (Some Example.y3_holdout) 0%nat = (Ok r, s)
      /\ rows_at Example.y6 [0; 2; 4]%nat = [5; 7; 5]%Z
      /\ map (fun e => match e with
                       | TrainPipelineCall _ _ y => y
                       | _ => []
                       end) (train_calls s)
         = [[0; 1; 0]; [0; 0; 1; 1; 0; 0]]%Z
      /\ map (fun e => match e with
                       | ScoreCall _ _ y _ _ _ => y
                       | _ => []
                       end) (score_calls s)
         = [[0; 1; 0]; [0; 0; 1]]%Z)
  /\ (exists s,
        train_and_score_pipeline Example.toy (Example.unfitted BINARY)
          (Example.config BINARY
             [([0; 2], [1; 3]); ([0; 1; 4], [2; 3])]%nat (Some tt))
          Example.X6_clean Example.y6 JobLogger.init None None 0%nat
        = (Raise
             (Exception
                ("Missing target values in the training set after data split: {1}. "
                 +++ "Missing target values in the validation set after data split: {0}.")),
           s)
        /\ existsb (Z.eqb 1) Example.y6 = false
        /\ existsb (Z.eqb 0) Example.y6 = false).
Proof.
  split.
  - eexists. eexists. split; [vm_compute; reflexivity|]. repeat split.
  - eexists. split; [vm_compute; reflexivity|]. split; reflexivity.
Qed.

(* ------------------------------------------------------------------ *)
(** ** The fold number of the holdout pass *)

(** C9, on the code.  [_train_and_score] never reads its [fold_num] argument;
    it reads the loop variable [i] of the enclosing function.  So a pass started while [i] is
    unbound raises NameError whatever [fold_num] is; a run whose splitter
    yields no fold and that is given a holdout set raises NameError instead of
    returning; and in a run with three folds a failure of the holdout pass
    (called with [fold_num=None]) is reported to the error callback with the
    fold number 2, the number of the last fold. *)
Theorem C9_holdout_pass_reads_loop_variable :
  (forall (C : Collab) (pipeline : Pipeline C)
          (automl_config : AutoMLConfig (Splitter C) (Callback C) (Schema C))
          (X_train X_score : DataFrame (Row C)) (y_train y_score : Series)
          (fold_num : option nat) (s : St C),
      loop_i s = None ->
      _train_and_score pipeline automl_config
        X_train X_score y_train y_score fold_num s
      = (Raise (NameError "i"), with_fitted pipeline s))
  /\ fst (train_and_score_pipeline Example.toy (Example.unfitted REGRESSION)
            (Example.config REGRESSION [] (Some tt))
            Example.X6_clean Example.y6 JobLogger.init
            (Some Example.X3_holdout) (Some Example.y3_holdout) 0%nat)
     = Raise (NameError "i")
  /\ (exists r s,
        train_and_score_pipeline Example.toy (Example.unfitted REGRESSION)
          (Example.config REGRESSION Example.folds3 (Some tt))
          Example.X6 Example.y6 JobLogger.init
          (Some Example.X6) (Some Example.y6) 0%nat = (Ok r, s)
        /\ last (map (fun e => match e with
                               | ErrorCallbackCall _ _ _ fold_num _ =>
                                   Some fold_num
                               | _ => None
                               end) (callback_calls s)) None
           = Some 2%nat
        /\ length (train_calls s) = 4%nat).
Proof.
  split; [|split].
  - intros. now apply train_and_score_unbound.
  - vm_compute. reflexivity.
  - eexists. eexists. split; [vm_compute; reflexivity|]. split; reflexivity.
Qed.

(* ================================================================== *)
(** * Further properties of the module *)

(* ------------------------------------------------------------------ *)
(** ** JobLogger: levels outside the table, and chained flushes *)

Lemma replay_app {T} (table : dict string (string -> T -> T))
  (l1 l2 : list (string * string)) (target : T) :
  JobLogger.replay table (l1 ++ l2) target
  = match JobLogger.replay table l1 target with
    | (Ok _, t1) => JobLogger.replay table l2 t1
    | (Raise e, t1) => (Raise e, t1)
    end.
Proof.
  revert target. induction l1 as [|[level message] l1 IH]; intros target.
  - reflexivity.
  - cbn. destruct (dict_get String.eqb level table); [apply IH|reflexivity].
Qed.

(** [self.logs] is an ordinary attribute, so a buffer can hold an entry whose
    level is none of the four.  On such a buffer [write_to_logger] raises
    KeyError for that level when it reaches the entry: the entries before it
    (here stored by logging calls) were delivered, the entry and those after
    it are not, and the buffer is as it was. *)
Theorem write_to_logger_unknown_level :
  forall (calls : list (log_call * string)) (level msg : string)
         (rest : list (string * string))
         (T : Type) (L : LoggerLike T) (target : T),
    level <> "info" -> level <> "debug" ->
    level <> "warning" -> level <> "error" ->
    let self :=
      JobLogger.mk (JobLogger.logs (invoke_all calls JobLogger.init)
                    ++ (level, msg) :: rest) in
    JobLogger.write_to_logger self target
    = (Raise (KeyError level),
       (self,
        invoke_all (map (fun c => (flushed_as (fst c), snd c)) calls) target)).
Proof.
  intros calls level msg rest T L target H1 H2 H3 H4 self.
  unfold JobLogger.write_to_logger, self. cbn [JobLogger.logs].
  rewrite replay_app, logs_invoke_all. cbn [JobLogger.logs JobLogger.init app].
  rewrite replay_buffered. cbn [JobLogger.replay].
  apply String.eqb_neq in H1, H2, H3, H4.
  cbn [dict_get JobLogger.logger_method]. rewrite H1, H2, H3, H4.
  reflexivity.
Qed.

Lemma write_to_logger_unknown_level_witness :
  JobLogger.write_to_logger
    (JobLogger.mk [("info", "a"); ("critical", "b"); ("debug", "c")])
    ([] : Recorder)
  = (Raise (KeyError "critical"),
     (JobLogger.mk [("info", "a"); ("critical", "b"); ("debug", "c")],
      [(CallInfo, "a")])).
Proof.
  refine (@write_to_logger_unknown_level [(CallInfo, "a")] "critical" "b"
            [("debug", "c")] Recorder _ [] _ _ _ _); discriminate.
Defined.

Lemma flushed_twice (calls : list (log_call * string)) :
  map (fun c => (flushed_as (fst c), snd c))
      (map (fun c => (flushed_as (fst c), snd c)) calls)
  = map (fun c => (flushed_as (fst c), snd c)) calls.
Proof.
  rewrite map_map. apply map_ext. intros [c m]. now destruct c.
Qed.

(** A JobLogger is itself a possible target.  Flushing a JobLogger into a
    new one (as [setup_job_log] makes) and flushing that one into a target
    hands the target the same calls, in the same order, as flushing the first
    one directly; and the intermediate buffer holds no entry at the error
    level: what was buffered as an error is a warning from the first flush
    on. *)
Theorem write_to_logger_through_job_logger :
  forall (calls : list (log_call * string))
         (T : Type) (L : LoggerLike T) (target : T),
    let first := invoke_all calls JobLogger.init in
    let relay := snd (snd (JobLogger.write_to_logger first setup_job_log)) in
    fst (JobLogger.write_to_logger first setup_job_log) = Ok tt
    /\ JobLogger.write_to_logger relay target
       = (Ok tt, (relay, snd (snd (JobLogger.write_to_logger first target))))
    /\ length (JobLogger.logs relay) = length (JobLogger.logs first)
    /\ (forall level msg,
          In (level, msg) (JobLogger.logs relay) -> level <> "error").
Proof.
  intros calls T L target first relay.
  assert (Hrelay : relay
                   = invoke_all
                       (map (fun c => (flushed_as (fst c), snd c)) calls)
                       JobLogger.init).
  { unfold relay, first, setup_job_log. now rewrite write_after_calls. }
  split; [unfold first; now rewrite write_after_calls|].
  split; [|split].
  - rewrite Hrelay. unfold first. rewrite !write_after_calls.
    cbn [fst snd]. now rewrite flushed_twice.
  - rewrite Hrelay. unfold first. rewrite !logs_invoke_all.
    cbn [JobLogger.logs JobLogger.init app]. now rewrite !length_map.
  - intros level msg. rewrite Hrelay, logs_invoke_all.
    cbn [JobLogger.logs JobLogger.init app]. rewrite map_map.
    intros Hin. apply in_map_iff in Hin as ([c m] & E & _).
    cbn in E. injection E as <- _. destruct c; discriminate.
Qed.

(* ------------------------------------------------------------------ *)
(** ** Failures the fold boundary does not contain *)

Lemma iloc_out_of_range {A} (l : list A) positions p :
  In p positions -> (length l <= p)%nat -> iloc l positions = Raise IndexError.
Proof.
  induction positions as [|q ps IH]; [intros []|].
  intros [->|Hin] Hp; cbn.
  - apply nth_error_None in Hp. now rewrite Hp.
  - destruct (nth_error l q); [|reflexivity]. now rewrite (IH Hin Hp).
Qed.

Lemma iloc_cases {A} (l : list A) positions :
  (exists r, iloc l positions = Ok r) \/ iloc l positions = Raise IndexError.
Proof.
  induction positions as [|q ps IH]; cbn; [left; eauto|].
  destruct (nth_error l q); [|now right].
  destruct IH as [[r ->]| ->]; [left; eauto|now right].
Qed.

(** Bounds.  A fold that names a position past the last row is not trained:
    the slicing raises IndexError, outside any [try], so the loop stops there
    with nothing recorded in the trace but the fold's log line. *)
Theorem fold_out_of_range_raises_index_error :
  forall (C : Collab) (pipeline : Pipeline C)
         (automl_config : AutoMLConfig (Splitter C) (Callback C) (Schema C))
         (full_X_train : DataFrame (Row C)) (full_y_train : Series)
         (i : nat) (train valid : list nat)
         (rest : list (list nat * list nat)) (cv_data : list Entry)
         (sp : Pipeline C) (s : St C) (p : nat),
    In p (train ++ valid) ->
    (length full_X_train <= p)%nat ->
    exists s',
      cv_loop pipeline automl_config full_X_train full_y_train
        ((train, valid) :: rest) i cv_data sp s = (Raise IndexError, s')
      /\ trace s' = trace s
      /\ pipeline_cache s' = pipeline_cache s
      /\ loop_i s' = Some i.
Proof.
  intros C pipeline automl_config full_X_train full_y_train i train valid
         rest cv_data sp s p Hin Hp.
  rewrite cv_loop_cons. cbn [fst snd]. unfold cv_fold.
  unfold bind at 1. cbn [bind_i].
  unfold bind at 1. cbn [debug].
  unfold bind at 1. unfold of_res at 1.
  destruct (iloc_cases full_X_train train) as [[X_train E1]|E1]; rewrite E1.
  2:{ eexists. split; [reflexivity|]. repeat split. }
  unfold bind at 1. unfold of_res at 1.
  assert (E2 : iloc full_X_train valid = Raise IndexError).
  { apply in_app_or in Hin as [Hin|Hin].
    - rewrite (iloc_out_of_range _ _ Hin Hp) in E1. discriminate.
    - exact (iloc_out_of_range _ _ Hin Hp). }
  rewrite E2. eexists. split; [reflexivity|]. repeat split.
Qed.

Lemma fold_out_of_range_witness :
  exists s',
    @cv_loop Example.toy (Example.unfitted REGRESSION)
      (Example.config REGRESSION [] None) Example.X6 Example.y6
      [([0; 1], [6]); ([2; 3], [4])]%nat 0 [] (Example.unfitted REGRESSION)
      (enter Example.toy 0%nat JobLogger.init (Example.unfitted REGRESSION))
    = (Raise IndexError, s')
    /\ trace s' = [].
Proof.
  destruct (@fold_out_of_range_raises_index_error Example.toy
              (Example.unfitted REGRESSION)
              (Example.config REGRESSION [] None) Example.X6 Example.y6
              0%nat [0; 1]%nat [6]%nat [([2; 3], [4])]%nat []
              (Example.unfitted REGRESSION)
              (enter Example.toy 0%nat JobLogger.init
                 (Example.unfitted REGRESSION)) 6%nat)
    as (s' & E & Ht & _).
  - cbn. tauto.
  - cbn. lia.
  - exists s'. split; [exact E|exact Ht].
Defined.

(** [except Exception] lets through what does not derive from Exception.
    When the [try] block of a fold raises such an exception (a
    KeyboardInterrupt, say), the fold raises it: the error callback is not
    called, no entry is made, and the loop runs no later fold. *)
Theorem uncontained_exception_ends_the_loop :
  forall (C : Collab) (pipeline : Pipeline C)
         (automl_config : AutoMLConfig (Splitter C) (Callback C) (Schema C))
         (full_X_train : DataFrame (Row C)) (full_y_train : Series)
         (i : nat) (train valid : list nat)
         (rest : list (list nat * list nat)) (cv_data : list Entry)
         (sp : Pipeline C) (s : St C)
         (X_train X_valid : DataFrame (Row C)) (y_train y_valid : Series)
         (e : exn) (s1 : St C),
    iloc full_X_train train = Ok X_train ->
    iloc full_X_train valid = Ok X_valid ->
    iloc full_y_train train = Ok y_train ->
    iloc full_y_train valid = Ok y_valid ->
    (checks_target_values C automl_config = true ->
     setdiff1d full_y_train y_train = []
     /\ setdiff1d full_y_train y_valid = []) ->
    _train_and_score_try pipeline automl_config ("Fold " +++ str_of_nat i)
      (objectives_to_score C automl_config)
      X_train X_valid y_train y_valid (fold_begins pipeline i s)
    = (Raise e, s1) ->
    isinstance_Exception e = false ->
    cv_loop pipeline automl_config full_X_train full_y_train
      ((train, valid) :: rest) i cv_data sp s = (Raise e, s1)
    /\ callback_calls s1 = callback_calls s
    /\ train_calls s1
       = train_calls s ++ [TrainPipelineCall pipeline X_train y_train].
Proof.
  intros C pipeline automl_config full_X_train full_y_train i train valid
         rest cv_data sp s X_train X_valid y_train y_valid e s1
         HX1 HX2 Hy1 Hy2 Hcheck Htry Hexc.
  rewrite cv_loop_cons. cbn [fst snd].
  rewrite (@cv_fold_unfold C pipeline automl_config full_X_train full_y_train
             i train valid s _ _ _ _ HX1 HX2 Hy1 Hy2 Hcheck).
  rewrite train_and_score_unfold with (i := i) by reflexivity.
  change (with_fitted pipeline _) with (fold_begins pipeline i s).
  rewrite Htry, Hexc. split; [reflexivity|]. split.
  - now rewrite (keeps_elim
                   (@try_keeps_callbacks C pipeline automl_config _ _ _ _ _ _)
                   Htry).
  - now rewrite (grows_elim
                   (@try_grows_train C pipeline automl_config _ _ _ _ _ _)
                   Htry).
Qed.

Lemma uncontained_exception_witness :
  exists s1,
    @cv_loop Harsh.world (Example.unfitted REGRESSION)
      (Harsh.config REGRESSION [] (Some false) false) Harsh.X6 Example.y6
      [([0; 4], [1]); ([2], [3])]%nat 0 [] (Example.unfitted REGRESSION)
      (enter Harsh.world 0%nat JobLogger.init (Example.unfitted REGRESSION))
    = (Raise (Raised "KeyboardInterrupt" false), s1)
    /\ callback_calls s1 = [].
Proof.
  eexists.
  edestruct (@uncontained_exception_ends_the_loop Harsh.world
               (Example.unfitted REGRESSION)
               (Harsh.config REGRESSION [] (Some false) false)
               Harsh.X6 Example.y6 0%nat [0; 4]%nat [1]%nat
               [([2], [3])]%nat [] (Example.unfitted REGRESSION)
               (enter Harsh.world 0%nat JobLogger.init
                  (Example.unfitted REGRESSION)))
    as (E & Hc & _).
  - reflexivity.
  - reflexivity.
  - reflexivity.
  - reflexivity.
  - discriminate.
  - vm_compute. reflexivity.
  - reflexivity.
  - split; [exact E|exact Hc].
Defined.

(** The error callback runs inside the [except] block, where nothing
    catches what it raises.  When training or scoring fails with [e] and the
    configured callback raises [e'], the pass ends with [e'] (whether or not
    [e'] derives from Exception): no scores are returned, and the callback
    has been called once, with [e] and the loop variable. *)
Theorem raising_error_callback_is_fatal :
  forall (C : Collab) (pipeline : Pipeline C)
         (automl_config : AutoMLConfig (Splitter C) (Callback C) (Schema C))
         (X_train X_score : DataFrame (Row C)) (y_train y_score : Series)
         (fold_num : option nat) (i : nat) (s s1 : St C) (e e' : exn)
         (callback : Callback C) (w' : World C),
    loop_i s = Some i ->
    _train_and_score_try pipeline automl_config ("Fold " +++ str_of_nat i)
      (objectives_to_score C automl_config)
      X_train X_score y_train y_score (with_fitted pipeline s)
    = (Raise e, s1) ->
    isinstance_Exception e = true ->
    error_callback automl_config = Some callback ->
    call_error_callback C callback e (format_tb C e) automl_config i pipeline
      (world s1) = (Raise e', w') ->
    exists s',
      _train_and_score pipeline automl_config
        X_train X_score y_train y_score fold_num s = (Raise e', s')
      /\ world s' = w'
      /\ callback_calls s'
         = callback_calls s
           ++ [ErrorCallbackCall e (format_tb C e) automl_config i pipeline].
Proof.
  intros C pipeline automl_config X_train X_score y_train y_score fold_num i
         s s1 e e' callback w' Hi Htry Hexc Hcb Hcall.
  rewrite train_and_score_unfold with (i := i) by exact Hi.
  rewrite Htry, Hexc.
  unfold _train_and_score_except, report_failure. rewrite Hcb.
  unfold bind, emit, call. cbn [fst snd world with_trace].
  rewrite Hcall. cbn [fst snd].
  eexists. split; [reflexivity|]. split; [reflexivity|].
  unfold callback_calls. cbn [trace with_world with_trace].
  rewrite filter_app. cbn [filter is_callback_call].
  fold (callback_calls s1). f_equal.
  exact (keeps_elim
           (@try_keeps_callbacks C pipeline automl_config _ _ _ _ _ _) Htry).
Qed.

Lemma raising_error_callback_witness :
  exists s',
    @_train_and_score Harsh.world (Example.unfitted REGRESSION)
      (Harsh.config REGRESSION [] (Some true) false)
      [(10, 1)]%Z [(14, -1)]%Z [5]%Z [7]%Z None
      (with_i (Some 3%nat)
         (enter Harsh.world 0%nat JobLogger.init (Example.unfitted REGRESSION)))
    = (Raise (Raised "RuntimeError" true), s')
    /\ length (callback_calls s') = 1%nat.
Proof.
  edestruct (@raising_error_callback_is_fatal Harsh.world
               (Example.unfitted REGRESSION)
               (Harsh.config REGRESSION [] (Some true) false)
               [(10, 1)]%Z [(14, -1)]%Z [5]%Z [7]%Z None 3%nat
               (with_i (Some 3%nat)
                  (enter Harsh.world 0%nat JobLogger.init
                     (Example.unfitted REGRESSION))))
    as (s' & E & _ & Hc).
  - reflexivity.
  - vm_compute. reflexivity.
  - reflexivity.
  - reflexivity.
  - vm_compute. reflexivity.
  - exists s'. split; [exact E|]. rewrite Hc. reflexivity.
Defined.

(* ------------------------------------------------------------------ *)
(** ** A PipelineScoreError that does not account for every objective *)

Lemma merged_absent exceptions scored_successfully k :
  ~ In k (map fst exceptions ++ map fst scored_successfully) ->
  dict_get String.eqb k (merged_scores exceptions scored_successfully) = None.
Proof.
  intros Hk. unfold merged_scores.
  rewrite (dict_get_update String.eqb String.eqb_eq).
  rewrite (dict_get_absent String.eqb String.eqb_eq).
  - rewrite nan_scores_get.
    destruct (existsb (String.eqb k) (map fst exceptions)) eqn:E;
      [|reflexivity].
    apply existsb_exists in E as (x & Hx & Hkx).
    apply String.eqb_eq in Hkx. subst x.
    exfalso. apply Hk, in_or_app. now left.
  - rewrite map_rev, <- in_rev. intros Hin. apply Hk, in_or_app. now right.
Qed.

Lemma scores_by_name_KeyError scores before o after :
  (forall o', In o' before ->
              exists v, dict_get String.eqb (name o') scores = Some v) ->
  dict_get String.eqb (name o) scores = None ->
  scores_by_name scores (before ++ o :: after) = Raise (KeyError (name o)).
Proof.
  intros Hbefore Ho.
  induction before as [|b before IH]; cbn.
  - unfold getitem. now rewrite Ho.
  - destruct (Hbefore b (or_introl eq_refl)) as [v Hv].
    unfold getitem at 1. rewrite Hv.
    rewrite IH; [reflexivity|]. intros o' Hin. apply Hbefore. now right.
Qed.

Lemma report_failure_configured (C : Collab) (pipeline : Pipeline C)
  (automl_config : AutoMLConfig (Splitter C) (Callback C) (Schema C))
  (i : nat) (e : exn) (s : St C) :
  (forall callback w,
      error_callback automl_config = Some callback ->
      fst (call_error_callback C callback e (format_tb C e)
             automl_config i pipeline w) = Ok tt) ->
  exists s',
    report_failure pipeline automl_config i e s = (Ok tt, s')
    /\ callback_calls s'
       = callback_calls s
         ++ match error_callback automl_config with
            | Some _ =>
                [ErrorCallbackCall e (format_tb C e) automl_config i pipeline]
            | None => []
            end
    /\ pipeline_cache s' = pipeline_cache s
    /\ fitted_pipeline s' = fitted_pipeline s.
Proof.
  intros Hcb. unfold report_failure.
  destruct (error_callback automl_config) as [callback|].
  - unfold bind, emit, call. cbn [fst snd world with_trace].
    specialize (Hcb callback (world s) eq_refl).
    destruct (call_error_callback C callback e (format_tb C e) automl_config
                i pipeline (world s)) as [r w'].
    cbn in Hcb. subst r. cbn [fst snd].
    eexists. split; [reflexivity|]. repeat split.
    unfold callback_calls. cbn [trace with_world with_trace].
    rewrite filter_app. reflexivity.
  - exists s. split; [reflexivity|]. rewrite app_nil_r. repeat split.
Qed.

(** The [except] block reads [scores[o.name]] for every configured
    objective.  When scoring raised a PipelineScoreError that names some
    objective neither as failed nor as scored, the first such objective
    raises KeyError, after the error callback was called: the pass ends with
    that KeyError and returns no scores. *)
Theorem score_error_without_an_objective_raises_key_error :
  forall (C : Collab) (pipeline : Pipeline C)
         (automl_config : AutoMLConfig (Splitter C) (Callback C) (Schema C))
         (X_train X_score : DataFrame (Row C)) (y_train y_score : Series)
         (fold_num : option nat) (i : nat) (s s1 : St C)
         (exceptions : list (string * string))
         (scored_successfully : list (string * float))
         (before : list Objective) (o : Objective) (after : list Objective),
    loop_i s = Some i ->
    _train_and_score_try pipeline automl_config ("Fold " +++ str_of_nat i)
      (objectives_to_score C automl_config)
      X_train X_score y_train y_score (with_fitted pipeline s)
    = (Raise (PipelineScoreError exceptions scored_successfully), s1) ->
    (forall callback w,
        error_callback automl_config = Some callback ->
        fst (call_error_callback C callback
               (PipelineScoreError exceptions scored_successfully)
               (format_tb C (PipelineScoreError exceptions scored_successfully))
               automl_config i pipeline w) = Ok tt) ->
    objectives_to_score C automl_config = before ++ o :: after ->
    (forall o', In o' before ->
                In (name o')
                   (map fst exceptions ++ map fst scored_successfully)) ->
    ~ In (name o) (map fst exceptions ++ map fst scored_successfully) ->
    exists s',
      _train_and_score pipeline automl_config
        X_train X_score y_train y_score fold_num s
      = (Raise (KeyError (name o)), s')
      /\ callback_calls s'
         = callback_calls s
           ++ match error_callback automl_config with
              | Some _ =>
                  [ErrorCallbackCall
                     (PipelineScoreError exceptions scored_successfully)
                     (format_tb C
                        (PipelineScoreError exceptions scored_successfully))
                     automl_config i pipeline]
              | None => []
              end.
Proof.
  intros C pipeline automl_config X_train X_score y_train y_score fold_num i
         s s1 exceptions scored_successfully before o after
         Hi Htry Hcb Hsplit Hbefore Ho.
  rewrite train_and_score_unfold with (i := i) by exact Hi.
  rewrite Htry. cbn [isinstance_Exception].
  destruct (@report_failure_configured C pipeline automl_config i
              (PipelineScoreError exceptions scored_successfully) s1 Hcb)
    as (s' & Hr & Hc & _).
  unfold _train_and_score_except. rewrite (bind_Ok _ _ _ Hr).
  unfold of_res, scores_after_failure.
  fold (merged_scores exceptions scored_successfully).
  fold (objectives_to_score C automl_config). rewrite Hsplit.
  rewrite scores_by_name_KeyError.
  - exists s'. split; [reflexivity|]. rewrite Hc. f_equal.
    exact (keeps_elim
             (@try_keeps_callbacks C pipeline automl_config _ _ _ _ _ _) Htry).
  - intros o' Hin. apply merged_present. now apply Hbefore.
  - now apply merged_absent.
Qed.

Lemma score_error_without_an_objective_witness :
  exists s',
    @_train_and_score Harsh.world (Example.unfitted REGRESSION)
      (Harsh.config REGRESSION [] (Some false) false)
      [(10, 1)]%Z [(15, -2)]%Z [5]%Z [7]%Z (Some 3%nat)
      (with_i (Some 3%nat)
         (enter Harsh.world 0%nat JobLogger.init (Example.unfitted REGRESSION)))
    = (Raise (KeyError "F1"), s')
    /\ length (callback_calls s') = 1%nat.
Proof.
  edestruct (@score_error_without_an_objective_raises_key_error Harsh.world
               (Example.unfitted REGRESSION)
               (Harsh.config REGRESSION [] (Some false) false)
               [(10, 1)]%Z [(15, -2)]%Z [5]%Z [7]%Z (Some 3%nat) 3%nat
               (with_i (Some 3%nat)
                  (enter Harsh.world 0%nat JobLogger.init
                     (Example.unfitted REGRESSION))))
    with (exceptions := [("AUC", "could not be scored")])
         (scored_successfully := @nil (string * float))
         (before := [ {| name := "AUC" |} ]) (o := {| name := "F1" |})
         (after := @nil Objective)
    as (s' & E & Hc).
  - reflexivity.
  - vm_compute. reflexivity.
  - intros callback w [= <-]. reflexivity.
  - reflexivity.
  - intros o' [<-|[]]. cbn. now left.
  - cbn. intros [H|[]]. discriminate.
  - exists s'. split; [exact E|]. rewrite Hc. reflexivity.
Defined.

(* ------------------------------------------------------------------ *)
(** ** The cache of fitted components *)

Lemma call_Ok (C : Collab) {A} (g : World C -> Res A * World C) s a s' :
  call g s = (Ok a, s') -> exists w', g (world s) = (Ok a, w').
Proof.
  unfold call. destruct (g (world s)) as [r w'] eqn:E. cbn.
  intros [= -> _]. eauto.
Qed.

Lemma train_pipeline_keeps_cache (C : Collab) p X y
  (cfg : AutoMLConfig (Splitter C) (Callback C) (Schema C)) schema get_hashes :
  keeps (@pipeline_cache C) (train_pipeline p X y cfg schema get_hashes).
Proof. unfold train_pipeline. keeps_tac. Qed.

Lemma report_failure_keeps_cache (C : Collab) (pipeline : Pipeline C)
  (cfg : AutoMLConfig (Splitter C) (Callback C) (Schema C)) i e :
  keeps (@pipeline_cache C) (report_failure pipeline cfg i e).
Proof. unfold report_failure. keeps_tac. Qed.

(** The hash [train_pipeline] returns is that of the index of the table the
    pipeline was fitted on. *)
Lemma train_pipeline_hash (C : Collab) (p : Pipeline C) X y
  (cfg : AutoMLConfig (Splitter C) (Callback C) (Schema C)) schema s fp h s' :
  train_pipeline p X y cfg schema true s = (Ok (fp, h), s') ->
  exists X_fit,
    fitted_on C p X y X_fit
    /\ h = Some (hash_index C (map fst X_fit))
    /\ exists c y_fit f w w', fit C c X_fit y_fit w = (Ok f, w').
Proof.
  unfold train_pipeline. intros H.
  split_bind H u0 s1 H1 H2; [|discriminate]. clear H H1.
  split_bind H2 u1 s2 H1 H3; [|discriminate]. clear H2 H1.
  split_bind H3 u2 s3 H1 H2; [|discriminate]. clear H3 H1.
  split_bind H2 tuning s4 H1 H3; [|discriminate]. clear H2 H1.
  destruct tuning as [tto needs].
  split_bind H3 parts s5 H1 H2; [|discriminate]. clear H3.
  destruct parts as [[[X1 X_tt] y1] y_tt].
  assert (Hfit : fitted_on C p X y X1).
  { destruct needs.
    - split_bind H1 four s6 H3 H4; [|discriminate].
      destruct four as [[[X1' X_tt'] y1'] y_tt'].
      unfold ret in H4. injection H4 as <- _ _ _ _.
      destruct (call_Ok H3) as [w' Hw]. right. eauto 8.
    - unfold ret in H1. injection H1 as <- _ _ _ _. now left. }
  clear H1.
  split_bind H2 c s6 H1 H3; [|discriminate]. clear H2 H1.
  split_bind H3 f s7 H1 H2; [|discriminate]. clear H3.
  destruct (call_Ok H1) as [w' Hw]. clear H1.
  split_bind H2 t s8 H1 H3; [|discriminate]. clear H2 H1.
  cbn in H3. unfold ret in H3. injection H3 as _ <- _.
  exists X1. split; [exact Hfit|]. split; [reflexivity|]. eauto 8.
Qed.

Lemma assigns_bind_keeps (C : Collab) {A B} key value
  (m : M (St C) A) (k : A -> M (St C) B) :
  keeps (@pipeline_cache C) m ->
  (forall a, assigns_on_success key value (k a)) ->
  assigns_on_success key value (bind m k).
Proof.
  intros Hm Hk s r s' H.
  destruct (bind_cases _ _ _ H) as [(a & s1 & H1 & H2)|(e & H1 & ->)].
  - specialize (Hk a _ _ _ H2). rewrite (Hm _ _ _ H1) in Hk. exact Hk.
  - exact (Hm _ _ _ H1).
Qed.

Lemma assigns_cache_set (C : Collab) {A} key value (a : A) :
  assigns_on_success key value (@cache_set C key value ;; ret a)%monad.
Proof. intros s r s' H. inversion H; subst. reflexivity. Qed.

Lemma try_cache (C : Collab) (pipeline : Pipeline C)
  (automl_config : AutoMLConfig (Splitter C) (Callback C) (Schema C))
  prefix objs X_train X_score y_train y_score s r s1 :
  _train_and_score_try pipeline automl_config prefix objs
    X_train X_score y_train y_score s = (r, s1) ->
  match r with
  | Ok _ =>
      exists X_fit,
        fitted_on C pipeline X_train y_train X_fit
        /\ (exists c y_fit f w w', fit C c X_fit y_fit w = (Ok f, w'))
        /\ pipeline_cache s1
           = dict_set key_eqb (Some (hash_index C (map fst X_fit)))
               (component_instances C (fitted_pipeline s1))
               (pipeline_cache s)
  | Raise _ => pipeline_cache s1 = pipeline_cache s
  end.
Proof.
  unfold _train_and_score_try. intros H.
  split_bind H u0 s2 H1 H2; [|inversion H1].
  assert (K2 : pipeline_cache s2 = pipeline_cache s).
  { eapply (@keeps_elim _ _ _ (@pipeline_cache C)); [|exact H1]. keeps_tac. }
  clear H H1.
  split_bind H2 fh s3 H1 H3.
  2:{ subst r. rewrite <- K2.
      eapply (@keeps_elim _ _ _ (@pipeline_cache C)); [|exact H1].
      apply train_pipeline_keeps_cache. }
  destruct fh as [fp h].
  assert (K3 : pipeline_cache s3 = pipeline_cache s).
  { rewrite <- K2.
    eapply (@keeps_elim _ _ _ (@pipeline_cache C)); [|exact H1].
    apply train_pipeline_keeps_cache. }
  destruct (@train_pipeline_hash _ _ _ _ _ _ _ _ _ _ H1) as (X_fit & Hon & -> & Hfit).
  clear H1 H2 K2.
  split_bind H3 u1 s4 H1 H2; [|inversion H1].
  assert (K4 : pipeline_cache s4 = pipeline_cache s).
  { rewrite <- K3.
    eapply (@keeps_elim _ _ _ (@pipeline_cache C)); [|exact H1]. keeps_tac. }
  assert (F4 : fitted_pipeline s4 = fp).
  { unfold set_fitted_pipeline in H1. injection H1 as _ Hs. now subst s4. }
  clear H1 H3 K3.
  assert (Ff : fitted_pipeline s1 = fp).
  { rewrite <- F4.
    eapply (@keeps_elim _ _ _ (@fitted_pipeline C)); [|exact H2]. keeps_tac. }
  match type of H2 with
  | ?m s4 = _ =>
      assert (Ha : assigns_on_success
                     (Some (hash_index C (map fst X_fit)))
                     (component_instances C fp) m)
        by (do 8 (apply assigns_bind_keeps; [keeps_tac|intros ?]);
            apply assigns_cache_set)
  end.
  specialize (Ha _ _ _ H2). cbv beta in Ha.
  destruct r as [a|e].
  - exists X_fit. split; [exact Hon|]. split; [exact Hfit|].
    rewrite Ff, Ha, K4. reflexivity.
  - now rewrite Ha.
Qed.

(** The cache.  A pass of [_train_and_score] touches [pipeline_cache] in one
    place, the last statement of the [try] block, so what it does to the
    cache is decided by how the [try] block ends.  When the block ends
    without an exception, with [(score, scores)], the pass returns these and
    the fitted pipeline, it has made exactly one assignment to the cache,
    whose key is the hash of the index of the table the pipeline was fitted
    on (the training table, or the first part of its resplit) and whose
    value holds the components of the pipeline it returns, [score] is
    [scores] at the primary objective, and the error callback was not
    called.  When the block raises [e], the pass leaves the cache as it
    found it; an [e] that is no [Exception] leaves the pass as it is, and
    otherwise a pass that returns, returns the scores the [except] block
    assigns for [e]. *)
Theorem pass_caches_the_fitted_components_on_success_only :
  forall (C : Collab) (pipeline : Pipeline C)
         (automl_config : AutoMLConfig (Splitter C) (Callback C) (Schema C))
         (X_train X_score : DataFrame (Row C)) (y_train y_score : Series)
         (fold_num : option nat) (i : nat) (s : St C)
         (tried : Res (float * dict string float)) (s1 : St C)
         (r : Res (float * dict string float * Pipeline C)) (s' : St C),
    loop_i s = Some i ->
    _train_and_score_try pipeline automl_config
      ("Fold " +++ str_of_nat i) (objectives_to_score C automl_config)
      X_train X_score y_train y_score (with_fitted pipeline s)
    = (tried, s1) ->
    _train_and_score pipeline automl_config
      X_train X_score y_train y_score fold_num s = (r, s') ->
    match tried with
    | Ok (score, scores) =>
        r = Ok (score, scores, fitted_pipeline s1)
        /\ s' = s1
        /\ (exists X_fit,
               fitted_on C pipeline X_train y_train X_fit
               /\ (exists c y_fit f w w',
                      fit C c X_fit y_fit w = (Ok f, w'))
               /\ pipeline_cache s'
                  = dict_set key_eqb (Some (hash_index C (map fst X_fit)))
                      (component_instances C (fitted_pipeline s1))
                      (pipeline_cache s))
        /\ getitem scores (name (objective automl_config)) = Ok score
        /\ callback_calls s' = callback_calls s
    | Raise e =>
        pipeline_cache s' = pipeline_cache s
        /\ pipeline_cache s1 = pipeline_cache s
        /\ (if isinstance_Exception e
            then match r with
                 | Ok (score, scores, sp) =>
                     scores_after_failure C automl_config e
                     = Ok (score, scores)
                     /\ sp = fitted_pipeline s1
                 | Raise _ => True
                 end
            else r = Raise e /\ s' = s1)
    end.
Proof.
  intros C pipeline automl_config X_train X_score y_train y_score fold_num i
         s tried s1 r s' Hi Htry H.
  rewrite train_and_score_unfold with (i := i) in H by exact Hi.
  rewrite Htry in H.
  pose proof (try_cache _ _ _ _ _ _ _ _ _ Htry) as Hc.
  destruct tried as [[score scores]|e].
  - injection H as <- <-.
    destruct Hc as (X_fit & Hon & Hfit & Hc).
    destruct (@try_scoring _ _ _ _ _ _ _ _ _ _ _ _ Htry) as [_ [Hget _]].
    split; [reflexivity|]. split; [reflexivity|].
    split; [exists X_fit; auto|]. split; [exact Hget|].
    exact (keeps_elim
             (@try_keeps_callbacks C pipeline automl_config _ _ _ _ _ _) Htry).
  - cbn in Hc.
    destruct (isinstance_Exception e) eqn:Hexc.
    + destruct (_train_and_score_except pipeline automl_config i e s1)
        as [[[score scores]|e'] s2] eqn:E2.
      * injection H as <- <-.
        assert (Hfit : fitted_pipeline s2 = fitted_pipeline s1).
        { eapply (@keeps_elim _ _ _ (@fitted_pipeline C)); [|exact E2].
          unfold _train_and_score_except, report_failure. keeps_tac. }
        unfold _train_and_score_except in E2.
        split_bind E2 u s3 H1 H2; [|discriminate].
        unfold of_res in H2.
        destruct (scores_after_failure C automl_config e) as [p|] eqn:Hs;
          [|discriminate].
        injection H2 as -> ->.
        rewrite (keeps_elim (report_failure_keeps_cache _ _ i e) H1).
        split; [exact Hc|]. split; [exact Hc|]. split; [reflexivity|].
        exact Hfit.
      * injection H as <- <-. split; [|split; [exact Hc|exact I]].
        unfold _train_and_score_except in E2.
        split_bind E2 u s3 H1 H2.
        -- unfold of_res in H2.
           destruct (scores_after_failure C automl_config e);
             injection H2 as _ <-;
             now rewrite (keeps_elim (report_failure_keeps_cache _ _ i e) H1).
        -- now rewrite (keeps_elim (report_failure_keeps_cache _ _ i e) H1).
    + injection H as <- <-. split; [exact Hc|]. split; [exact Hc|].
      split; reflexivity.
Qed.

Lemma pass_caches_witness :
  let s0 :=
    with_i (Some 0%nat)
      (enter Harsh.world 0%nat JobLogger.init (Example.unfitted BINARY)) in
  let config := Harsh.config BINARY [] None true in
  let X := [(10, 1); (11, 2); (12, 3); (13, 4)]%Z in
  let y := [0; 1; 0; 1]%Z in
  let tried :=
    @_train_and_score_try Harsh.world (Example.unfitted BINARY) config
      ("Fold " +++ str_of_nat 0) (objectives_to_score Harsh.world config)
      X [(14, 5)]%Z y [0]%Z
      (@with_fitted Harsh.world (Example.unfitted BINARY) s0) in
  let run :=
    @_train_and_score Harsh.world (Example.unfitted BINARY) config
      X [(14, 5)]%Z y [0]%Z (Some 0%nat) s0 in
  (exists score scores, fst tried = Ok (score, scores))
  /\ pipeline_cache (snd run) = [(Some 21%Z, true)]
  /\ match fst tried with
     | Ok (score, scores) =>
         fst run = Ok (score, scores, fitted_pipeline (snd tried))
         /\ snd run = snd tried
         /\ (exists X_fit,
                fitted_on Harsh.world (Example.unfitted BINARY) X y X_fit
                /\ (exists c y_fit f w w',
                       fit Harsh.world c X_fit y_fit w = (Ok f, w'))
                /\ pipeline_cache (snd run)
                   = dict_set key_eqb
                       (Some (hash_index Harsh.world (map fst X_fit)))
                       (component_instances Harsh.world
                          (fitted_pipeline (snd tried)))
                       (pipeline_cache s0))
         /\ getitem scores (name (objective config)) = Ok score
         /\ callback_calls (snd run) = callback_calls s0
     | Raise e =>
         pipeline_cache (snd run) = pipeline_cache s0
         /\ pipeline_cache (snd tried) = pipeline_cache s0
         /\ (if isinstance_Exception e
             then match fst run with
                  | Ok (score, scores, sp) =>
                      scores_after_failure Harsh.world config e
                      = Ok (score, scores)
                      /\ sp = fitted_pipeline (snd tried)
                  | Raise _ => True
                  end
             else fst run = Raise e /\ snd run = snd tried)
     end.
Proof.
  intros s0 config X y tried run.
  split; [eexists; eexists; vm_compute; reflexivity|].
  split; [vm_compute; reflexivity|].
  apply (@pass_caches_the_fitted_components_on_success_only Harsh.world
           (Example.unfitted BINARY) config X [(14, 5)]%Z y [0]%Z
           (Some 0%nat) 0%nat s0 (fst tried) (snd tried)
           (fst run) (snd run)).
  - reflexivity.
  - apply surjective_pairing.
  - apply surjective_pairing.
Defined.

(* ------------------------------------------------------------------ *)
(** ** What a pass returns *)

Lemma train_pipeline_keeps_fitted (C : Collab) p X y
  (cfg : AutoMLConfig (Splitter C) (Callback C) (Schema C)) schema get_hashes :
  keeps (@fitted_pipeline C) (train_pipeline p X y cfg schema get_hashes).
Proof. unfold train_pipeline. keeps_tac. Qed.

(** The two ways through the [try] block: either [train_pipeline] raised,
    and then nothing was scored and [fitted_pipeline] is as it was; or it
    returned a pipeline, which is then [fitted_pipeline] and was scored
    once. *)
Lemma try_stages (C : Collab) (pipeline : Pipeline C)
  (automl_config : AutoMLConfig (Splitter C) (Callback C) (Schema C))
  prefix objs X_train X_score y_train y_score s r s1 :
  _train_and_score_try pipeline automl_config prefix objs
    X_train X_score y_train y_score s = (r, s1) ->
  (exists e s2,
      r = Raise e
      /\ train_pipeline pipeline X_train y_train automl_config false true s2
         = (Raise e, s1)
      /\ fitted_pipeline s1 = fitted_pipeline s
      /\ score_calls s1 = score_calls s)
  \/ (exists h s2 s3,
        train_pipeline pipeline X_train y_train automl_config false true s2
        = (Ok (fitted_pipeline s1, h), s3)
        /\ score_calls s1
           = score_calls s
             ++ [ScoreCall (fitted_pipeline s1) X_score y_score objs
                   X_train y_train]).
Proof.
  unfold _train_and_score_try. intros H.
  split_bind H u0 s2 H1 H2; [|inversion H1].
  assert (K2 : score_calls s2 = score_calls s).
  { eapply (@keeps_elim _ _ _ (@score_calls C)); [|exact H1]. keeps_tac. }
  assert (F2 : fitted_pipeline s2 = fitted_pipeline s).
  { eapply (@keeps_elim _ _ _ (@fitted_pipeline C)); [|exact H1]. keeps_tac. }
  clear H H1.
  split_bind H2 fh s3 H1 H3.
  2:{ left. exists e, s2. split; [assumption|]. split; [exact H1|].
      split.
      - rewrite <- F2.
        eapply (@keeps_elim _ _ _ (@fitted_pipeline C)); [|exact H1].
        apply train_pipeline_keeps_fitted.
      - rewrite <- K2.
        eapply (@keeps_elim _ _ _ (@score_calls C)); [|exact H1].
        apply train_pipeline_keeps_scores. }
  right. destruct fh as [fp h].
  assert (K3 : score_calls s3 = score_calls s).
  { rewrite <- K2.
    eapply (@keeps_elim _ _ _ (@score_calls C)); [|exact H1].
    apply train_pipeline_keeps_scores. }
  clear H2 K2 F2.
  split_bind H3 u1 s4 H4 H2; [|inversion H4].
  assert (K4 : score_calls s4 = score_calls s).
  { rewrite <- K3.
    eapply (@keeps_elim _ _ _ (@score_calls C)); [|exact H4]. keeps_tac. }
  assert (F4 : fitted_pipeline s4 = fp).
  { unfold set_fitted_pipeline in H4. injection H4 as _ Hs. now subst s4. }
  clear H4 H3 K3.
  assert (Ff : fitted_pipeline s1 = fp).
  { rewrite <- F4.
    eapply (@keeps_elim _ _ _ (@fitted_pipeline C)); [|exact H2]. keeps_tac. }
  exists h, s2, s3. rewrite Ff. split; [exact H1|].
  rewrite <- K4.
  eapply (@grows_elim _ _ _ (@score_calls C)); [|exact H2].
  apply grows_after;
    [intros ?; do 2 eexists; reflexivity | keeps_tac | intros _].
  apply grows_after; [|keeps_tac|intros _].
  { intros ?.
    destruct (optimize_thresholds automl_config
              && is_binary C (problem_type automl_config));
      [destruct (threshold C fp)|]; do 2 eexists; reflexivity. }
  apply grows_after;
    [intros ?; do 2 eexists; reflexivity | keeps_tac | intros _].
  apply grows_bind_keeps; [apply grows_emit; frame_side|].
  intros _. keeps_tac.
Qed.

Lemma except_keeps_scores (C : Collab) (pipeline : Pipeline C)
  (cfg : AutoMLConfig (Splitter C) (Callback C) (Schema C)) i e :
  keeps (@score_calls C) (_train_and_score_except pipeline cfg i e).
Proof. unfold _train_and_score_except, report_failure. keeps_tac. Qed.

Lemma except_keeps_fitted (C : Collab) (pipeline : Pipeline C)
  (cfg : AutoMLConfig (Splitter C) (Callback C) (Schema C)) i e :
  keeps (@fitted_pipeline C) (_train_and_score_except pipeline cfg i e).
Proof. unfold _train_and_score_except, report_failure. keeps_tac. Qed.

(** Scoring follows training.  In a pass of [_train_and_score], either
    [train_pipeline] raised, and then [pipeline.score] was not called and
    the pipeline the pass returns (if it returns) is the one it was given,
    as it was given; or [train_pipeline] returned a pipeline, and then
    [pipeline.score] was called exactly once, on that pipeline, which is the
    one the pass returns, also when scoring failed. *)
Theorem pass_scores_what_training_returned :
  forall (C : Collab) (pipeline : Pipeline C)
         (automl_config : AutoMLConfig (Splitter C) (Callback C) (Schema C))
         (X_train X_score : DataFrame (Row C)) (y_train y_score : Series)
         (fold_num : option nat) (i : nat) (s : St C)
         (r : Res (float * dict string float * Pipeline C)) (s' : St C),
    loop_i s = Some i ->
    _train_and_score pipeline automl_config
      X_train X_score y_train y_score fold_num s = (r, s') ->
    (exists e s2 s3,
        train_pipeline pipeline X_train y_train automl_config false true s2
        = (Raise e, s3)
        /\ score_calls s' = score_calls s
        /\ match r with
           | Ok (_, _, sp) => sp = pipeline
           | Raise _ => True
           end)
    \/ (exists fp h s2 s3,
          train_pipeline pipeline X_train y_train automl_config false true s2
          = (Ok (fp, h), s3)
          /\ score_calls s'
             = score_calls s
               ++ [ScoreCall fp X_score y_score
                     (objectives_to_score C automl_config) X_train y_train]
          /\ match r with
             | Ok (_, _, sp) => sp = fp
             | Raise _ => True
             end).
Proof.
  intros C pipeline automl_config X_train X_score y_train y_score fold_num i
         s r s' Hi H.
  rewrite train_and_score_unfold with (i := i) in H by exact Hi.
  destruct (_train_and_score_try _ _ _ _ _ _ _ _ _)
    as [rt s1] eqn:Htry.
  assert (Hrest : score_calls s' = score_calls s1
                  /\ match r with
                     | Ok (_, _, sp) => sp = fitted_pipeline s1
                     | Raise _ => True
                     end).
  { destruct rt as [[score scores]|e].
    - injection H as <- <-. now split.
    - destruct (isinstance_Exception e).
      + destruct (_train_and_score_except pipeline automl_config i e s1)
          as [[[score scores]|e'] s2] eqn:E2; injection H as <- <-;
          (split;
           [exact (keeps_elim (except_keeps_scores _ _ i e) E2)|]);
          [|exact I].
        exact (keeps_elim (except_keeps_fitted _ _ i e) E2).
      + injection H as <- <-. now split. }
  destruct Hrest as [Hsc Hsp].
  destruct (try_stages _ _ _ _ _ _ _ _ _ Htry)
    as [(e & s2 & _ & Ht & Hf & Hk)|(h & s2 & s3 & Ht & Hk)].
  - left. exists e, s2, s1. split; [exact Ht|]. split.
    + now rewrite Hsc, Hk.
    + destruct r as [[[score scores] sp]|]; [|exact I].
      now rewrite Hsp, Hf.
  - right. exists (fitted_pipeline s1), h, s2, s3. split; [exact Ht|]. split.
    + now rewrite Hsc, Hk.
    + destruct r as [[[score scores] sp]|]; [|exact I]. exact Hsp.
Qed.

Lemma pass_scores_what_training_returned_witness :
  let s0 :=
    with_i (Some 1%nat)
      (enter Example.toy 0%nat JobLogger.init (Example.unfitted REGRESSION)) in
  let run :=
    @_train_and_score Example.toy (Example.unfitted REGRESSION)
      (Example.config REGRESSION [] (Some tt))
      [(10, 1); (11, 2)]%Z [(14, -1)]%Z [5; 7]%Z [5]%Z (Some 1%nat) s0 in
  length (score_calls (snd run)) = 1%nat
  /\ ((exists e s2 s3,
          @train_pipeline Example.toy (Example.unfitted REGRESSION)
            [(10, 1); (11, 2)]%Z
            [5; 7]%Z (Example.config REGRESSION [] (Some tt)) false true s2
          = (Raise e, s3)
          /\ score_calls (snd run) = score_calls s0
          /\ match fst run with
             | Ok (_, _, sp) => sp = Example.unfitted REGRESSION
             | Raise _ => True
             end)
      \/ (exists fp h s2 s3,
            @train_pipeline Example.toy (Example.unfitted REGRESSION)
            [(10, 1); (11, 2)]%Z
              [5; 7]%Z (Example.config REGRESSION [] (Some tt)) false true s2
            = (Ok (fp, h), s3)
            /\ score_calls (snd run)
               = score_calls s0
                 ++ [@ScoreCall Example.toy fp [(14, -1)]%Z [5]%Z
                       (objectives_to_score Example.toy
                          (Example.config REGRESSION [] (Some tt)))
                       [(10, 1); (11, 2)]%Z [5; 7]%Z]
            /\ match fst run with
               | Ok (_, _, sp) => sp = fp
               | Raise _ => True
               end)).
Proof.
  intros s0 run. split; [vm_compute; reflexivity|].
  apply (@pass_scores_what_training_returned Example.toy
           (Example.unfitted REGRESSION)
           (Example.config REGRESSION [] (Some tt))
           [(10, 1); (11, 2)]%Z [(14, -1)]%Z [5; 7]%Z [5]%Z
           (Some 1%nat) 1%nat s0 (fst run) (snd run)).
  - reflexivity.
  - apply surjective_pairing.
Defined.

(** A pass that fails outright.  When the [try] block raises an Exception
    that is not a PipelineScoreError and the configured error callback
    returns, the pass returns the score NaN and a [scores] dictionary that
    holds NaN under the name of each additional objective and nothing else:
    the primary objective has no entry in it unless it is also listed among
    the additional ones.  (A fold's entry regains the key from
    [ordered_scores]; the [holdout_scores] of the holdout pass is this
    dictionary as it is.)  The cache is left as it was. *)
Theorem failed_pass_scores_name_additional_objectives_only :
  forall (C : Collab) (pipeline : Pipeline C)
         (automl_config : AutoMLConfig (Splitter C) (Callback C) (Schema C))
         (X_train X_score : DataFrame (Row C)) (y_train y_score : Series)
         (fold_num : option nat) (i : nat) (s s1 : St C) (e : exn),
    loop_i s = Some i ->
    _train_and_score_try pipeline automl_config ("Fold " +++ str_of_nat i)
      (objectives_to_score C automl_config)
      X_train X_score y_train y_score (with_fitted pipeline s)
    = (Raise e, s1) ->
    isinstance_Exception e = true ->
    isinstance_PipelineScoreError e = false ->
    (forall callback w,
        error_callback automl_config = Some callback ->
        fst (call_error_callback C callback e (format_tb C e)
               automl_config i pipeline w) = Ok tt) ->
    exists scores s',
      _train_and_score pipeline automl_config
        X_train X_score y_train y_score fold_num s
      = (Ok (NaN, scores, fitted_pipeline s1), s')
      /\ (forall k,
            dict_get String.eqb k scores
            = if existsb (String.eqb k)
                   (map name (additional_objectives automl_config))
              then Some NaN else None)
      /\ (~ In (name (objective automl_config))
              (map name (additional_objectives automl_config)) ->
          getitem scores (name (objective automl_config))
          = Raise (KeyError (name (objective automl_config))))
      /\ pipeline_cache s' = pipeline_cache s.
Proof.
  intros C pipeline automl_config X_train X_score y_train y_score fold_num i
         s s1 e Hi Htry Hexc Hpse Hcb.
  rewrite train_and_score_unfold with (i := i) by exact Hi.
  rewrite Htry, Hexc.
  destruct (@report_failure_configured C pipeline automl_config i e s1 Hcb)
    as (s' & Hr & _ & Hcache & Hfit).
  unfold _train_and_score_except. rewrite (bind_Ok _ _ _ Hr).
  assert (Hs : scores_after_failure C automl_config e
               = Ok (NaN,
                     dict_of_items String.eqb
                       (map (fun n => (name n, NaN))
                            (additional_objectives automl_config)))).
  { destruct e; try reflexivity. discriminate. }
  rewrite Hs. unfold of_res. rewrite Hfit.
  do 2 eexists. split; [reflexivity|].
  split; [intros k; apply constant_scores_get|]. split.
  - intros Hno. unfold getitem. rewrite constant_scores_get.
    destruct (existsb _ _) eqn:E; [|reflexivity].
    apply existsb_exists in E as (x & Hx & Hkx).
    apply String.eqb_eq in Hkx. subst x. contradiction.
  - rewrite Hcache.
    pose proof (try_cache _ _ _ _ _ _ _ _ _ Htry) as Hc. exact Hc.
Qed.

Lemma failed_pass_scores_witness :
  exists scores s',
    @_train_and_score Harsh.world (Example.unfitted REGRESSION)
      (Harsh.config REGRESSION [] (Some false) false)
      [(10, 1)]%Z [(14, -1)]%Z [5]%Z [7]%Z None
      (with_i (Some 3%nat)
         (enter Harsh.world 0%nat JobLogger.init (Example.unfitted REGRESSION)))
    = (Ok (NaN, scores, {| Example.kind := REGRESSION;
                           Example.fitted := true;
                           Example.toy_threshold := None |}), s')
    /\ dict_get String.eqb "AUC" scores = None
    /\ dict_get String.eqb "F1" scores = Some NaN.
Proof.
  edestruct (@failed_pass_scores_name_additional_objectives_only Harsh.world
               (Example.unfitted REGRESSION)
               (Harsh.config REGRESSION [] (Some false) false)
               [(10, 1)]%Z [(14, -1)]%Z [5]%Z [7]%Z None 3%nat
               (with_i (Some 3%nat)
                  (enter Harsh.world 0%nat JobLogger.init
                     (Example.unfitted REGRESSION))))
    as (scores & s' & E & Hget & _).
  - reflexivity.
  - vm_compute. reflexivity.
  - reflexivity.
  - reflexivity.
  - intros callback w [= <-]. reflexivity.
  - exists scores, s'. split; [exact E|]. split; rewrite Hget; reflexivity.
Defined.

(* ------------------------------------------------------------------ *)
(** ** The entry of a fold: what it holds, and whose threshold *)

Lemma NoDup_app_disjoint (A : Type) (l l' : list A) (a : A) :
  NoDup (l ++ l') -> In a l -> ~ In a l'.
Proof.
  induction l as [|h t IH]; cbn; [tauto|].
  intros Hnd [<-|Hin] Hin'.
  - inversion Hnd as [|? ? Hh _]. apply Hh, in_or_app. now right.
  - inversion Hnd. now apply IH.
Qed.

(** Where the scores and the pipeline of a pass that returns come from. *)
Lemma pass_returns_from (C : Collab) (pipeline : Pipeline C)
  (automl_config : AutoMLConfig (Splitter C) (Callback C) (Schema C))
  X_train X_score y_train y_score fold_num i s primary all sp s' :
  loop_i s = Some i ->
  _train_and_score pipeline automl_config
    X_train X_score y_train y_score fold_num s = (Ok (primary, all, sp), s') ->
  (exists h s2 s3,
      train_pipeline pipeline X_train y_train automl_config false true s2
      = (Ok (sp, h), s3)
      /\ score_calls s'
         = score_calls s
           ++ [ScoreCall sp X_score y_score
                 (objectives_to_score C automl_config) X_train y_train]
      /\ ((exists w w',
              score C sp X_score y_score
                (objectives_to_score C automl_config) X_train y_train w
              = (Ok all, w')
              /\ getitem all (name (objective automl_config)) = Ok primary)
          \/ (exists e,
                 isinstance_Exception e = true
                 /\ scores_after_failure C automl_config e
                    = Ok (primary, all))))
  \/ (exists e s2 s3,
        train_pipeline pipeline X_train y_train automl_config false true s2
        = (Raise e, s3)
        /\ isinstance_Exception e = true
        /\ scores_after_failure C automl_config e = Ok (primary, all)
        /\ sp = pipeline
        /\ score_calls s' = score_calls s).
Proof.
  intros Hi H.
  rewrite train_and_score_unfold with (i := i) in H by exact Hi.
  destruct (_train_and_score_try _ _ _ _ _ _ _ _ _) as [rt s1] eqn:Htry.
  destruct (try_stages _ _ _ _ _ _ _ _ _ Htry)
    as [(e0 & s2 & Hr & Ht & Hf & Hk)|(h & s2 & s3 & Ht & Hk)].
  - subst rt. destruct (isinstance_Exception e0) eqn:Hexc; [|discriminate].
    destruct (_train_and_score_except pipeline automl_config i e0 s1)
      as [[[p a]|e'] s4] eqn:E2; [|discriminate].
    injection H as -> -> <- <-.
    right. exists e0, s2, s1. split; [exact Ht|]. split; [exact Hexc|].
    pose proof (keeps_elim (except_keeps_fitted _ _ i e0) E2) as Hfit.
    pose proof (keeps_elim (except_keeps_scores _ _ i e0) E2) as Hsc.
    unfold _train_and_score_except in E2.
    split_bind E2 u s5 H1 H2; [|discriminate].
    unfold of_res in H2. injection H2 as Hs _.
    split; [exact Hs|]. split; [now rewrite Hfit, Hf|now rewrite Hsc, Hk].
  - left.
    destruct rt as [[p a]|e].
    + injection H as -> -> <- <-.
      exists h, s2, s3. split; [exact Ht|]. split; [exact Hk|]. left.
      destruct (@try_scoring _ _ _ _ _ _ _ _ _ _ _ _ Htry)
        as [_ [Hget (w & w' & Hw)]].
      exists w, w'. split; [exact Hw|exact Hget].
    + destruct (isinstance_Exception e) eqn:Hexc; [|discriminate].
      destruct (_train_and_score_except pipeline automl_config i e s1)
        as [[[p a]|e'] s4] eqn:E2; [|discriminate].
      injection H as -> -> <- <-.
      pose proof (keeps_elim (except_keeps_fitted _ _ i e) E2) as Hfit.
      pose proof (keeps_elim (except_keeps_scores _ _ i e) E2) as Hsc.
      exists h, s2, s3. rewrite Hfit, Hsc. split; [exact Ht|].
      split; [exact Hk|]. right. exists e. split; [exact Hexc|].
      unfold _train_and_score_except in E2.
      split_bind E2 u s5 H1 H2; [|discriminate].
      unfold of_res in H2. now injection H2 as Hs _.
Qed.

(** C8, as the code has it.  Take a fold that returns an entry, in a
    configuration whose objectives have distinct names, none of them
    "# Training" or "# Validation", and with a pipeline whose [score] returns
    the scores of the objectives it was given, in their order.  The keys of
    the entry are, in order, the primary objective's name, the additional
    objectives' names, "# Training" and "# Validation"; under the name of
    each objective the entry holds the score the pass gave it (the value
    [pipeline.score] returned, or the one the [except] block assigned),
    under "# Training" and "# Validation" the sizes of the two slices.  Its
    [binary_classification_threshold] is None when the problem is not
    binary, and otherwise the threshold of the pipeline the fold returns:
    that is the pipeline [train_pipeline] returned, which is the one that
    was scored, when training returned; and it is the pipeline as it was
    given, with the threshold it had, when training failed. *)
Theorem C8_entry_keys_and_threshold :
  forall (C : Collab) (pipeline : Pipeline C)
         (automl_config : AutoMLConfig (Splitter C) (Callback C) (Schema C))
         (full_X_train : DataFrame (Row C)) (full_y_train : Series)
         (i : nat) (train valid : list nat) (s : St C)
         (entry : Entry) (sp : Pipeline C) (s' : St C),
    cv_fold pipeline automl_config full_X_train full_y_train i train valid s
    = (Ok (entry, sp), s') ->
    (forall p X_score y_score X_train y_train w all w',
        score C p X_score y_score (objectives_to_score C automl_config)
          X_train y_train w = (Ok all, w') ->
        dict_keys all = map name (objectives_to_score C automl_config)) ->
    NoDup (map name (objectives_to_score C automl_config)
           ++ ["# Training"; "# Validation"]) ->
    dict_keys (all_objective_scores entry)
    = name (objective automl_config)
      :: map name (additional_objectives automl_config)
      ++ ["# Training"; "# Validation"]
    /\ dict_get String.eqb "# Training" (all_objective_scores entry)
       = Some (Count (length train))
    /\ dict_get String.eqb "# Validation" (all_objective_scores entry)
       = Some (Count (length valid))
    /\ binary_classification_threshold entry
       = (if is_binary C (problem_type automl_config)
          then threshold C sp
          else None)
    /\ (is_binary C (problem_type automl_config) = false ->
        binary_classification_threshold entry = None)
    /\ exists X_train X_valid y_train y_valid primary all,
        iloc full_X_train train = Ok X_train
        /\ iloc full_X_train valid = Ok X_valid
        /\ iloc full_y_train train = Ok y_train
        /\ iloc full_y_train valid = Ok y_valid
        /\ mean_cv_score entry = primary
        /\ (forall o,
              In o (objectives_to_score C automl_config) ->
              dict_get String.eqb (name o) (all_objective_scores entry)
              = Some (Score match dict_get String.eqb (name o) all with
                            | Some v => v
                            | None => primary
                            end))
        /\ ((exists h s2 s3,
                train_pipeline pipeline X_train y_train automl_config
                  false true s2 = (Ok (sp, h), s3)
                /\ score_calls s'
                   = score_calls s
                     ++ [ScoreCall sp X_valid y_valid
                           (objectives_to_score C automl_config)
                           X_train y_train]
                /\ ((exists w w',
                        score C sp X_valid y_valid
                          (objectives_to_score C automl_config)
                          X_train y_train w = (Ok all, w')
                        /\ getitem all (name (objective automl_config))
                           = Ok primary)
                    \/ (exists e,
                           isinstance_Exception e = true
                           /\ scores_after_failure C automl_config e
                              = Ok (primary, all))))
            \/ (exists e s2 s3,
                  train_pipeline pipeline X_train y_train automl_config
                    false true s2 = (Raise e, s3)
                  /\ isinstance_Exception e = true
                  /\ scores_after_failure C automl_config e
                     = Ok (primary, all)
                  /\ sp = pipeline
                  /\ score_calls s' = score_calls s)).
Proof.
  intros C pipeline automl_config full_X_train full_y_train i train valid s
         entry sp s' Hfold Hscore Hnames.
  destruct (@entry_keys_and_threshold C pipeline automl_config full_X_train
              full_y_train i train valid s entry sp s' Hfold Hscore Hnames)
    as (Hk & Ht & Hv & Hthr & Hnb & _).
  split; [exact Hk|]. split; [exact Ht|]. split; [exact Hv|].
  split; [exact Hthr|]. split; [exact Hnb|].
  destruct (cv_fold_returns _ _ _ _ _ _ _ _ Hfold)
    as (X_train & X_valid & y_train & y_valid & primary & all
        & HX1 & HX2 & Hy1 & Hy2 & Hpass & ->).
  exists X_train, X_valid, y_train, y_valid, primary, all.
  split; [exact HX1|]. split; [exact HX2|]. split; [exact Hy1|].
  split; [exact Hy2|]. split; [reflexivity|].
  assert (Hi : loop_i
                 (with_logger
                    (JobLogger.debug
                       (tab +++ tab +++ "Training and scoring on fold "
                        +++ str_of_nat i) (job_logger s))
                    (with_i (Some i) s)) = Some i) by reflexivity.
  pose proof (@pass_returns_from _ _ _ _ _ _ _ _ _ _ _ _ _ _ Hi Hpass)
    as Hfrom.
  change (score_calls
            (with_logger
               (JobLogger.debug
                  (tab +++ tab +++ "Training and scoring on fold "
                   +++ str_of_nat i) (job_logger s))
               (with_i (Some i) s)))
    with (score_calls s) in Hfrom.
  split; [|exact Hfrom].
  assert (Hkeys :
            dict_keys all = map name (objectives_to_score C automl_config)
            \/ dict_keys all
               = map name (additional_objectives automl_config)).
  { destruct Hfrom as [(h & s2 & s3 & _ & _ & [(w & w' & Hw & _)|(e & _ & He)])
                      |(e & s2 & s3 & _ & _ & He & _)].
    - left. eapply Hscore; eauto.
    - eapply scores_after_failure_keys; eauto.
    - eapply scores_after_failure_keys; eauto. }
  pose proof (NoDup_app_remove_r _ _ Hnames) as Hnd.
  assert (Hnd_all : NoDup (dict_keys all)).
  { destruct Hkeys as [-> | ->]; [exact Hnd|].
    cbn in Hnd. now inversion Hnd. }
  intros o Ho.
  assert (Hcount : name o <> "# Training" /\ name o <> "# Validation").
  { apply (in_map name) in Ho.
    split; intros Heq; rewrite Heq in Ho;
      apply (NoDup_app_disjoint _ _ _ Hnames Ho); cbn; auto. }
  destruct Hcount as [Hc1 Hc2].
  rewrite entry_get by assumption.
  destruct (dict_get String.eqb (name o) all) as [v|] eqn:Hget;
    [reflexivity|].
  destruct (String.eqb (name o) (name (objective automl_config))) eqn:E;
    [reflexivity|].
  exfalso.
  assert (Hin : In (name o) (dict_keys all)).
  { destruct Hkeys as [-> | ->].
    - now apply in_map.
    - destruct Ho as [<-|Ho]; [now rewrite String.eqb_refl in E|].
      now apply in_map. }
  destruct (dict_get_present String.eqb String.eqb_eq _ _ Hin) as [v Hv'].
  congruence.
Qed.

Lemma C8_witness :
  exists entry sp s',
    @cv_fold Example.toy (Example.unfitted BINARY)
      (Example.config BINARY Example.folds3 (Some tt))
      Example.X6 Example.y6 0 [0; 2]%nat [1; 3]%nat
      (enter Example.toy 0%nat JobLogger.init (Example.unfitted BINARY))
    = (Ok (entry, sp), s')
    /\ dict_keys (all_objective_scores entry)
       = ["AUC"; "F1"; "# Training"; "# Validation"]
    /\ dict_get String.eqb "F1" (all_objective_scores entry)
       = Some (Score 0.5%float)
    /\ binary_classification_threshold entry = Some 0.25%float.
Proof.
  eexists. eexists. eexists.
  split; [vm_compute; reflexivity|].
  match goal with
  | |- dict_keys (all_objective_scores ?entry) = _ /\ _ =>
      destruct (@C8_entry_keys_and_threshold Example.toy
                  (Example.unfitted BINARY)
                  (Example.config BINARY Example.folds3 (Some tt))
                  Example.X6 Example.y6 0%nat [0; 2]%nat [1; 3]%nat
                  (enter Example.toy 0%nat JobLogger.init
                     (Example.unfitted BINARY))
                  entry _ _ ltac:(vm_compute; reflexivity)
                  (@example_score_keys BINARY Example.folds3 (Some tt)))
        as (Hk & _ & _ & Ht & _)
  end.
  - repeat constructor; cbn; intuition discriminate.
  - split; [exact Hk|]. split; [reflexivity|exact Ht].
Defined.

(** The claim fails for a fold whose training fails on a pipeline that was
    given with a threshold: the problem is binary, training raises, nothing
    is fitted or scored, and the entry records the threshold 0.75 of the
    pipeline as it was given. *)
Lemma C8_counterexample :
  let given := {| Example.kind := BINARY; Example.fitted := false;
                  Example.toy_threshold := Some 0.75%float |} in
  let config := Example.config BINARY [] (Some tt) in
  let X := [(10, 1); (11, -3); (12, 3); (13, 4)]%Z in
  let y := [5; 7; 5; 7]%Z in
  (exists entry s',
      @cv_fold Example.toy given config X y 0 [0; 1]%nat [2; 3]%nat
        (enter Example.toy 0%nat JobLogger.init given)
      = (Ok (entry, given), s')
      /\ binary_classification_threshold entry = Some 0.75%float
      /\ score_calls s' = []
      /\ length (train_calls s') = 1%nat)
  /\ is_binary Example.toy (problem_type config) = true
  /\ (forall s,
        fst (@train_pipeline Example.toy given [(10, 1); (11, -3)]%Z
               [5; 7]%Z config false true s)
        = Raise (Raised "ValueError" true)).
Proof.
  cbv zeta. split; [|split; [reflexivity|]].
  - eexists. eexists. split; [vm_compute; reflexivity|].
    split; [reflexivity|]. split; reflexivity.
  - intros s. reflexivity.
Qed.

(* ------------------------------------------------------------------ *)
(** ** Invariants of a whole run *)

Lemma effect_bind {S A B} (R : S -> S -> Prop) (m : M S A) (k : A -> M S B) :
  (forall a b c, R a b -> R b c -> R a c) ->
  effect R m -> (forall a, effect R (k a)) -> effect R (bind m k).
Proof.
  intros Htrans Hm Hk s r s' H.
  destruct (bind_cases _ _ _ H) as [(a & s1 & H1 & H2)|(e & H1 & _)].
  - eapply Htrans; [eapply Hm; eauto|eapply Hk; eauto].
  - eapply Hm; eauto.
Qed.

Lemma orderly_refl (C : Collab) (pipeline : Pipeline C) (s s' : St C) :
  trace s' = trace s -> orderly pipeline s s'.
Proof.
  intros H. exists [], [], [].
  unfold train_calls, score_calls, callback_calls. rewrite H, !app_nil_r.
  repeat split; auto.
Qed.

Lemma orderly_trans (C : Collab) (pipeline : Pipeline C) (a b c : St C) :
  orderly pipeline a b -> orderly pipeline b c -> orderly pipeline a c.
Proof.
  intros (t1 & s1 & r1 & Ht1 & Hs1 & Hr1 & Hf1 & Hl1 & Hm1)
         (t2 & s2 & r2 & Ht2 & Hs2 & Hr2 & Hf2 & Hl2 & Hm2).
  exists (t1 ++ t2), (s1 ++ s2), (r1 ++ r2).
  rewrite Ht2, Ht1, Hs2, Hs1, Hr2, Hr1, <- !app_assoc, !length_app.
  repeat split; auto.
  - apply Forall_app. now split.
  - lia.
  - lia.
Qed.

Lemma orderly_keeps_trace (C : Collab) (pipeline : Pipeline C) {A}
  (m : M (St C) A) :
  keeps (@trace C) m -> effect (orderly pipeline) m.
Proof. intros Hm s r s' H. apply orderly_refl. eapply Hm; eauto. Qed.

Lemma except_keeps_train (C : Collab) (pipeline : Pipeline C)
  (cfg : AutoMLConfig (Splitter C) (Callback C) (Schema C)) i e :
  keeps (@train_calls C) (_train_and_score_except pipeline cfg i e).
Proof. unfold _train_and_score_except, report_failure. keeps_tac. Qed.

Lemma except_reports_once (C : Collab) (pipeline : Pipeline C)
  (cfg : AutoMLConfig (Splitter C) (Callback C) (Schema C)) i e s r s' :
  _train_and_score_except pipeline cfg i e s = (r, s') ->
  exists reported,
    callback_calls s' = callback_calls s ++ reported
    /\ (length reported <= 1)%nat.
Proof.
  unfold _train_and_score_except, report_failure. intros H.
  destruct (error_callback cfg) as [callback|].
  - exists [ErrorCallbackCall e (format_tb C e) cfg i pipeline].
    split; [|cbn; lia].
    eapply (@grows_elim _ _ _ (@callback_calls C)); [|exact H].
    apply grows_bind_keeps; [|intros _; keeps_tac].
    apply grows_bind_keeps; [apply grows_emit; frame_side|].
    intros _. keeps_tac.
  - exists []. split; [|cbn; lia]. rewrite app_nil_r.
    eapply (@keeps_elim _ _ _ (@callback_calls C)); [|exact H]. keeps_tac.
Qed.

Lemma pass_orderly (C : Collab) (pipeline : Pipeline C)
  (automl_config : AutoMLConfig (Splitter C) (Callback C) (Schema C))
  X_train X_score y_train y_score fold_num :
  effect (orderly pipeline)
    (_train_and_score pipeline automl_config
       X_train X_score y_train y_score fold_num).
Proof.
  intros s r s' H.
  destruct (loop_i s) as [i|] eqn:Hi.
  2:{ rewrite train_and_score_unbound in H by exact Hi.
      injection H as _ <-. now apply orderly_refl. }
  rewrite train_and_score_unfold with (i := i) in H by exact Hi.
  destruct (_train_and_score_try _ _ _ _ _ _ _ _ _) as [rt s1] eqn:Htry.
  pose proof (grows_elim
                (@try_grows_train C pipeline automl_config _ _ _ _ _ _) Htry)
    as Ht.
  pose proof (keeps_elim
                (@try_keeps_callbacks C pipeline automl_config _ _ _ _ _ _)
                Htry) as Hc.
  destruct (@try_scoring _ _ _ _ _ _ _ _ _ _ _ _ Htry) as [Hs _].
  assert (Hscored : exists scored,
             score_calls s1 = score_calls s ++ scored
             /\ (length scored <= 1)%nat).
  { destruct Hs as [Hs|Hs].
    - exists []. rewrite app_nil_r. split; [exact Hs|cbn; lia].
    - eexists [_]. split; [exact Hs|cbn; lia]. }
  destruct Hscored as (scored & Hscored & Hlen).
  assert (Hrest : train_calls s' = train_calls s1
                  /\ score_calls s' = score_calls s1
                  /\ exists reported,
                       callback_calls s' = callback_calls s1 ++ reported
                       /\ (length reported <= 1)%nat).
  { assert (Hsame : s' = s1 ->
                    train_calls s' = train_calls s1
                    /\ score_calls s' = score_calls s1
                    /\ exists reported,
                         callback_calls s' = callback_calls s1 ++ reported
                         /\ (length reported <= 1)%nat).
    { intros ->. repeat split. exists []. rewrite app_nil_r.
      split; [reflexivity|cbn; lia]. }
    destruct rt as [[score scores]|e].
    - apply Hsame. now injection H as _ <-.
    - destruct (isinstance_Exception e);
        [|apply Hsame; now injection H as _ <-].
      destruct (_train_and_score_except pipeline automl_config i e s1)
        as [rx s2] eqn:E2.
      assert (s' = s2) as ->
        by (destruct rx as [[score scores]|e']; now injection H as _ <-).
      split; [exact (keeps_elim (except_keeps_train _ _ i e) E2)|].
      split; [exact (keeps_elim (except_keeps_scores _ _ i e) E2)|].
      exact (except_reports_once _ _ _ _ _ E2). }
  destruct Hrest as (Ht' & Hs' & reported & Hr' & Hlen').
  exists [TrainPipelineCall pipeline X_train y_train], scored, reported.
  rewrite Ht', Hs', Hr', Ht, Hscored, Hc.
  repeat split; auto.
  constructor; [reflexivity|constructor].
Qed.

Ltac orderly_steps :=
  repeat first
    [ apply orderly_keeps_trace; solve [keeps_tac]
    | apply pass_orderly
    | apply effect_bind; [apply orderly_trans| |intros ?]
    | match goal with
      | |- effect _ (match ?x with _ => _ end) => destruct x
      end ].

Lemma cv_loop_orderly (C : Collab) (pipeline : Pipeline C)
  (automl_config : AutoMLConfig (Splitter C) (Callback C) (Schema C))
  full_X_train full_y_train folds :
  forall i cv_data sp,
    effect (orderly pipeline)
      (cv_loop pipeline automl_config full_X_train full_y_train
         folds i cv_data sp).
Proof.
  induction folds as [|[train valid] rest IH]; intros i cv_data sp.
  - cbn. orderly_steps.
  - cbn [cv_loop].
    apply effect_bind; [apply orderly_trans| |intros [entry sp']; apply IH].
    unfold cv_fold. orderly_steps.
Qed.

Lemma rest_orderly (C : Collab) (pipeline : Pipeline C)
  (automl_config : AutoMLConfig (Splitter C) (Callback C) (Schema C))
  full_X_train full_y_train start X_holdout y_holdout :
  effect (orderly pipeline)
    (train_and_score_pipeline_rest pipeline automl_config full_X_train
       full_y_train start X_holdout y_holdout).
Proof.
  unfold train_and_score_pipeline_rest.
  apply effect_bind; [apply orderly_trans|orderly_steps|intros folds].
  apply effect_bind;
    [apply orderly_trans|apply cv_loop_orderly|intros [cv_data sp]].
  orderly_steps.
Qed.

Lemma run_orderly (C : Collab) (pipeline : Pipeline C)
  (automl_config : AutoMLConfig (Splitter C) (Callback C) (Schema C))
  full_X_train full_y_train job_log X_holdout y_holdout w :
  orderly pipeline (enter C w job_log pipeline)
    (snd (train_and_score_pipeline C pipeline automl_config
            full_X_train full_y_train job_log X_holdout y_holdout w)).
Proof.
  destruct (train_and_score_pipeline C pipeline automl_config full_X_train
              full_y_train job_log X_holdout y_holdout w) as [r s'] eqn:E.
  unfold train_and_score_pipeline in E.
  revert E. generalize (enter C w job_log pipeline). intros s0 E.
  cbn [snd]. revert s0 r s' E.
  change (effect (orderly pipeline)
            (start <- @now C ;;
             @info C (tab +++ "Starting cross validation") ;;
             train_and_score_pipeline_rest pipeline automl_config
               full_X_train (prepared_target C automl_config full_y_train)
               start X_holdout
               (prepared_holdout C automl_config X_holdout y_holdout))%monad).
  apply effect_bind; [apply orderly_trans|orderly_steps|intros start].
  apply effect_bind; [apply orderly_trans|orderly_steps|intros _].
  apply rest_orderly.
Qed.

Lemma orderly_from_enter (C : Collab) (pipeline : Pipeline C) w job_log
  (s : St C) :
  orderly pipeline (enter C w job_log pipeline) s ->
  Forall (trains pipeline) (train_calls s)
  /\ (length (score_calls s) <= length (train_calls s))%nat
  /\ (length (callback_calls s) <= length (train_calls s))%nat.
Proof.
  intros (trained & scored & reported & Ht & Hs & Hr & Hf & Hl & Hm).
  cbn in Ht, Hs, Hr. rewrite Ht, Hs, Hr. repeat split; assumption.
Qed.

(** Whatever the collaborators do, and however the run ends, a run of
    [train_and_score_pipeline] has trained nothing but the pipeline it was
    given (each fold and the holdout pass start from it, never from a
    pipeline fitted earlier), has scored no more often than it has trained,
    and has called the error callback no more often than it has trained. *)
Theorem run_trains_the_given_pipeline_and_scores_no_more_often :
  forall (C : Collab) (pipeline : Pipeline C)
         (automl_config : AutoMLConfig (Splitter C) (Callback C) (Schema C))
         (full_X_train : DataFrame (Row C)) (full_y_train : Series)
         (job_log : JobLogger.t)
         (X_holdout : option (DataFrame (Row C))) (y_holdout : option Series)
         (w : World C),
    let s := snd (train_and_score_pipeline C pipeline automl_config
                    full_X_train full_y_train job_log X_holdout y_holdout w) in
    Forall (trains pipeline) (train_calls s)
    /\ (length (score_calls s) <= length (train_calls s))%nat
    /\ (length (callback_calls s) <= length (train_calls s))%nat.
Proof.
  intros C pipeline automl_config full_X_train full_y_train job_log
         X_holdout y_holdout w s.
  apply orderly_from_enter with (w := w) (job_log := job_log).
  apply run_orderly.
Qed.

(* ------------------------------------------------------------------ *)
(** ** What a run writes to the job's log *)

Lemma logged_refl (C : Collab) (s s' : St C) :
  job_logger s' = job_logger s -> logged s s'.
Proof. intros H. exists []. split; [exact H|constructor]. Qed.

Lemma logged_trans (C : Collab) (a b c : St C) :
  logged a b -> logged b c -> logged a c.
Proof.
  intros (l1 & H1 & F1) (l2 & H2 & F2). exists (l1 ++ l2). split.
  - now rewrite invoke_all_app, <- H1.
  - apply Forall_app. now split.
Qed.

Lemma logged_keeps (C : Collab) {A} (m : M (St C) A) :
  keeps (@job_logger C) m -> effect (@logged C) m.
Proof. intros Hm s r s' H. apply logged_refl. eapply Hm; eauto. Qed.

Lemma logged_info (C : Collab) msg : effect (@logged C) (@info C msg).
Proof.
  intros s r s' H. unfold info in H. injection H as _ <-.
  exists [(CallInfo, msg)]. split; [reflexivity|].
  constructor; [now left|constructor].
Qed.

Lemma logged_debug (C : Collab) msg : effect (@logged C) (@debug C msg).
Proof.
  intros s r s' H. unfold debug in H. injection H as _ <-.
  exists [(CallDebug, msg)]. split; [reflexivity|].
  constructor; [now right|constructor].
Qed.

Lemma effect_try_except {S A} (R : S -> S -> Prop) (body : M S A)
  (handler : exn -> M S A) :
  (forall a b c, R a b -> R b c -> R a c) ->
  effect R body -> (forall e, effect R (handler e)) ->
  effect R (try_except body handler).
Proof.
  intros Htrans Hb Hh s r s' H. unfold try_except in H.
  destruct (body s) as [[a|e] s1] eqn:E.
  - injection H as _ <-. eapply Hb; eauto.
  - destruct (isinstance_Exception e).
    + eapply Htrans; [eapply Hb; eauto|eapply Hh; eauto].
    + injection H as _ <-. eapply Hb; eauto.
Qed.

Ltac logged_steps :=
  repeat first
    [ apply logged_keeps; solve [keeps_tac]
    | apply logged_info
    | apply logged_debug
    | apply effect_bind; [apply logged_trans| |intros ?]
    | apply effect_try_except; [apply logged_trans| |intros ?]
    | match goal with
      | |- effect _ (match ?x with _ => _ end) => destruct x
      end ].

Lemma train_pipeline_keeps_logger (C : Collab) p X y
  (cfg : AutoMLConfig (Splitter C) (Callback C) (Schema C)) schema get_hashes :
  keeps (@job_logger C) (train_pipeline p X y cfg schema get_hashes).
Proof. unfold train_pipeline. keeps_tac. Qed.

Lemma pass_logged (C : Collab) (pipeline : Pipeline C)
  (automl_config : AutoMLConfig (Splitter C) (Callback C) (Schema C))
  X_train X_score y_train y_score fold_num :
  effect (@logged C)
    (_train_and_score pipeline automl_config
       X_train X_score y_train y_score fold_num).
Proof.
  unfold _train_and_score, _train_and_score_try, _train_and_score_except,
    report_failure.
  apply effect_bind; [apply logged_trans|logged_steps|intros _].
  apply effect_bind; [apply logged_trans|logged_steps|intros i].
  apply effect_bind; [apply logged_trans| |intros [score scores]; logged_steps].
  apply effect_try_except; [apply logged_trans| |intros e; logged_steps].
  apply effect_bind; [apply logged_trans|logged_steps|intros _].
  apply effect_bind;
    [apply logged_trans
    |apply logged_keeps, train_pipeline_keeps_logger
    |intros [fp h]].
  logged_steps.
Qed.

Lemma cv_loop_logged (C : Collab) (pipeline : Pipeline C)
  (automl_config : AutoMLConfig (Splitter C) (Callback C) (Schema C))
  full_X_train full_y_train folds :
  forall i cv_data sp,
    effect (@logged C)
      (cv_loop pipeline automl_config full_X_train full_y_train
         folds i cv_data sp).
Proof.
  induction folds as [|[train valid] rest IH]; intros i cv_data sp.
  - cbn. logged_steps.
  - cbn [cv_loop].
    apply effect_bind; [apply logged_trans| |intros [entry sp']; apply IH].
    unfold cv_fold.
    do 7 (apply effect_bind; [apply logged_trans|logged_steps|intros ?]).
    apply effect_bind;
      [apply logged_trans|apply pass_logged|intros [[? ?] ?]; logged_steps].
Qed.

Lemma rest_logged (C : Collab) (pipeline : Pipeline C)
  (automl_config : AutoMLConfig (Splitter C) (Callback C) (Schema C))
  full_X_train full_y_train start X_holdout y_holdout :
  effect (@logged C)
    (train_and_score_pipeline_rest pipeline automl_config full_X_train
       full_y_train start X_holdout y_holdout).
Proof.
  unfold train_and_score_pipeline_rest.
  apply effect_bind; [apply logged_trans|logged_steps|intros folds].
  apply effect_bind;
    [apply logged_trans|apply cv_loop_logged|intros [cv_data sp]].
  apply effect_bind; [apply logged_trans|logged_steps|intros _].
  apply effect_bind; [apply logged_trans| |intros [[? ?] ?]; logged_steps].
  destruct X_holdout as [X_h|]; [destruct y_holdout as [y_h|]|];
    [|logged_steps|logged_steps].
  apply effect_bind; [apply logged_trans|logged_steps|intros _].
  apply effect_bind; [apply logged_trans|logged_steps|intros _].
  apply effect_bind;
    [apply logged_trans|apply pass_logged|intros [[? ?] ?]; logged_steps].
Qed.

Lemma rest_result_logger (C : Collab) (pipeline : Pipeline C)
  (automl_config : AutoMLConfig (Splitter C) (Callback C) (Schema C))
  full_X_train full_y_train start X_holdout y_holdout s r s' :
  train_and_score_pipeline_rest pipeline automl_config full_X_train
    full_y_train start X_holdout y_holdout s = (Ok r, s') ->
  logger r = job_logger s' /\ cached_data r = pipeline_cache s'.
Proof.
  unfold train_and_score_pipeline_rest. cbv zeta. intros H.
  destruct (bind_cases _ _ _ H) as [(folds & s1 & _ & H1)|(e & _ & E)];
    [clear H|discriminate].
  destruct (bind_cases _ _ _ H1) as [([cv sp] & s2 & _ & H2)|(e & _ & E)];
    [clear H1|discriminate].
  destruct (bind_cases _ _ _ H2) as [(u & s3 & _ & H3)|(e & _ & E)];
    [clear H2|discriminate].
  destruct (bind_cases _ _ _ H3) as [([[hs hd] sp'] & s4 & _ & H4)|(e & _ & E)];
    [clear H3|discriminate].
  destruct (bind_cases _ _ _ H4) as [(t & s5 & _ & H5)|(e & _ & E)];
    [clear H4|discriminate].
  destruct (bind_cases _ _ _ H5) as [(c & s6 & Hc & H6)|(e & _ & E)];
    [clear H5|discriminate].
  destruct (bind_cases _ _ _ H6) as [(l & s7 & Hl & H7)|(e & _ & E)];
    [clear H6|discriminate].
  unfold get_cache in Hc. unfold get_logger in Hl.
  injection Hc as <- <-. injection Hl as <- <-.
  inversion H7; subst. cbn. auto.
Qed.

(** The log of a run, for any logger it is given: what the run found in it,
    then the call [info("\tStarting cross validation")], then calls of
    [info] and [debug] only; and the logger of a result is the logger in
    that state. *)
Lemma run_logged (C : Collab) (pipeline : Pipeline C)
  (automl_config : AutoMLConfig (Splitter C) (Callback C) (Schema C))
  full_X_train full_y_train job_log X_holdout y_holdout w :
  exists calls,
    job_logger
      (snd (train_and_score_pipeline C pipeline automl_config full_X_train
              full_y_train job_log X_holdout y_holdout w))
    = invoke_all ((CallInfo, tab +++ "Starting cross validation") :: calls)
        job_log
    /\ Forall (fun c => fst c = CallInfo \/ fst c = CallDebug) calls
    /\ (forall res,
          fst (train_and_score_pipeline C pipeline automl_config full_X_train
                 full_y_train job_log X_holdout y_holdout w) = Ok res ->
          logger res
          = job_logger
              (snd (train_and_score_pipeline C pipeline automl_config
                      full_X_train full_y_train job_log X_holdout
                      y_holdout w))).
Proof.
  rewrite run_unfold.
  destruct (train_and_score_pipeline_rest _ _ _ _ _ _ _ _) as [r s'] eqn:E.
  destruct (rest_logged pipeline automl_config _ _ _ _ _ _ E)
    as (calls & Hl & Hf).
  exists calls. split; [exact Hl|]. split; [exact Hf|].
  intros res Hres. cbn in Hres. subst r.
  exact (proj1 (@rest_result_logger _ _ _ _ _ _ _ _ _ _ _ E)).
Qed.

(** The log of a run.  Whatever happens in it, a run of
    [train_and_score_pipeline] leaves in the logger it was given what it
    found there, followed by the entry of [info("\tStarting cross
    validation")], followed by entries made through [info] and [debug] only
    (it never logs a warning or an error); and the logger of the result it
    returns is that logger. *)
Theorem run_logs_info_and_debug_after_the_start_line :
  forall (C : Collab) (pipeline : Pipeline C)
         (automl_config : AutoMLConfig (Splitter C) (Callback C) (Schema C))
         (full_X_train : DataFrame (Row C)) (full_y_train : Series)
         (job_log : JobLogger.t)
         (X_holdout : option (DataFrame (Row C))) (y_holdout : option Series)
         (w : World C),
    let run := train_and_score_pipeline C pipeline automl_config full_X_train
                 full_y_train job_log X_holdout y_holdout w in
    exists calls,
      JobLogger.logs (job_logger (snd run))
      = JobLogger.logs job_log
        ++ ("info", tab +++ "Starting cross validation")
           :: map (fun c => (level_of (fst c), snd c)) calls
      /\ Forall (fun c => fst c = CallInfo \/ fst c = CallDebug) calls
      /\ (forall res, fst run = Ok res -> logger res = job_logger (snd run)).
Proof.
  intros C pipeline automl_config full_X_train full_y_train job_log
         X_holdout y_holdout w run.
  destruct (@run_logged C pipeline automl_config full_X_train full_y_train
              job_log X_holdout y_holdout w) as (calls & Hl & Hf & Hres).
  exists calls. split; [|split; [exact Hf|exact Hres]].
  subst run. rewrite Hl, logs_invoke_all. reflexivity.
Qed.

Lemma flushed_as_info_debug (calls : list (log_call * string)) :
  Forall (fun c => fst c = CallInfo \/ fst c = CallDebug) calls ->
  map (fun c => (flushed_as (fst c), snd c)) calls = calls.
Proof.
  induction 1 as [|[c m] l Hc _ IH]; [reflexivity|].
  cbn. rewrite IH. cbn in Hc. destruct Hc as [-> | ->]; reflexivity.
Qed.

(** Flushing the log of a run.  When the logger given to
    [train_and_score_pipeline] was filled through the methods of JobLogger,
    [write_to_logger] on the logger the run leaves does not raise: the target
    first receives what the logger held before the run (errors as warnings),
    and then the calls the run made, each through the method the run used. *)
Theorem run_log_flushes_as_logged :
  forall (C : Collab) (pipeline : Pipeline C)
         (automl_config : AutoMLConfig (Splitter C) (Callback C) (Schema C))
         (full_X_train : DataFrame (Row C)) (full_y_train : Series)
         (before : list (log_call * string))
         (X_holdout : option (DataFrame (Row C))) (y_holdout : option Series)
         (w : World C),
    let run := train_and_score_pipeline C pipeline automl_config full_X_train
                 full_y_train (invoke_all before JobLogger.init)
                 X_holdout y_holdout w in
    exists calls,
      Forall (fun c => fst c = CallInfo \/ fst c = CallDebug) calls
      /\ forall (T : Type) (L : LoggerLike T) (target : T),
          JobLogger.write_to_logger (job_logger (snd run)) target
          = (Ok tt,
             (job_logger (snd run),
              invoke_all
                ((CallInfo, tab +++ "Starting cross validation") :: calls)
                (invoke_all
                   (map (fun c => (flushed_as (fst c), snd c)) before)
                   target))).
Proof.
  intros C pipeline automl_config full_X_train full_y_train before
         X_holdout y_holdout w run.
  destruct (@run_logged C pipeline automl_config full_X_train full_y_train
              (invoke_all before JobLogger.init) X_holdout y_holdout w)
    as (calls & Hl & Hf & _).
  exists calls. split; [exact Hf|]. intros T L target.
  subst run. rewrite Hl, <- invoke_all_app, write_after_calls.
  rewrite map_app, !invoke_all_app.
  rewrite (@flushed_as_info_debug
             ((CallInfo, tab +++ "Starting cross validation") :: calls))
    by (constructor; [now left|exact Hf]).
  reflexivity.
Qed.

(** [evaluate_pipeline]: whatever happens after, the job's log gains the
    line with the pipeline's name first, and then [info] and [debug] entries
    only; nothing but the given pipeline is trained, and there are no more
    scorings or calls of the error callback than trainings; and when it
    returns a result, the second line it logged is the one that starts
    cross validation, and the result carries the logger. *)
Theorem evaluate_pipeline_logs_the_name_first :
  forall (C : Collab) (name_of : Pipeline C -> string)
         (infer_X : DataFrame (Row C) -> World C -> Res unit * World C)
         (infer_y : Series -> World C -> Res unit * World C)
         (pipeline : Pipeline C)
         (automl_config : AutoMLConfig (Splitter C) (Callback C) (Schema C))
         (X : DataFrame (Row C)) (y : Series) (job_log : JobLogger.t)
         (X_holdout : option (DataFrame (Row C))) (y_holdout : option Series)
         (w : World C),
    let run := evaluate_pipeline C name_of infer_X infer_y pipeline
                 automl_config X y job_log X_holdout y_holdout w in
    exists calls,
      JobLogger.logs (job_logger (snd run))
      = JobLogger.logs job_log
        ++ ("info", name_of pipeline +++ ":")
           :: map (fun c => (level_of (fst c), snd c)) calls
      /\ Forall (fun c => fst c = CallInfo \/ fst c = CallDebug) calls
      /\ Forall (trains pipeline) (train_calls (snd run))
      /\ (length (score_calls (snd run))
          <= length (train_calls (snd run)))%nat
      /\ (length (callback_calls (snd run))
          <= length (train_calls (snd run)))%nat
      /\ (forall res,
            fst run = Ok res ->
            logger res = job_logger (snd run)
            /\ exists later,
                calls
                = (CallInfo, tab +++ "Starting cross validation") :: later).
Proof.
  intros C name_of infer_X infer_y pipeline automl_config X y job_log
         X_holdout y_holdout w run.
  subst run. unfold evaluate_pipeline.
  destruct (match X_schema automl_config with
            | Some sch => ww_init_X C X sch w
            | None => infer_X X w
            end) as [[u1|e1] w1] eqn:E1;
    [|exists []; cbn; repeat split; auto; discriminate].
  destruct (match y_schema automl_config with
            | Some sch => ww_init_y C y sch w1
            | None => infer_y y w1
            end) as [[u2|e2] w2] eqn:E2;
    [|exists []; cbn; repeat split; auto; discriminate].
  destruct (@run_logged C pipeline automl_config X y
              (JobLogger.info (name_of pipeline +++ ":") job_log)
              X_holdout y_holdout w2) as (calls & Hl & Hf & Hres).
  destruct (orderly_from_enter
              (@run_orderly C pipeline automl_config X y
                 (JobLogger.info (name_of pipeline +++ ":") job_log)
                 X_holdout y_holdout w2)) as (Ht & Hs & Hc).
  exists ((CallInfo, tab +++ "Starting cross validation") :: calls).
  split; [|split; [constructor; [now left|exact Hf]|]].
  - rewrite Hl, logs_invoke_all. cbn. rewrite <- app_assoc. reflexivity.
  - split; [exact Ht|]. split; [exact Hs|]. split; [exact Hc|].
    intros res Hr. split; [exact (Hres res Hr)|eauto].
Qed.

(* ------------------------------------------------------------------ *)
(** ** A splitter that yields no fold *)

(** When the data splitter yields no fold and no holdout set is given (one
    of [X_holdout], [y_holdout] is None), [train_and_score_pipeline] does not
    fail: it trains and scores nothing and returns a report with no fold
    entry and no fold score, whose mean is the mean of an empty series, NaN;
    the pipeline of the result is the pipeline given, unfitted, the cache is
    empty, and the log gained the two lines that frame cross validation. *)
Theorem no_fold_and_no_holdout_gives_an_empty_report :
  forall (C : Collab) (pipeline : Pipeline C)
         (automl_config : AutoMLConfig (Splitter C) (Callback C) (Schema C))
         (full_X_train : DataFrame (Row C)) (full_y_train : Series)
         (job_log : JobLogger.t)
         (X_holdout : option (DataFrame (Row C))) (y_holdout : option Series)
         (w w1 : World C),
    split C (data_splitter automl_config) full_X_train
      (prepared_target C automl_config full_y_train) (snd (time_time C w))
    = (Ok [], w1) ->
    X_holdout = None \/ y_holdout = None ->
    exists r s,
      train_and_score_pipeline C pipeline automl_config full_X_train
        full_y_train job_log X_holdout y_holdout w = (Ok r, s)
      /\ cv_data (scores r) = []
      /\ cv_scores (scores r) = []
      /\ cv_score_mean (scores r) = NaN
      /\ holdout_score (scores r) = None
      /\ holdout_scores (scores r) = None
      /\ training_time (scores r)
         = (fst (time_time C w1) - fst (time_time C w))%float
      /\ stored_pipeline_of r = pipeline
      /\ cached_data r = []
      /\ JobLogger.logs (logger r)
         = JobLogger.logs job_log
           ++ [("info", tab +++ "Starting cross validation");
               ("info", tab +++ "Finished cross validation - mean "
                        +++ name (objective automl_config) +++ ": "
                        +++ format_3f C NaN)]
      /\ trace s = [].
Proof.
  intros C pipeline automl_config full_X_train full_y_train job_log
         X_holdout y_holdout w w1 Hsplit Hno.
  rewrite run_unfold. unfold train_and_score_pipeline_rest.
  unfold bind at 1. unfold call at 1.
  change (world (loop_start C pipeline job_log w)) with (snd (time_time C w)).
  rewrite Hsplit. cbn [fst snd cv_loop].
  assert (Hout : prepared_holdout C automl_config X_holdout y_holdout = None
                 \/ X_holdout = None).
  { destruct Hno as [->| ->]; [now right|left].
    unfold prepared_holdout.
    destruct (is_classification C (problem_type automl_config));
      destruct X_holdout; reflexivity. }
  destruct Hout as [Hout|Hout]; rewrite Hout.
  - destruct X_holdout; do 2 eexists; (split; [reflexivity|]);
      cbn; rewrite <- app_assoc; repeat split; reflexivity.
  - do 2 eexists. split; [reflexivity|].
    cbn. rewrite <- app_assoc. repeat split; reflexivity.
Qed.

Lemma no_fold_and_no_holdout_witness :
  exists r s,
    train_and_score_pipeline Example.toy (Example.unfitted BINARY)
      (Example.config BINARY [] (Some tt)) Example.X6 Example.y6
      JobLogger.init (Some Example.X3_holdout) None 0%nat = (Ok r, s)
    /\ cv_data (scores r) = []
    /\ PrimFloat.is_nan (cv_score_mean (scores r)) = true
    /\ stored_pipeline_of r = Example.unfitted BINARY.
Proof.
  destruct (@no_fold_and_no_holdout_gives_an_empty_report Example.toy
              (Example.unfitted BINARY) (Example.config BINARY [] (Some tt))
              Example.X6 Example.y6 JobLogger.init
              (Some Example.X3_holdout) None 0%nat 1%nat)
    as (r & s & E & Hcv & _ & Hmean & _ & _ & _ & Hp & _).
  - reflexivity.
  - now right.
  - exists r, s. split; [exact E|]. split; [exact Hcv|].
    split; [rewrite Hmean; reflexivity|exact Hp].
Defined.

(* ------------------------------------------------------------------ *)
(** ** The check on the target values of a fold *)



Lemma existsb_Zeqb_In v l : existsb (Z.eqb v) l = true <-> In v l.
Proof.
  rewrite existsb_exists. split.
  - intros (x & Hx & E). apply Z.eqb_eq in E. now subst.
  - intros H. exists v. split; [exact H|apply Z.eqb_refl].
Qed.






(* ------------------------------------------------------------------ *)
(** ** The encoding of a classification target *)

Lemma distinct_from seen y :
  NoDup seen ->
  let r := fold_left
             (fun seen v => if existsb (Z.eqb v) seen then seen else seen ++ [v])
             y seen in
  NoDup r /\ (forall v, In v r <-> In v seen \/ In v y).
Proof.
  revert seen. induction y as [|h t IH]; intros seen Hnd; cbn.
  - split; [exact Hnd|]. intros v. tauto.
  - destruct (existsb (Z.eqb h) seen) eqn:E.
    + destruct (IH seen Hnd) as [H1 H2]. split; [exact H1|].
      intros v. rewrite H2. apply existsb_Zeqb_In in E.
      split; [tauto|]. intros [H|[H|H]]; auto. subst. auto.
    + assert (Hnd' : NoDup (seen ++ [h])).
      { apply NoDup_app; [exact Hnd|constructor; [tauto|constructor]|].
        intros x Hx [Hh|[]]. subst x.
        apply existsb_Zeqb_In in Hx. congruence. }
      destruct (IH (seen ++ [h]) Hnd') as [H1 H2]. split; [exact H1|].
      intros v. rewrite H2, in_app_iff. cbn. tauto.
Qed.

Lemma distinct_spec y :
  NoDup (distinct y) /\ (forall v, In v (distinct y) <-> In v y).
Proof.
  destruct (distinct_from y (NoDup_nil Z)) as [H1 H2].
  split; [exact H1|]. intros v. rewrite (H2 v). cbn. tauto.
Qed.

Lemma insert_by_count_In b p x l :
  In p (insert_by_count b x l) <-> p = x \/ In p l.
Proof.
  induction l as [|h t IH]; cbn [insert_by_count In]; [intuition|].
  destruct (snd x <? snd h)%nat; cbn [In]; [rewrite IH; intuition|].
  destruct ((snd x =? snd h)%nat && b (fst h) (fst x)); cbn [In];
    [rewrite IH|]; intuition.
Qed.

Lemma insert_by_count_length b x l :
  length (insert_by_count b x l) = S (length l).
Proof.
  induction l as [|h t IH]; cbn [insert_by_count length]; [reflexivity|].
  destruct (snd x <? snd h)%nat; cbn [length]; [now rewrite IH|].
  destruct ((snd x =? snd h)%nat && b (fst h) (fst x)); cbn [length];
    [now rewrite IH|reflexivity].
Qed.

Lemma insert_by_count_NoDup b x l :
  NoDup (map fst l) -> ~ In (fst x) (map fst l) ->
  NoDup (map fst (insert_by_count b x l)).
Proof.
  induction l as [|h t IH]; cbn [insert_by_count map]; intros Hnd Hx.
  - constructor; [tauto|constructor].
  - assert (Hskip : NoDup (map fst (h :: insert_by_count b x t))).
    { cbn [map]. cbn [In] in Hx.
      inversion Hnd as [|? ? Hh Ht]; subst. constructor.
      - rewrite in_map_iff. intros (p & Hp & Hin).
        apply insert_by_count_In in Hin as [->|Hin];
          [apply Hx; left; now symmetry|].
        apply Hh. rewrite <- Hp. now apply in_map.
      - apply IH; [exact Ht|tauto]. }
    destruct (snd x <? snd h)%nat; [exact Hskip|].
    destruct ((snd x =? snd h)%nat && b (fst h) (fst x)); [exact Hskip|].
    cbn [map]. constructor; [exact Hx|exact Hnd].
Qed.

Lemma insert_by_count_sorted b x l :
  by_decreasing_count l -> by_decreasing_count (insert_by_count b x l).
Proof.
  induction l as [|h t IH]; cbn [insert_by_count by_decreasing_count];
    intros Hs.
  - split; [constructor|exact I].
  - destruct Hs as [Hall Hs].
    assert (Hskip : (snd x <= snd h)%nat ->
                    by_decreasing_count (h :: insert_by_count b x t)).
    { intros Hle. cbn [by_decreasing_count]. split; [|now apply IH].
      apply Forall_forall. intros p Hp.
      apply insert_by_count_In in Hp as [->|Hp]; [exact Hle|].
      now apply (proj1 (Forall_forall _ _) Hall). }
    destruct (snd x <? snd h)%nat eqn:E.
    + apply Nat.ltb_lt in E. apply Hskip. lia.
    + apply Nat.ltb_ge in E.
      destruct ((snd x =? snd h)%nat && b (fst h) (fst x)) eqn:E2.
      * apply andb_true_iff in E2 as [E2 _]. apply Nat.eqb_eq in E2.
        apply Hskip. lia.
      * cbn [by_decreasing_count]. split; [|split; assumption].
        constructor; [exact E|].
        eapply Forall_impl; [|exact Hall]. cbn. intros p Hp. lia.
Qed.

Lemma value_counts_spec b y :
  NoDup (map fst (value_counts b y))
  /\ (forall v, In v (map fst (value_counts b y)) <-> In v y)
  /\ (forall p, In p (value_counts b y) -> snd p = occurrences (fst p) y)
  /\ length (value_counts b y) = length (distinct y)
  /\ by_decreasing_count (value_counts b y).
Proof.
  unfold value_counts.
  destruct (distinct_spec y) as [Hnd Hin].
  revert Hnd Hin. generalize (distinct y) as d.
  intros d Hnd Hin.
  set (counted := fun d => fold_right (insert_by_count b) []
                             (map (fun v => (v, occurrences v y)) d)).
  assert (H : NoDup (map fst (counted d))
              /\ (forall v, In v (map fst (counted d)) <-> In v d)
              /\ (forall p, In p (counted d) ->
                            snd p = occurrences (fst p) y)
              /\ length (counted d) = length d
              /\ by_decreasing_count (counted d)).
  { clear Hin. induction d as [|h t IH].
    - cbn. repeat split; try constructor; try tauto.
    - inversion Hnd as [|? ? Hh Ht]; subst.
      destruct (IH Ht) as (I1 & I2 & I3 & I4 & I5).
      change (counted (h :: t))
        with (insert_by_count b (h, occurrences h y) (counted t)).
      assert (Hmem : forall v,
                 In v (map fst
                         (insert_by_count b (h, occurrences h y) (counted t)))
                 <-> h = v \/ In v t).
      { intros v. rewrite in_map_iff. split.
        - intros (p & Hp & Hi).
          apply insert_by_count_In in Hi as [->|Hi]; [now left|].
          right. apply I2. rewrite <- Hp. now apply in_map.
        - intros [<-|Hv].
          + exists (h, occurrences h y). split; [reflexivity|].
            apply insert_by_count_In. now left.
          + apply I2, in_map_iff in Hv as (p & Hp & Hi).
            exists p. split; [exact Hp|].
            apply insert_by_count_In. now right. }
      split; [|split; [exact Hmem|split; [|split]]].
      + apply insert_by_count_NoDup; [exact I1|]. cbn [fst].
        intros Hc. apply I2 in Hc. contradiction.
      + intros p Hp. apply insert_by_count_In in Hp as [->|Hp];
          [reflexivity|now apply I3].
      + rewrite insert_by_count_length, I4. reflexivity.
      + now apply insert_by_count_sorted. }
  destruct H as (H1 & H2 & H3 & H4 & H5).
  split; [exact H1|]. split; [|split; [exact H3|split; [exact H4|exact H5]]].
  intros v. etransitivity; [exact (H2 v)|apply Hin].
Qed.

Lemma enumerate_from_In {A} (l : list A) start n (a : A) :
  In (n, a) (combine (seq start (length l)) l) ->
  (start <= n)%nat /\ nth_error l (n - start) = Some a.
Proof.
  revert start. induction l as [|h t IH]; intros start; cbn; [tauto|].
  intros [H|H].
  - injection H as <- <-. rewrite Nat.sub_diag. split; [lia|reflexivity].
  - apply IH in H as [Hle Hn]. split; [lia|].
    replace (n - start)%nat with (S (n - S start)) by lia. exact Hn.
Qed.

Lemma enumerate_from_snd {A} (l : list A) start :
  map snd (combine (seq start (length l)) l) = l.
Proof.
  revert start. induction l as [|h t IH]; intros start; cbn;
    [reflexivity|now rewrite IH].
Qed.

(** The code of a value of [y] is its position in
    [y.value_counts().index]. *)
Lemma y_mapping_get b y v :
  In v y ->
  exists n,
    dict_get Z.eqb v
      (dict_of_items Z.eqb
         (map (fun p => (snd p, Z.of_nat (fst p)))
              (enumerate (map fst (value_counts b y)))))
    = Some (Z.of_nat n)
    /\ nth_error (map fst (value_counts b y)) n = Some v.
Proof.
  intros Hv.
  destruct (value_counts_spec b y) as (_ & Hin & _).
  set (idx := map fst (value_counts b y)) in *.
  set (items := map (fun p : nat * Z => (snd p, Z.of_nat (fst p)))
                    (enumerate idx)).
  assert (Hkeys : map fst items = idx).
  { unfold items, enumerate. rewrite map_map. cbn.
    apply enumerate_from_snd. }
  unfold dict_of_items. rewrite (dict_get_update Z.eqb Z.eqb_eq).
  destruct (dict_get_present Z.eqb Z.eqb_eq v (rev items)) as [c Hc].
  { rewrite map_rev, <- in_rev, Hkeys. now apply Hin. }
  rewrite Hc.
  apply (dict_get_In Z.eqb Z.eqb_eq) in Hc. apply in_rev in Hc.
  unfold items in Hc. apply in_map_iff in Hc as ([n a] & Hp & Hi).
  cbn in Hp. injection Hp as -> <-.
  apply enumerate_from_In in Hi as [_ Hn]. rewrite Nat.sub_0_r in Hn.
  exists n. split; [reflexivity|exact Hn].
Qed.

Lemma encoded_nth b y i a :
  nth_error y i = Some a ->
  exists n,
    nth_error (_encode_classification_target b y) i = Some (Z.of_nat n)
    /\ nth_error (value_counts b y) n = Some (a, occurrences a y).
Proof.
  intros Hi.
  destruct (y_mapping_get b y a (nth_error_In _ _ Hi)) as (n & Hget & Hn).
  exists n. split.
  - unfold _encode_classification_target. rewrite nth_error_map, Hi. cbn.
    now rewrite Hget.
  - rewrite nth_error_map in Hn.
    destruct (nth_error (value_counts b y) n) as [[v c]|] eqn:E;
      [|discriminate].
    cbn in Hn. injection Hn as ->.
    destruct (value_counts_spec b y) as (_ & _ & Hocc & _).
    pose proof (Hocc _ (nth_error_In _ _ E)) as Ho. cbn in Ho. now subst c.
Qed.

Lemma by_decreasing_count_nth l :
  by_decreasing_count l ->
  forall m n p q,
    (m < n)%nat -> nth_error l m = Some p -> nth_error l n = Some q ->
    (snd q <= snd p)%nat.
Proof.
  induction l as [|h t IH]; intros Hs m n p q Hmn Hm Hn.
  - destruct m; discriminate.
  - destruct Hs as [Hall Hs]. destruct n as [|n]; [lia|]. cbn in Hn.
    destruct m as [|m].
    + cbn in Hm. injection Hm as <-.
      exact (proj1 (Forall_forall _ _) Hall _ (nth_error_In _ _ Hn)).
    + cbn in Hm. apply (IH Hs m n); [lia|assumption|assumption].
Qed.

(** [_encode_classification_target] relabels, whatever the order in which
    pandas lists equally frequent values: the encoded target has the
    length of the target; its values are the integers from 0 up to (not
    including) the number of distinct values of the target; two rows get
    the same code exactly when they held the same value; and a value with
    a smaller code occurs in the target at least as often as one with a
    larger code (the codes follow [value_counts], most frequent first). *)
Theorem encoded_target_relabels_by_frequency :
  forall (listed_before : Z -> Z -> bool) (y : Series),
    length (_encode_classification_target listed_before y) = length y
    /\ (forall c,
          In c (_encode_classification_target listed_before y) ->
          (0 <= c < Z.of_nat (length (distinct y)))%Z)
    /\ (forall i j a b c d,
          nth_error y i = Some a ->
          nth_error y j = Some b ->
          nth_error (_encode_classification_target listed_before y) i
          = Some c ->
          nth_error (_encode_classification_target listed_before y) j
          = Some d ->
          (c = d <-> a = b)
          /\ ((c < d)%Z -> (occurrences b y <= occurrences a y)%nat)).
Proof.
  intros lb y. split; [apply encode_length|]. split.
  - intros c Hc. apply In_nth_error in Hc as [i Hi].
    destruct (nth_error y i) as [a|] eqn:Ha.
    + destruct (encoded_nth lb y i Ha) as (n & Hn & Hv).
      rewrite Hn in Hi. injection Hi as <-.
      destruct (value_counts_spec lb y) as (_ & _ & _ & Hlen & _).
      rewrite <- Hlen.
      assert (n < length (value_counts lb y))%nat
        by (apply nth_error_Some; congruence).
      lia.
    + apply nth_error_None in Ha.
      rewrite <- (encode_length lb) in Ha.
      apply nth_error_None in Ha. congruence.
  - intros i j a b c d Ha Hb Hc Hd.
    destruct (encoded_nth lb y i Ha) as (m & Hm & Hvm).
    destruct (encoded_nth lb y j Hb) as (n & Hn & Hvn).
    rewrite Hm in Hc. rewrite Hn in Hd.
    injection Hc as <-. injection Hd as <-.
    destruct (value_counts_spec lb y) as (Hnd & _ & _ & _ & Hsorted).
    split; [split|].
    + intros E. apply Nat2Z.inj in E. subst n.
      rewrite Hvm in Hvn. now injection Hvn.
    + intros <-. f_equal.
      apply (proj1 (NoDup_nth_error (map fst (value_counts lb y))) Hnd).
      * rewrite length_map. apply nth_error_Some. congruence.
      * now rewrite !nth_error_map, Hvm, Hvn.
    + intros Hlt.
      apply (@by_decreasing_count_nth _ Hsorted m n
               (a, occurrences a y) (b, occurrences b y));
        [lia|assumption|assumption].
Qed.

(* ------------------------------------------------------------------ *)
(** ** ARIMARegressor: parameters *)

Section DictFilter.
Variables K V : Type.
Variable eqb : K -> K -> bool.
Hypothesis eqb_eq : forall a b, eqb a b = true <-> a = b.
Variable keep : K -> bool.

Lemma dict_set_fresh k (v : V) (d : dict K V) :
  ~ In k (map fst d) -> dict_set eqb k v d = d ++ [(k, v)].
Proof.
  induction d as [|[k0 v0] d IH]; cbn; intros Hk; [reflexivity|].
  destruct (eqb k k0) eqn:E.
  - apply eqb_eq in E. subst. tauto.
  - rewrite IH by tauto. reflexivity.
Qed.

Lemma filter_dict_set k (v : V) (d : dict K V) :
  filter (fun c => keep (fst c)) (dict_set eqb k v d)
  = if keep k
    then dict_set eqb k v (filter (fun c => keep (fst c)) d)
    else filter (fun c => keep (fst c)) d.
Proof.
  induction d as [|[k0 v0] d IH]; cbn.
  - destruct (keep k); reflexivity.
  - destruct (eqb k k0) eqn:E; cbn.
    + apply eqb_eq in E. subst k0.
      destruct (keep k); cbn; [|reflexivity].
      assert (Hr : eqb k k = true) by now apply eqb_eq.
      now rewrite Hr.
    + rewrite IH. destruct (keep k0), (keep k); cbn; try reflexivity.
      now rewrite E.
Qed.

Lemma filter_dict_update (items : list (K * V)) (d : dict K V) :
  filter (fun c => keep (fst c)) (dict_update eqb d items)
  = dict_update eqb (filter (fun c => keep (fst c)) d)
      (filter (fun c => keep (fst c)) items).
Proof.
  revert d. unfold dict_update.
  induction items as [|[k v] items IH]; intros d; cbn; [reflexivity|].
  rewrite IH, filter_dict_set. destruct (keep k); reflexivity.
Qed.

Lemma fold_keep_filter (d acc : dict K V) :
  NoDup (map fst acc ++ map fst d) ->
  fold_left
    (fun new kv => if keep (fst kv) then dict_set eqb (fst kv) (snd kv) new
                   else new) d acc
  = acc ++ filter (fun c => keep (fst c)) d.
Proof.
  revert acc. induction d as [|[k v] d IH]; intros acc Hnd; cbn.
  - now rewrite app_nil_r.
  - cbn in Hnd. destruct (keep k).
    + rewrite dict_set_fresh.
      * rewrite IH.
        -- now rewrite <- app_assoc.
        -- rewrite map_app. cbn. rewrite <- app_assoc. exact Hnd.
      * intros Hin. apply NoDup_remove_2 in Hnd. apply Hnd.
        apply in_or_app. now left.
    + apply IH. now apply NoDup_remove_1 in Hnd.
Qed.

End DictFilter.

Lemma new_params_filter (parameters : dict string ARIMARegressor.param) :
  NoDup (map fst parameters) ->
  ARIMARegressor.new_params parameters
  = filter (fun c => negb (existsb (String.eqb (fst c)) ["p"; "d"; "q"; "dates"]))
           parameters.
Proof.
  intros Hnd. unfold ARIMARegressor.new_params.
  etransitivity;
    [|exact (fold_keep_filter String.eqb String.eqb_eq
               (fun k => negb (existsb (String.eqb k) ["p"; "d"; "q"; "dates"]))
               parameters [] Hnd)].
  generalize (@nil (string * ARIMARegressor.param)).
  clear Hnd. induction parameters as [|kv rest IH]; intros acc;
    [reflexivity|].
  cbn [fold_left]. rewrite <- IH.
  destruct (existsb (String.eqb (fst kv)) ["p"; "d"; "q"; "dates"]);
    reflexivity.
Qed.

Lemma dict_get_filtered_out {V} (keep : string -> bool) k (d : dict string V) :
  keep k = false ->
  dict_get String.eqb k (filter (fun c => keep (fst c)) d) = None.
Proof.
  intros Hk. apply (dict_get_absent String.eqb String.eqb_eq).
  rewrite in_map_iff. intros ([k0 v0] & <- & Hin).
  apply filter_In in Hin as [_ Hkeep]. cbn in *. congruence.
Qed.

Lemma dict_get_None_not_key {V} k (d : dict string V) :
  dict_get String.eqb k d = None -> ~ In k (map fst d).
Proof.
  intros Hn Hin.
  destruct (dict_get_present String.eqb String.eqb_eq k d Hin) as [v Hv].
  congruence.
Qed.

(** What statsmodels is given at [fit].  The parameters an ARIMARegressor
    was built with hold [p], [d] and [q] as they were passed; and the
    keyword arguments [fit] passes to [arima.ARIMA] are [order] and
    [trend], overridden and followed by the keyword arguments given to the
    constructor other than [dates] (and [p], [d], [q]), in the order given:
    [dates], [p], [d] and [q] are never among them, and unless a keyword
    argument [order] was given, [order] is [(p, d, q)]. *)
Theorem fit_passes_order_trend_and_the_keyword_arguments :
  forall (import_or_raise : ARIMARegressor.Outcome unit)
         (ARIMA : Z -> dict string ARIMARegressor.param
                  -> ARIMARegressor.Outcome unit)
         (date_column : option string) (trend : string)
         (p : ARIMARegressor.order_arg) (d : Z) (q : ARIMARegressor.order_arg)
         (kwargs : list (string * ARIMARegressor.param))
         (parameters : dict string ARIMARegressor.param),
    ARIMARegressor.__init__ import_or_raise ARIMA date_column trend p d q kwargs
    = ARIMARegressor.Return parameters ->
    ARIMARegressor.new_params parameters
    = dict_update String.eqb
        [("order", ARIMARegressor.Order p d q);
         ("trend", ARIMARegressor.Str trend)]
        (filter (fun kv => negb (existsb (String.eqb (fst kv))
                                   ["p"; "d"; "q"; "dates"])) kwargs)
    /\ dict_get String.eqb "p" parameters = Some (ARIMARegressor.Num p)
    /\ dict_get String.eqb "d" parameters
       = Some (ARIMARegressor.Num (ARIMARegressor.Int d))
    /\ dict_get String.eqb "q" parameters = Some (ARIMARegressor.Num q)
    /\ (forall k, In k ["p"; "d"; "q"; "dates"] ->
                  dict_get String.eqb k (ARIMARegressor.new_params parameters)
                  = None)
    /\ (dict_get String.eqb "order" kwargs = None ->
        dict_get String.eqb "order" (ARIMARegressor.new_params parameters)
        = Some (ARIMARegressor.Order p d q)).
Proof.
  intros import_or_raise ARIMA date_column trend p d q kwargs parameters H.
  unfold ARIMARegressor.__init__ in H.
  destruct import_or_raise as [u|e]; [|discriminate].
  unfold ARIMARegressor.and_then in H. cbv zeta in H.
  match type of H with
  | match ARIMA ?n ?ps with _ => _ end = _ =>
      destruct (ARIMA n ps) as [u'|e]; [|destruct e; discriminate]
  end.
  match type of H with
  | ARIMARegressor.Return ?final = _ =>
      assert (Hp : parameters = final) by congruence
  end.
  clear H. subst parameters.
  change (dict_of_items String.eqb
            [("order", ARIMARegressor.Order p d q);
             ("trend", ARIMARegressor.Str trend);
             ("dates", ARIMARegressor.DatetimeIndex date_column)])
    with [("order", ARIMARegressor.Order p d q);
          ("trend", ARIMARegressor.Str trend);
          ("dates", ARIMARegressor.DatetimeIndex date_column)].
  set (keep := fun k : string =>
                 negb (existsb (String.eqb k) ["p"; "d"; "q"; "dates"])).
  assert (Hnew :
    ARIMARegressor.new_params
      (dict_update String.eqb
         (dict_update String.eqb
            [("order", ARIMARegressor.Order p d q);
             ("trend", ARIMARegressor.Str trend);
             ("dates", ARIMARegressor.DatetimeIndex date_column)] kwargs)
         [("p", ARIMARegressor.Num p);
          ("d", ARIMARegressor.Num (ARIMARegressor.Int d));
          ("q", ARIMARegressor.Num q)])
    = dict_update String.eqb
        [("order", ARIMARegressor.Order p d q);
         ("trend", ARIMARegressor.Str trend)]
        (filter (fun kv => keep (fst kv)) kwargs)).
  { rewrite new_params_filter.
    - change (fun c : string * ARIMARegressor.param =>
                negb (existsb (String.eqb (fst c)) ["p"; "d"; "q"; "dates"]))
        with (fun c : string * ARIMARegressor.param => keep (fst c)).
      rewrite !(filter_dict_update String.eqb String.eqb_eq keep).
      reflexivity.
    - apply dict_update_NoDup, dict_update_NoDup.
      repeat constructor; cbn; intuition discriminate. }
  split; [exact Hnew|].
  split; [rewrite (dict_get_update String.eqb String.eqb_eq); reflexivity|].
  split; [rewrite (dict_get_update String.eqb String.eqb_eq); reflexivity|].
  split; [rewrite (dict_get_update String.eqb String.eqb_eq); reflexivity|].
  split.
  - intros k Hk. rewrite new_params_filter.
    + apply (dict_get_filtered_out keep).
      cbn in Hk. destruct Hk as [<-|[<-|[<-|[<-|[]]]]]; reflexivity.
    + apply dict_update_NoDup, dict_update_NoDup.
      repeat constructor; cbn; intuition discriminate.
  - intros Hno. rewrite Hnew, (dict_get_update String.eqb String.eqb_eq).
    rewrite (dict_get_absent String.eqb String.eqb_eq); [reflexivity|].
    rewrite map_rev, <- in_rev, in_map_iff.
    intros ([k0 v0] & Hk & Hin). cbn in Hk. subst k0.
    apply filter_In in Hin as [Hin _].
    apply (dict_get_None_not_key _ _ Hno).
    apply in_map_iff. exists ("order", v0). split; [reflexivity|exact Hin].
Qed.

Lemma fit_passes_witness :
  exists parameters,
    ARIMARegressor.__init__ (ARIMARegressor.Return tt)
      ARIMARegressor.toy_ARIMA (Some "day") "n"
      (ARIMARegressor.IntList [1; 2]%Z) 0%Z (ARIMARegressor.Int 1%Z)
      [("dates", ARIMARegressor.Object "a list");
       ("enforce_stationarity", ARIMARegressor.Object "False")]
    = ARIMARegressor.Return parameters
    /\ ARIMARegressor.new_params parameters
       = [("order",
           ARIMARegressor.Order (ARIMARegressor.IntList [1; 2]%Z) 0%Z
             (ARIMARegressor.Int 1%Z));
          ("trend", ARIMARegressor.Str "n");
          ("enforce_stationarity", ARIMARegressor.Object "False")].
Proof.
  eexists. split; [reflexivity|].
  refine (proj1 (@fit_passes_order_trend_and_the_keyword_arguments
                   (ARIMARegressor.Return tt) ARIMARegressor.toy_ARIMA
                   (Some "day") "n" (ARIMARegressor.IntList [1; 2]%Z) 0%Z
                   (ARIMARegressor.Int 1%Z)
                   [("dates", ARIMARegressor.Object "a list");
                    ("enforce_stationarity", ARIMARegressor.Object "False")]
                   _ eq_refl)).
Defined.

(* ------------------------------------------------------------------ *)
(** ** ARIMARegressor: the dates of the data *)

Lemma dates_from_X_no_dates parameters (X : option ARIMARegressor.Frame)
  (date_col : option ARIMARegressor.Values) :
  ARIMARegressor.dates_from_X parameters X date_col
  = ARIMARegressor.Throw (ARIMARegressor.ValueError ARIMARegressor.no_dates_msg)
  <-> date_col = None
      /\ match X with
         | None => True
         | Some X' =>
             exists name,
               ARIMARegressor.dates_name parameters
               = ARIMARegressor.Return name
               /\ ARIMARegressor.pop name X' = None
               /\ ARIMARegressor.type_string (ARIMARegressor.X_index X')
                  <> "datetime"
         end.
Proof.
  unfold ARIMARegressor.dates_from_X.
  destruct X as [X'|]; cbn.
  - destruct (ARIMARegressor.dates_name parameters) as [name|e] eqn:Hname;
      cbn.
    2:{ split; [|intros (_ & n & H & _); discriminate].
        intros [= ->]. unfold ARIMARegressor.dates_name in Hname.
        destruct (dict_get String.eqb "dates" parameters) as [[]|];
          discriminate. }
    destruct (ARIMARegressor.pop name X') as [[column X'']|] eqn:Hpop; cbn.
    + split; [discriminate|]. intros (_ & n & Hn & Hp & _).
      injection Hn as <-. congruence.
    + destruct (String.eqb _ "datetime") eqn:E; cbn.
      * split; [discriminate|]. intros (_ & n & _ & _ & Hne).
        apply String.eqb_eq in E. contradiction.
      * apply String.eqb_neq in E.
        destruct date_col as [dates|]; cbn.
        -- split; [discriminate|]. intros [H _]. discriminate.
        -- split; [|reflexivity]. intros _. split; [reflexivity|].
           exists name. auto.
  - destruct date_col as [dates|]; cbn.
    + split; [discriminate|]. intros [H _]. discriminate.
    + tauto.
Qed.

(** Where the dates come from.  Given a target, [_get_dates_predict] finds
    what [_get_dates_fit] finds.  A column of [X] labelled with the name of
    [parameters["dates"]] wins over everything, and is taken out of [X];
    and the ValueError that asks for a datetime column is raised exactly
    when neither such a column, nor the index of [X], nor the index of the
    target gives datetimes, where at [predict] a missing target gives
    none. *)
Theorem fit_and_predict_find_the_same_dates :
  forall (parameters : dict string ARIMARegressor.param)
         (X : option ARIMARegressor.Frame) (y : ARIMARegressor.Target),
    let no_dates_in_X :=
      match X with
      | None => True
      | Some X' =>
          exists name,
            ARIMARegressor.dates_name parameters = ARIMARegressor.Return name
            /\ ARIMARegressor.pop name X' = None
            /\ ARIMARegressor.type_string (ARIMARegressor.X_index X')
               <> "datetime"
      end in
    ARIMARegressor._get_dates_predict parameters X (Some y)
    = ARIMARegressor._get_dates_fit parameters X (Some y)
    /\ (ARIMARegressor._get_dates_fit parameters X (Some y)
        = ARIMARegressor.Throw
            (ARIMARegressor.ValueError ARIMARegressor.no_dates_msg)
        <-> ARIMARegressor.type_string (ARIMARegressor.y_index y)
            <> "datetime"
            /\ no_dates_in_X)
    /\ (ARIMARegressor._get_dates_predict parameters X None
        = ARIMARegressor.Throw
            (ARIMARegressor.ValueError ARIMARegressor.no_dates_msg)
        <-> no_dates_in_X)
    /\ (forall X' name column X'',
          X = Some X' ->
          ARIMARegressor.dates_name parameters = ARIMARegressor.Return name ->
          ARIMARegressor.pop name X' = Some (column, X'') ->
          ARIMARegressor._get_dates_fit parameters X (Some y)
          = ARIMARegressor.Return (column, Some X'')
          /\ ARIMARegressor._get_dates_predict parameters X None
             = ARIMARegressor.Return (column, Some X'')
          /\ ~ In name (map (fun c => Some (fst c))
                            (ARIMARegressor.X_columns X''))).
Proof.
  intros parameters X y no_dates_in_X.
  split; [reflexivity|]. split; [|split].
  - unfold ARIMARegressor._get_dates_fit.
    rewrite dates_from_X_no_dates. fold no_dates_in_X.
    destruct (String.eqb _ "datetime") eqn:E.
    + apply String.eqb_eq in E. split; [intros [H _]; discriminate|].
      intros [H _]. contradiction.
    + apply String.eqb_neq in E. tauto.
  - unfold ARIMARegressor._get_dates_predict.
    rewrite dates_from_X_no_dates. fold no_dates_in_X. tauto.
  - intros X' name column X'' -> Hname Hpop.
    unfold ARIMARegressor._get_dates_fit, ARIMARegressor._get_dates_predict,
      ARIMARegressor.dates_from_X.
    cbn. rewrite Hname. cbn. rewrite Hpop. cbn.
    split; [reflexivity|]. split; [reflexivity|].
    unfold ARIMARegressor.pop in Hpop.
    destruct name as [n|]; [|discriminate].
    destruct (dict_get String.eqb n (ARIMARegressor.X_columns X'));
      [|discriminate].
    injection Hpop as _ <-. cbn.
    rewrite in_map_iff. intros ([k0 v0] & Hk & Hin).
    injection Hk as ->. apply filter_In in Hin as [_ Hneq].
    cbn in Hneq. rewrite String.eqb_refl in Hneq. discriminate.
Qed.




